(** * Disease susceptibility predictor: scoring rules and the two stores

    A shallow embedding of [disease_susceptibility_predictor.py]:
    the scoring function [calculate_disease_risk], the credential store
    ([create_user], [authenticate_user]) and the prediction store
    ([save_prediction], [get_user_predictions]).

    Conventions of the embedding.
    - A patient record is a Python dict with string keys: [gmap string value].
    - A Python number (the form yields finite ints and floats) is a rational
      [Q]; the thresholds of the source (45, 6.5, ...) are exact rationals and
      Python compares ints and floats by value, so [Qlt] is the comparison.
    - A Python [str] is a [string] holding the UTF-8 encoding of the text.
      On ASCII text [str.lower()] maps 'A'..'Z' to 'a'..'z' and leaves the
      rest alone; on other text it follows the Unicode case mapping, which
      is a table of the Python runtime and a parameter here
      ([unicode_lower]).  The needles the code looks for are ASCII, so a
      needle occurs in a text exactly when its bytes occur in the encoding.
    - Exceptions are explicit: a computation returns [Ok v] or [Raise e].
    - The SQLite tables are lists of rows in insertion order; the clock
      ([CURRENT_TIMESTAMP], [datetime.now()]) is an argument. *)

From Stdlib Require Import ZArith QArith String Ascii List Lia Lqa.
From Stdlib Require Import Sorting.Permutation Sorting.Sorted.
From stdpp Require Import base option list gmap strings pretty.

Local Open Scope string_scope.
Local Open Scope list_scope.
Local Open Scope Z_scope.

(** ** Python values, exceptions *)

Inductive value : Type :=
  | VNum (q : Q)
  | VStr (s : string).

Inductive exn : Type :=
  | KeyError (k : string)
  | TypeError
  | AttributeError.

Inductive result (A : Type) : Type :=
  | Ok (a : A)
  | Raise (e : exn).
Arguments Ok {A} a.
Arguments Raise {A} e.

(** Sequencing: the first exception raised ends the computation. *)
Definition bind {A B : Type} (m : result A) (f : A -> result B) : result B :=
  match m with
  | Ok a => f a
  | Raise e => Raise e
  end.

Notation "x <- m ;; k" := (bind m (fun x => k))
  (at level 100, m at next level, right associativity).

(** ** Strings: [str.lower()] and the substring test [needle in hay] *)

Definition lower_ascii (c : ascii) : ascii :=
  let n := N_of_ascii c in
  if ((65 <=? n) && (n <=? 90))%N then ascii_of_N (n + 32) else c.

Fixpoint ascii_lower (s : string) : string :=
  match s with
  | EmptyString => EmptyString
  | String c t => String (lower_ascii c) (ascii_lower t)
  end.

(** The text has ASCII characters only: every byte of its encoding is
    below 128. *)
Fixpoint is_ascii (s : string) : bool :=
  match s with
  | EmptyString => true
  | String c t => (N_of_ascii c <? 128)%N && is_ascii t
  end.

(** [len(s)]: the number of characters of the text, which is the number of
    bytes of its encoding that do not continue a character (a continuation
    byte of UTF-8 is one in 128..191). *)
Fixpoint py_len (s : string) : nat :=
  match s with
  | EmptyString => O
  | String c t =>
      let n := N_of_ascii c in
      if ((128 <=? n) && (n <? 192))%N then py_len t else S (py_len t)
  end.

Fixpoint str_in (needle hay : string) : bool :=
  String.prefix needle hay ||
  match hay with
  | EmptyString => false
  | String _ t => str_in needle t
  end.

Section Scoring.

(** [str.lower()] on a text with a character outside ASCII: the Unicode
    case mapping of the Python runtime (it sends the Kelvin sign U+212A to
    'k', for one), not part of the repository. *)
Variable unicode_lower : string -> string.

(** [s.lower()] *)
Definition lower (s : string) : string :=
  if is_ascii s then ascii_lower s else unicode_lower s.

(** ** Dict access and the operators the scoring function uses *)

(** [data[k]] *)
Definition getitem (data : gmap string value) (k : string) : result value :=
  match data !! k with
  | Some v => Ok v
  | None => Raise (KeyError k)
  end.

(** [data.get(k, dflt)] *)
Definition get (data : gmap string value) (k : string) (dflt : value) : value :=
  match data !! k with
  | Some v => v
  | None => dflt
  end.

(** [v > n] and [v < n] against a numeric literal *)
Definition py_gt (v : value) (n : Q) : result bool :=
  match v with
  | VNum q => Ok (negb (Qle_bool q n))
  | VStr _ => Raise TypeError
  end.

Definition py_lt (v : value) (n : Q) : result bool :=
  match v with
  | VNum q => Ok (negb (Qle_bool n q))
  | VStr _ => Raise TypeError
  end.

(** [data[k] > n] and [data[k] < n] *)
Definition item_gt (data : gmap string value) (k : string) (n : Q) : result bool :=
  v <- getitem data k ;; py_gt v n.

Definition item_lt (data : gmap string value) (k : string) (n : Q) : result bool :=
  v <- getitem data k ;; py_lt v n.

(** [v.lower()] *)
Definition py_lower (v : value) : result string :=
  match v with
  | VStr s => Ok (lower s)
  | VNum _ => Raise AttributeError
  end.

(** [v in [s1, s2, ...]] for a list of string literals *)
Definition py_in_list (v : value) (l : list string) : bool :=
  match v with
  | VStr s => existsb (String.eqb s) l
  | VNum _ => false
  end.

(** [a or b] on two tests, the second evaluated only when the first is false *)
Definition py_or (a b : result bool) : result bool :=
  x <- a ;; if x then Ok true else b.

(** [risks[name] = score] on an insertion-ordered dict *)
Fixpoint setitem (risks : list (string * Z)) (name : string) (score : Z)
  : list (string * Z) :=
  match risks with
  | [] => [(name, score)]
  | (k, v) :: rest =>
      if String.eqb k name then (k, score) :: rest
      else (k, v) :: setitem rest name score
  end.

(** [risks[name]] *)
Fixpoint score_of (risks : list (string * Z)) (name : string) : option Z :=
  match risks with
  | [] => None
  | (k, v) :: rest => if String.eqb k name then Some v else score_of rest name
  end.

(** ** Recommendation texts *)

Definition rec_blood_pressure : string :=
  "Monitor blood pressure regularly and consider medication if advised by doctor".
Definition rec_cholesterol : string :=
  "Follow a low-cholesterol diet and consider statin therapy".
Definition rec_weight : string :=
  "Weight management through diet and exercise".
Definition rec_smoking : string :=
  "Quit smoking immediately - seek professional help if needed".
Definition rec_endocrinologist : string :=
  "Immediate consultation with endocrinologist required".
Definition rec_glucose : string :=
  "Monitor blood sugar levels and follow diabetic-friendly diet".
Definition rec_activity : string :=
  "Increase physical activity to at least 150 minutes per week".
Definition rec_alcohol : string :=
  "Reduce alcohol consumption".
Definition rec_default : string :=
  "Maintain current healthy lifestyle".
Definition rec_checkups : string :=
  "Regular health check-ups every 6-12 months".
Definition rec_diet : string :=
  "Follow a balanced diet rich in fruits and vegetables".

(** ** The scoring function, block by block *)

(** Lines 127-148: the cardiovascular block.  Returns the local [cv_risk]
    before clamping and the recommendation list after the block. *)
Definition cardiovascular (data : gmap string value) (recommendations : list string)
  : result (Z * list string) :=
  let cv_risk := 0 in
  c <- item_gt data "age" 45 ;;
  let cv_risk := if c then cv_risk + 20 else cv_risk in
  g <- (v <- getitem data "gender" ;; py_lower v) ;;
  let cv_risk := if String.eqb g "male" then cv_risk + 10 else cv_risk in
  c <- py_or (item_gt data "blood_pressure_systolic" 140)
            (item_gt data "blood_pressure_diastolic" 90) ;;
  let cv_risk := if c then cv_risk + 25 else cv_risk in
  let recommendations :=
    if c then recommendations ++ [rec_blood_pressure] else recommendations in
  c <- item_gt data "cholesterol_total" 240 ;;
  let cv_risk := if c then cv_risk + 20 else cv_risk in
  let recommendations :=
    if c then recommendations ++ [rec_cholesterol] else recommendations in
  c <- item_lt data "cholesterol_hdl" 40 ;;
  let cv_risk := if c then cv_risk + 15 else cv_risk in
  c <- item_gt data "bmi" 30 ;;
  let cv_risk := if c then cv_risk + 15 else cv_risk in
  let recommendations :=
    if c then recommendations ++ [rec_weight] else recommendations in
  v <- getitem data "smoking_status" ;;
  let c := py_in_list v ["Current smoker"; "Heavy smoker"] in
  let cv_risk := if c then cv_risk + 30 else cv_risk in
  let recommendations :=
    if c then recommendations ++ [rec_smoking] else recommendations in
  h <- py_lower (get data "family_history" (VStr "")) ;;
  let cv_risk := if str_in "heart disease" h then cv_risk + 20 else cv_risk in
  Ok (cv_risk, recommendations).

(** Lines 153-170: the diabetes block. *)
Definition diabetes (data : gmap string value) (recommendations : list string)
  : result (Z * list string) :=
  let diabetes_risk := 0 in
  c <- item_gt data "age" 45 ;;
  let diabetes_risk := if c then diabetes_risk + 15 else diabetes_risk in
  c <- item_gt data "bmi" 25 ;;
  let diabetes_risk := if c then diabetes_risk + 20 else diabetes_risk in
  c <- item_gt data "blood_sugar_fasting" 126 ;;
  r <-
    (if c then
       Ok (diabetes_risk + 40, recommendations ++ [rec_endocrinologist])
     else
       c' <- item_gt data "blood_sugar_fasting" 100 ;;
       if c' then Ok (diabetes_risk + 25, recommendations ++ [rec_glucose])
       else Ok (diabetes_risk, recommendations)) ;;
  let '(diabetes_risk, recommendations) := r in
  c <- py_gt (get data "hba1c" (VNum 0)) 6.5 ;;
  let diabetes_risk := if c then diabetes_risk + 35 else diabetes_risk in
  h <- py_lower (get data "family_history" (VStr "")) ;;
  let diabetes_risk := if str_in "diabetes" h then diabetes_risk + 25 else diabetes_risk in
  v <- getitem data "exercise_frequency" ;;
  let c := py_in_list v ["Never"; "Rarely"] in
  let diabetes_risk := if c then diabetes_risk + 15 else diabetes_risk in
  let recommendations :=
    if c then recommendations ++ [rec_activity] else recommendations in
  Ok (diabetes_risk, recommendations).

(** Lines 175-186: the hypertension block. *)
Definition hypertension (data : gmap string value) (recommendations : list string)
  : result (Z * list string) :=
  let hypertension_risk := 0 in
  c <- py_or (item_gt data "blood_pressure_systolic" 120)
            (item_gt data "blood_pressure_diastolic" 80) ;;
  let hypertension_risk := if c then hypertension_risk + 30 else hypertension_risk in
  c <- item_gt data "age" 50 ;;
  let hypertension_risk := if c then hypertension_risk + 20 else hypertension_risk in
  c <- item_gt data "bmi" 25 ;;
  let hypertension_risk := if c then hypertension_risk + 15 else hypertension_risk in
  v <- getitem data "alcohol_consumption" ;;
  let c := py_in_list v ["Heavy drinker"; "Daily"] in
  let hypertension_risk := if c then hypertension_risk + 20 else hypertension_risk in
  let recommendations :=
    if c then recommendations ++ [rec_alcohol] else recommendations in
  h <- py_lower (get data "family_history" (VStr "")) ;;
  let hypertension_risk :=
    if str_in "hypertension" h then hypertension_risk + 25 else hypertension_risk in
  Ok (hypertension_risk, recommendations).

(** Lines 191-199: the metabolic syndrome block (no recommendations). *)
Definition metabolic (data : gmap string value) : result Z :=
  let metabolic_risk := 0 in
  c <- item_gt data "bmi" 30 ;;
  let metabolic_risk := if c then metabolic_risk + 25 else metabolic_risk in
  c <- item_gt data "blood_sugar_fasting" 100 ;;
  let metabolic_risk := if c then metabolic_risk + 20 else metabolic_risk in
  c <- item_lt data "cholesterol_hdl" 50 ;;
  let metabolic_risk := if c then metabolic_risk + 15 else metabolic_risk in
  c <- item_gt data "blood_pressure_systolic" 130 ;;
  let metabolic_risk := if c then metabolic_risk + 20 else metabolic_risk in
  Ok metabolic_risk.

(** Lines 204-212: the stroke block (no recommendations). *)
Definition stroke (data : gmap string value) : result Z :=
  let stroke_risk := 0 in
  c <- item_gt data "age" 55 ;;
  let stroke_risk := if c then stroke_risk + 20 else stroke_risk in
  c <- item_gt data "blood_pressure_systolic" 140 ;;
  let stroke_risk := if c then stroke_risk + 25 else stroke_risk in
  v <- getitem data "smoking_status" ;;
  let stroke_risk :=
    if py_in_list v ["Current smoker"; "Heavy smoker"] then stroke_risk + 25
    else stroke_risk in
  h <- py_lower (get data "family_history" (VStr "")) ;;
  let stroke_risk := if str_in "stroke" h then stroke_risk + 30 else stroke_risk in
  Ok stroke_risk.

(** Lines 216-220: the general recommendations. *)
Definition general_recommendations (recommendations : list string) : list string :=
  let recommendations :=
    match recommendations with
    | [] => recommendations ++ [rec_default]
    | _ :: _ => recommendations
    end in
  let recommendations := recommendations ++ [rec_checkups] in
  recommendations ++ [rec_diet].

(** Lines 122-222. *)
Definition calculate_disease_risk (data : gmap string value)
  : result (list (string * Z) * list string) :=
  let risks := [] in
  let recommendations := [] in
  r <- cardiovascular data recommendations ;;
  let '(cv_risk, recommendations) := r in
  let risks := setitem risks "Cardiovascular Disease" (Z.min cv_risk 100) in
  r <- diabetes data recommendations ;;
  let '(diabetes_risk, recommendations) := r in
  let risks := setitem risks "Type 2 Diabetes" (Z.min diabetes_risk 100) in
  r <- hypertension data recommendations ;;
  let '(hypertension_risk, recommendations) := r in
  let risks := setitem risks "Hypertension" (Z.min hypertension_risk 100) in
  metabolic_risk <- metabolic data ;;
  let risks := setitem risks "Metabolic Syndrome" (Z.min metabolic_risk 100) in
  stroke_risk <- stroke data ;;
  let risks := setitem risks "Stroke" (Z.min stroke_risk 100) in
  Ok (risks, general_recommendations recommendations).

(** The record of the spec's worked example. *)
Definition example_record : gmap string value :=
  <["age" := VNum 50]>
  (<["gender" := VStr "Male"]>
  (<["blood_pressure_systolic" := VNum 150]>
  (<["blood_pressure_diastolic" := VNum 70]>
  (<["cholesterol_total" := VNum 200]>
  (<["cholesterol_hdl" := VNum 45]>
  (<["bmi" := VNum 22]>
  (<["smoking_status" := VStr "Never smoked"]>
  (<["family_history" := VStr ""]>
  (<["blood_sugar_fasting" := VNum 90]>
  (<["alcohol_consumption" := VStr "Never"]>
  (<["exercise_frequency" := VStr "Daily"]> ∅))))))))))).

(** ** The credential store (table [users]) *)

Record user_row : Type := {
  u_id : Z;
  u_username : string;
  u_email : string;
  u_password_hash : string;
  u_full_name : string;
  u_date_of_birth : string;
  u_gender : string;
  u_created_at : Z;
  u_last_login : option Z
}.

(** The dict returned by a successful login. *)
Record user_info : Type := {
  i_id : Z;
  i_username : string;
  i_full_name : string;
  i_email : string
}.

(** [INTEGER PRIMARY KEY AUTOINCREMENT]: one more than the largest id; no
    statement of the program deletes a row. *)
Definition next_id {A : Type} (id : A -> Z) (table : list A) : Z :=
  1 + fold_right (fun r m => Z.max (id r) m) 0 table.

Definition username_taken (db : list user_row) (username : string) : bool :=
  existsb (fun r => String.eqb (u_username r) username) db.

Definition email_taken (db : list user_row) (email : string) : bool :=
  existsb (fun r => String.eqb (u_email r) email) db.

Section CredentialStore.

(** [hashlib.sha256(s.encode()).hexdigest()], a library function. *)
Variable sha256_hexdigest : string -> string.

(** The order in which the engine checks the two [UNIQUE] indexes of
    [users] when a row violates both is the engine's own choice (SQLite
    3.40 reports the email); it is a parameter here. *)
Variable email_checked_first : bool.

(** Lines 74-76. *)
Definition hash_password (password : string) : string :=
  sha256_hexdigest password.

(** Lines 78-80. *)
Definition verify_password (password hashed : string) : bool :=
  String.eqb (hash_password password) hashed.

(** [INSERT INTO users ...] (lines 88-91): the text of the
    [sqlite3.IntegrityError], or the table with the new row. *)
Definition insert_user (now : Z) (db : list user_row)
    (username email password_hash full_name dob gender : string)
  : string + list user_row :=
  let fail_username := inl "UNIQUE constraint failed: users.username" in
  let fail_email := inl "UNIQUE constraint failed: users.email" in
  let row := {| u_id := next_id u_id db; u_username := username;
                u_email := email; u_password_hash := password_hash;
                u_full_name := full_name; u_date_of_birth := dob;
                u_gender := gender; u_created_at := now;
                u_last_login := None |} in
  if email_checked_first then
    if email_taken db email then fail_email
    else if username_taken db username then fail_username
    else inr (db ++ [row])
  else
    if username_taken db username then fail_username
    else if email_taken db email then fail_email
    else inr (db ++ [row]).

(** Lines 82-102.  Returns the table after the call and the pair
    [(success, message)]. *)
Definition create_user (now : Z) (db : list user_row)
    (username email password full_name dob gender : string)
  : list user_row * (bool * string) :=
  let password_hash := hash_password password in
  match insert_user now db username email password_hash full_name dob gender with
  | inr db' => (db', (true, "Account created successfully!"))
  | inl e =>
      if str_in "username" e then (db, (false, "Username already exists!"))
      else if str_in "email" e then (db, (false, "Email already registered!"))
      else (db, (false, "Registration failed!"))
  end.

(** [UPDATE users SET last_login = ? WHERE id = ?] *)
Definition set_last_login (now : Z) (id : Z) (db : list user_row) : list user_row :=
  map (fun r =>
         if Z.eqb (u_id r) id then
           {| u_id := u_id r; u_username := u_username r; u_email := u_email r;
              u_password_hash := u_password_hash r; u_full_name := u_full_name r;
              u_date_of_birth := u_date_of_birth r; u_gender := u_gender r;
              u_created_at := u_created_at r; u_last_login := Some now |}
         else r) db.

(** Lines 104-119.  [find] is [SELECT ... WHERE username = ?] followed by
    [fetchone()].  Returns the table after the call and the pair
    [(success, user_info)], [None] being Python's [None]. *)
Definition authenticate_user (now : Z) (db : list user_row)
    (username password : string)
  : list user_row * (bool * option user_info) :=
  let user := find (fun r => String.eqb (u_username r) username) db in
  match user with
  | Some u =>
      if verify_password password (u_password_hash u) then
        (set_last_login now (u_id u) db,
         (true, Some {| i_id := u_id u; i_username := username;
                        i_full_name := u_full_name u; i_email := u_email u |}))
      else (db, (false, None))
  | None => (db, (false, None))
  end.

End CredentialStore.

(** ** The prediction store (table [predictions]) *)

Record prediction_row : Type := {
  p_id : Z;
  p_user_id : Z;
  p_patient_name : value;
  p_age : value;
  p_gender : value;
  p_blood_pressure_systolic : value;
  p_blood_pressure_diastolic : value;
  p_cholesterol_total : value;
  p_cholesterol_hdl : value;
  p_cholesterol_ldl : value;
  p_blood_sugar_fasting : value;
  p_blood_sugar_random : value;
  p_hba1c : value;
  p_bmi : value;
  p_smoking_status : value;
  p_alcohol_consumption : value;
  p_exercise_frequency : value;
  p_family_history : value;
  p_predicted_diseases : string;
  p_risk_scores : string;
  p_recommendations : string;
  p_created_at : Z
}.

(** [str(risks)] for a dict from names to ints; the names are taken to need
    no escaping (no quote, backslash or control character), as the five
    disease names do. *)
Definition risks_repr (risks : list (string * Z)) : string :=
  "{" +:+ String.concat ", "
            (map (fun '(disease, score) => "'" +:+ disease +:+ "': " +:+ pretty score) risks)
      +:+ "}".

(** Lines 230-248: the row that [save_prediction] inserts. *)
Definition prediction_row_of (id now user_id : Z) (patient_data : gmap string value)
    (risks : list (string * Z)) (recommendations : list string)
  : result prediction_row :=
  let risks_str := risks_repr risks in
  let recommendations_str := String.concat "; " recommendations in
  let predicted_diseases :=
    String.concat ", "
      (map (fun '(disease, score) => disease +:+ ": " +:+ pretty score +:+ "%") risks) in
  patient_name <- getitem patient_data "patient_name" ;;
  age <- getitem patient_data "age" ;;
  gender <- getitem patient_data "gender" ;;
  systolic <- getitem patient_data "blood_pressure_systolic" ;;
  diastolic <- getitem patient_data "blood_pressure_diastolic" ;;
  cholesterol_total <- getitem patient_data "cholesterol_total" ;;
  cholesterol_hdl <- getitem patient_data "cholesterol_hdl" ;;
  cholesterol_ldl <- getitem patient_data "cholesterol_ldl" ;;
  blood_sugar_fasting <- getitem patient_data "blood_sugar_fasting" ;;
  blood_sugar_random <- getitem patient_data "blood_sugar_random" ;;
  let hba1c := get patient_data "hba1c" (VNum 0) in
  bmi <- getitem patient_data "bmi" ;;
  smoking_status <- getitem patient_data "smoking_status" ;;
  alcohol_consumption <- getitem patient_data "alcohol_consumption" ;;
  exercise_frequency <- getitem patient_data "exercise_frequency" ;;
  family_history <- getitem patient_data "family_history" ;;
  Ok {| p_id := id; p_user_id := user_id; p_patient_name := patient_name;
        p_age := age; p_gender := gender;
        p_blood_pressure_systolic := systolic;
        p_blood_pressure_diastolic := diastolic;
        p_cholesterol_total := cholesterol_total;
        p_cholesterol_hdl := cholesterol_hdl;
        p_cholesterol_ldl := cholesterol_ldl;
        p_blood_sugar_fasting := blood_sugar_fasting;
        p_blood_sugar_random := blood_sugar_random;
        p_hba1c := hba1c; p_bmi := bmi;
        p_smoking_status := smoking_status;
        p_alcohol_consumption := alcohol_consumption;
        p_exercise_frequency := exercise_frequency;
        p_family_history := family_history;
        p_predicted_diseases := predicted_diseases;
        p_risk_scores := risks_str;
        p_recommendations := recommendations_str;
        p_created_at := now |}.

(** Lines 224-251.  [now] is the [CURRENT_TIMESTAMP] of the insert.  The
    argument tuple is built first, so a missing key raises its [KeyError]
    before the table is touched.  The insert itself is taken to succeed and
    the row to hold the values as they were passed: this is what SQLite does
    with numbers within its 64-bit integer range and text in the columns
    declared for them ([fits_int64] below); the [OverflowError] of the
    [sqlite3] module for a larger int, and the conversion of a value to the
    affinity of a column of another type, are outside the model. *)
Definition save_prediction (now : Z) (db : list prediction_row) (user_id : Z)
    (patient_data : gmap string value) (risks : list (string * Z))
    (recommendations : list string)
  : result (list prediction_row) :=
  row <- prediction_row_of (next_id p_id db) now user_id patient_data risks recommendations ;;
  Ok (db ++ [row]).

(** [ORDER BY created_at DESC].  Rows with equal timestamps come out in an
    order SQL leaves to the engine; here they keep their table order, as
    they do in SQLite. *)
Fixpoint insert_desc (r : prediction_row) (l : list prediction_row)
  : list prediction_row :=
  match l with
  | [] => [r]
  | x :: t =>
      if p_created_at x <=? p_created_at r then r :: x :: t
      else x :: insert_desc r t
  end.

Definition order_by_created_at_desc (l : list prediction_row) : list prediction_row :=
  fold_right insert_desc [] l.

(** Lines 253-260. *)
Definition get_user_predictions (db : list prediction_row) (user_id : Z)
  : list prediction_row :=
  order_by_created_at_desc (List.filter (fun r => p_user_id r =? user_id) db).

(** A call of [save_prediction], and a run of such calls on the store. *)
Record submission : Type := {
  s_now : Z;
  s_user_id : Z;
  s_patient_data : gmap string value;
  s_risks : list (string * Z);
  s_recommendations : list string
}.

Definition save_submission (db : list prediction_row) (s : submission)
  : result (list prediction_row) :=
  save_prediction (s_now s) db (s_user_id s) (s_patient_data s) (s_risks s)
    (s_recommendations s).

Fixpoint save_all (db : list prediction_row) (subs : list submission)
  : result (list prediction_row) :=
  match subs with
  | [] => Ok db
  | s :: rest => db' <- save_submission db s ;; save_all db' rest
  end.

(** ** Notions used in the statements *)

(** The result dict: the five names in evaluation order, each total clamped. *)
Definition disease_names : list string :=
  ["Cardiovascular Disease"; "Type 2 Diabetes"; "Hypertension";
   "Metabolic Syndrome"; "Stroke"].

Definition risks_of (cv db ht ms st : Z) : list (string * Z) :=
  [("Cardiovascular Disease", Z.min cv 100); ("Type 2 Diabetes", Z.min db 100);
   ("Hypertension", Z.min ht 100); ("Metabolic Syndrome", Z.min ms 100);
   ("Stroke", Z.min st 100)].

(** The texts a test can append. *)
Definition triggered_texts : list string :=
  [rec_blood_pressure; rec_cholesterol; rec_weight; rec_smoking;
   rec_endocrinologist; rec_glucose; rec_activity; rec_alcohol].

(** The order of the history: no row is older than one that follows it. *)
Definition newer_first (a b : prediction_row) : Prop :=
  p_created_at b <= p_created_at a.

(** Submissions, and rows, made at strictly increasing times. *)
Definition submitted_before (a b : submission) : Prop := s_now a < s_now b.

Definition created_before (a b : prediction_row) : Prop :=
  p_created_at a < p_created_at b.

(** What [save_prediction] writes for a submission. *)
Definition written (s : submission) (r : prediction_row) : Prop :=
  exists id,
    prediction_row_of id (s_now s) (s_user_id s) (s_patient_data s) (s_risks s)
      (s_recommendations s) = Ok r.


(** The points a test adds, and the recommendation it appends. *)
Definition pts (c : bool) (k : Z) : Z := if c then k else 0.

Definition rec_if (c : bool) (r : string) : list string := if c then [r] else [].

(** A complete form submission, and a run of three saves by two accounts. *)
Definition example_patient : gmap string value :=
  <["patient_name" := VStr "Ann"]>
  (<["cholesterol_ldl" := VNum 100]>
  (<["blood_sugar_random" := VNum 120]>
  (<["hba1c" := VNum 5.5]> example_record))).

Definition example_submission (now user_id : Z) : submission :=
  {| s_now := now; s_user_id := user_id; s_patient_data := example_patient;
     s_risks := [("Cardiovascular Disease", 55); ("Type 2 Diabetes", 15);
                 ("Hypertension", 30); ("Metabolic Syndrome", 35); ("Stroke", 25)];
     s_recommendations := [rec_blood_pressure; rec_checkups; rec_diet] |}.

Definition example_submissions : list submission :=
  [example_submission 1000 1; example_submission 1005 2; example_submission 1010 1].

(** A fragment of the Unicode case mapping, for examples: it replaces the
    Kelvin sign U+212A (the bytes 226, 132, 170) by 'k' and lower-cases the
    letters 'A'..'Z'.  [kelvin_stroke] is the text 'STRO', Kelvin sign,
    'E'. *)
Fixpoint kelvin_lower (s : string) : string :=
  match s with
  | EmptyString => EmptyString
  | String a t =>
      match t with
      | String b (String c t') =>
          if ((N_of_ascii a =? 226) && (N_of_ascii b =? 132)
              && (N_of_ascii c =? 170))%N
          then String "k" (kelvin_lower t')
          else String (lower_ascii a) (kelvin_lower t)
      | _ => String (lower_ascii a) (kelvin_lower t)
      end
  end.

Definition kelvin_stroke : string :=
  "STRO" +:+ string_of_list_ascii (map ascii_of_nat [226; 132; 170]%nat) +:+ "E".

(** An account table with one row, for examples; [demo_hash] stands in for
    the digest there. *)
Definition demo_hash (s : string) : string := "sha256:" +:+ s.

Definition demo_user : user_row :=
  {| u_id := 1; u_username := "demo"; u_email := "demo@example.com";
     u_password_hash := demo_hash "demo123"; u_full_name := "Demo User";
     u_date_of_birth := "1990-01-01"; u_gender := "Other";
     u_created_at := 1000; u_last_login := None |}.

(** ** Records the scoring function accepts *)

Definition is_num (o : option value) : bool :=
  match o with
  | Some (VNum _) => true
  | _ => false
  end.

Definition is_str (o : option value) : bool :=
  match o with
  | Some (VStr _) => true
  | _ => false
  end.

Definition is_present (o : option value) : bool :=
  match o with
  | Some _ => true
  | None => false
  end.

Definition num_or_absent (o : option value) : bool :=
  match o with
  | Some (VStr _) => false
  | _ => true
  end.

Definition str_or_absent (o : option value) : bool :=
  match o with
  | Some (VNum _) => false
  | _ => true
  end.

(** The diastolic pressure is read only when the systolic one is at most
    140. *)
Definition diastolic_ok (data : gmap string value) : bool :=
  match data !! "blood_pressure_systolic" with
  | Some (VNum s) =>
      negb (Qle_bool s 140) || is_num (data !! "blood_pressure_diastolic")
  | _ => false
  end.

Definition accepted (data : gmap string value) : bool :=
  is_num (data !! "age") && is_str (data !! "gender") &&
  is_num (data !! "blood_pressure_systolic") && diastolic_ok data &&
  is_num (data !! "cholesterol_total") && is_num (data !! "cholesterol_hdl") &&
  is_num (data !! "bmi") && is_present (data !! "smoking_status") &&
  str_or_absent (data !! "family_history") &&
  is_num (data !! "blood_sugar_fasting") && num_or_absent (data !! "hba1c") &&
  is_present (data !! "exercise_frequency") &&
  is_present (data !! "alcohol_consumption").

(** The keys the function reads with [data[k]], those it compares with a
    number, and those it lower-cases. *)
Definition required_keys : list string :=
  ["age"; "gender"; "blood_pressure_systolic"; "blood_pressure_diastolic";
   "cholesterol_total"; "cholesterol_hdl"; "bmi"; "smoking_status";
   "blood_sugar_fasting"; "exercise_frequency"; "alcohol_consumption"].

Definition numeric_keys : list string :=
  ["age"; "blood_pressure_systolic"; "blood_pressure_diastolic";
   "cholesterol_total"; "cholesterol_hdl"; "bmi"; "blood_sugar_fasting"; "hba1c"].

Definition text_keys : list string := ["gender"; "family_history"].

(** What an exception of the scoring function says about the record. *)
Definition explains (data : gmap string value) (e : exn) : Prop :=
  match e with
  | KeyError k => data !! k = None /\ In k required_keys
  | TypeError => exists k s, In k numeric_keys /\ data !! k = Some (VStr s)
  | AttributeError => exists k q, In k text_keys /\ data !! k = Some (VNum q)
  end.

(** ** Notions used in the further properties *)

(** The same name with a score that is not lower. *)
Definition no_lower (p p' : string * Z) : Prop := fst p = fst p' /\ snd p <= snd p'.

(** The numeric fields whose tests are of the form [data[k] > n]. *)
Definition increasing_keys : list string :=
  ["age"; "bmi"; "blood_pressure_systolic"; "blood_pressure_diastolic";
   "cholesterol_total"; "blood_sugar_fasting"; "hba1c"].

(** Every key the scoring function looks up. *)
Definition used_keys : list string :=
  required_keys ++ ["family_history"; "hba1c"].

(** ** The history page *)

(** [s.split(sep)] for a non-empty separator: [skip] counts the characters
    of a separator just matched that are still to be passed over, [cur] is
    the piece being read. *)
Fixpoint split_go (sep : string) (skip : nat) (cur s : string) : list string :=
  match s with
  | EmptyString => [cur]
  | String c t =>
      match skip with
      | S k => split_go sep k cur t
      | O =>
          if String.prefix sep s
          then cur :: split_go sep (String.length sep - 1) "" t
          else split_go sep 0 (cur +:+ String c "") t
      end
  end.

(** [s.split(sep)] *)
Definition py_split (s sep : string) : list string := split_go sep 0 "" s.

(** Lines 550-552 of [history_page]: the lines shown for a stored row. *)
Definition shown_recommendations (row : prediction_row) : list string :=
  py_split (p_recommendations row) "; ".

(** The keys [save_prediction] reads with [patient_data[k]], in the order in
    which it reads them. *)
Definition save_keys : list string :=
  ["patient_name"; "age"; "gender"; "blood_pressure_systolic";
   "blood_pressure_diastolic"; "cholesterol_total"; "cholesterol_hdl";
   "cholesterol_ldl"; "blood_sugar_fasting"; "blood_sugar_random"; "bmi";
   "smoking_status"; "alcohol_consumption"; "exercise_frequency";
   "family_history"].

(** The field, if it holds a number, holds one within the range of SQLite's
    64-bit integers; the [sqlite3] module binds every such number, int or
    float. *)
Definition fits_int64 (o : option value) : bool :=
  match o with
  | Some (VNum q) =>
      Qle_bool (inject_Z (- 2 ^ 63)) q && negb (Qle_bool (inject_Z (2 ^ 63)) q)
  | _ => true
  end.

(** The uniqueness the schema asks of [users]. *)
Definition users_ok (db : list user_row) : Prop :=
  NoDup (map u_username db) /\ NoDup (map u_email db) /\ NoDup (map u_id db).

(** Everything in an account row but the last login. *)
Definition account_of (r : user_row)
  : Z * string * string * string * string * string * string * Z :=
  (u_id r, u_username r, u_email r, u_password_hash r, u_full_name r,
   u_date_of_birth r, u_gender r, u_created_at r).

(** ** Regular expressions, for the e-mail check of the registration form

    [re.match] with a pattern closed by [$] succeeds exactly when the
    pattern matches the whole string: [$] also matches before a final
    newline, but the class [[^@]] takes a newline, so this adds no string. *)

Inductive regex : Type :=
  | Void
  | Eps
  | Chr (c : ascii)
  | NotChr (c : ascii)
  | Alt (r s : regex)
  | Cat (r s : regex)
  | Star (r : regex).

(** [r+] *)
Definition Plus (r : regex) : regex := Cat r (Star r).

(** Does [r] match the empty string? *)
Fixpoint nullable (r : regex) : bool :=
  match r with
  | Void | Chr _ | NotChr _ => false
  | Eps | Star _ => true
  | Alt r s => nullable r || nullable s
  | Cat r s => nullable r && nullable s
  end.

(** What is left of [r] after the character [a]. *)
Fixpoint deriv (a : ascii) (r : regex) : regex :=
  match r with
  | Void | Eps => Void
  | Chr c => if Ascii.eqb a c then Eps else Void
  | NotChr c => if Ascii.eqb a c then Void else Eps
  | Alt r s => Alt (deriv a r) (deriv a s)
  | Cat r s =>
      if nullable r then Alt (Cat (deriv a r) s) (deriv a s)
      else Cat (deriv a r) s
  | Star r => Cat (deriv a r) (Star r)
  end.

(** Does the whole of [s] match [r]? *)
Fixpoint re_match (r : regex) (s : string) : bool :=
  match s with
  | EmptyString => nullable r
  | String a t => re_match (deriv a r) t
  end.

(** The strings of a regular expression. *)
Inductive Matches : regex -> string -> Prop :=
  | MEps : Matches Eps ""
  | MChr c : Matches (Chr c) (String c "")
  | MNotChr c d : d <> c -> Matches (NotChr c) (String d "")
  | MAltL r s w : Matches r w -> Matches (Alt r s) w
  | MAltR r s w : Matches s w -> Matches (Alt r s) w
  | MCat r s w1 w2 : Matches r w1 -> Matches s w2 -> Matches (Cat r s) (w1 +:+ w2)
  | MStarNil r : Matches (Star r) ""
  | MStarApp r w1 w2 :
      Matches r w1 -> Matches (Star r) w2 -> Matches (Star r) (w1 +:+ w2).

(** Line 340: [r'^[^@]+@[^@]+\.[^@]+$']. *)
Definition email_re : regex :=
  Cat (Plus (NotChr "@"))
    (Cat (Chr "@") (Cat (Plus (NotChr "@")) (Cat (Chr ".") (Plus (NotChr "@"))))).

(** ** The pages' handlers *)

(** [st.session_state]: lines 267-270. *)
Record session_state : Type := {
  logged_in : bool;
  session_user_info : option user_info
}.

(** Lines 267-270: the session of a new visitor. *)
Definition initial_session : session_state :=
  {| logged_in := false; session_user_info := None |}.

(** Python's truth value of a string. *)
Definition truthy (s : string) : bool := negb (String.eqb s "").

(** Lines 292-303: the Login button.  Returns the table, the session and the
    message shown. *)
Definition login_clicked (sha : string -> string) (now : Z) (db : list user_row)
    (st : session_state) (username password : string)
  : list user_row * session_state * string :=
  if truthy username && truthy password then
    let '(db', (success, info)) := authenticate_user sha now db username password in
    if success then
      (db', {| logged_in := true; session_user_info := info |}, "Login successful!")
    else (db', st, "Invalid username or password!")
  else (db, st, "Please enter both username and password!").

(** Lines 306-314: the Demo Login button; [now] is the time of the insert,
    [now'] that of the login. *)
Definition demo_login_clicked (sha : string -> string) (order : bool) (now now' : Z)
    (db : list user_row) (st : session_state)
  : list user_row * session_state * string :=
  let '(db1, _) :=
    create_user sha order now db "demo" "demo@example.com" "demo123" "Demo User"
      "1990-01-01" "Other" in
  let '(db2, (success, info)) := authenticate_user sha now' db1 "demo" "demo123" in
  if success then
    (db2, {| logged_in := true; session_user_info := info |},
     "Demo login successful!")
  else (db2, st, "").

(** Lines 363-366: the Logout button. *)
Definition logout_clicked (st : session_state) : session_state :=
  {| logged_in := false; session_user_info := None |}.

(** Lines 333-349: the Create Account button.  Returns the table and the
    pair of the outcome ([true] for [st.success]) and the message. *)
Definition register_submitted (sha : string -> string) (order : bool) (now : Z)
    (db : list user_row)
    (reg_username reg_email reg_password reg_confirm_password reg_full_name
       reg_dob reg_gender : string)
  : list user_row * (bool * string) :=
  if negb (forallb truthy [reg_username; reg_email; reg_password; reg_full_name])
  then (db, (false, "Please fill in all required fields!"))
  else if negb (String.eqb reg_password reg_confirm_password)
  then (db, (false, "Passwords do not match!"))
  else if (py_len reg_password <? 6)%nat
  then (db, (false, "Password must be at least 6 characters long!"))
  else if negb (re_match email_re reg_email)
  then (db, (false, "Please enter a valid email address!"))
  else create_user sha order now db reg_username reg_email reg_password
         reg_full_name reg_dob reg_gender.

(** The identity held by a session is that of an account of the table. *)
Definition known_user (db : list user_row) (info : user_info) : Prop :=
  exists r, In r db /\ u_id r = i_id info /\ u_username r = i_username info /\
    u_email r = i_email info /\ u_full_name r = i_full_name info.

(** A logged-in session holds the identity of an account. *)
Definition session_ok (db : list user_row) (st : session_state) : Prop :=
  logged_in st = true ->
  exists info, session_user_info st = Some info /\ known_user db info.

(** The identity of the demo account created in the table [db]. *)
Definition demo_info (db : list user_row) : user_info :=
  {| i_id := next_id u_id db; i_username := "demo"; i_full_name := "Demo User";
     i_email := "demo@example.com" |}.

(** The session of the demo account, logged in, for examples. *)
Definition demo_session : session_state :=
  {| logged_in := true; session_user_info := Some (demo_info []) |}.

(** A password of three characters and six bytes: three times U+00E9, the
    letter e with an acute accent, each encoded as the bytes 195 and 169. *)
Definition three_e_acute : string :=
  string_of_list_ascii (map ascii_of_nat [195; 169; 195; 169; 195; 169]%nat).

(** The values of the widgets of the prediction form (lines 389-435). *)
Record form_inputs : Type := {
  f_patient_name : string;
  f_age : Q;
  f_gender : string;
  f_bmi : Q;
  f_smoking_status : string;
  f_alcohol_consumption : string;
  f_bp_systolic : Q;
  f_bp_diastolic : Q;
  f_cholesterol_total : Q;
  f_cholesterol_hdl : Q;
  f_cholesterol_ldl : Q;
  f_blood_sugar_fasting : Q;
  f_blood_sugar_random : Q;
  f_hba1c : Q;
  f_exercise_frequency : string;
  f_family_history : string
}.

(** Lines 445-462: the dict built from the form. *)
Definition patient_data_of (f : form_inputs) : gmap string value :=
  <["family_history" := VStr (f_family_history f)]>
  (<["exercise_frequency" := VStr (f_exercise_frequency f)]>
  (<["alcohol_consumption" := VStr (f_alcohol_consumption f)]>
  (<["smoking_status" := VStr (f_smoking_status f)]>
  (<["hba1c" := VNum (f_hba1c f)]>
  (<["blood_sugar_random" := VNum (f_blood_sugar_random f)]>
  (<["blood_sugar_fasting" := VNum (f_blood_sugar_fasting f)]>
  (<["cholesterol_ldl" := VNum (f_cholesterol_ldl f)]>
  (<["cholesterol_hdl" := VNum (f_cholesterol_hdl f)]>
  (<["cholesterol_total" := VNum (f_cholesterol_total f)]>
  (<["blood_pressure_diastolic" := VNum (f_bp_diastolic f)]>
  (<["blood_pressure_systolic" := VNum (f_bp_systolic f)]>
  (<["bmi" := VNum (f_bmi f)]>
  (<["gender" := VStr (f_gender f)]>
  (<["age" := VNum (f_age f)]>
  (<["patient_name" := VStr (f_patient_name f)]> ∅))))))))))))))).

(** Lines 440-506: the submit button of the prediction form, for the
    logged-in account [user_id].  Returns the table and what was computed,
    [None] when the patient name is empty. *)
Definition predict_submitted (now : Z) (db : list prediction_row) (user_id : Z)
    (f : form_inputs)
  : result (list prediction_row * option (list (string * Z) * list string)) :=
  if negb (truthy (f_patient_name f)) then Ok (db, None)
  else
    let patient_data := patient_data_of f in
    r <- calculate_disease_risk patient_data ;;
    let '(risks, recommendations) := r in
    db' <- save_prediction now db user_id patient_data risks recommendations ;;
    Ok (db', Some (risks, recommendations)).

(** Lines 491-497: the level shown for a score. *)
Definition risk_level (risk : Z) : string :=
  if 70 <=? risk then "HIGH RISK"
  else if 40 <=? risk then "MODERATE RISK"
  else "LOW RISK".

(** Line 476. *)
Definition marker_color (v : Z) : string :=
  if 70 <=? v then "red" else if 40 <=? v then "orange" else "green".

(** A filled-in prediction form, for examples. *)
Definition example_form : form_inputs :=
  {| f_patient_name := "Ann"; f_age := 50; f_gender := "Male"; f_bmi := 22;
     f_smoking_status := "Never smoked"; f_alcohol_consumption := "Never";
     f_bp_systolic := 150; f_bp_diastolic := 70; f_cholesterol_total := 200;
     f_cholesterol_hdl := 45; f_cholesterol_ldl := 100;
     f_blood_sugar_fasting := 90; f_blood_sugar_random := 120; f_hba1c := 5.5;
     f_exercise_frequency := "Daily"; f_family_history := "" |}.

(** * Properties *)

Example example_record_result :
  calculate_disease_risk example_record =
  Ok ([("Cardiovascular Disease", 55); ("Type 2 Diabetes", 15);
       ("Hypertension", 30); ("Metabolic Syndrome", 35); ("Stroke", 25)],
      [rec_blood_pressure; rec_checkups; rec_diet]).
Proof. vm_compute. reflexivity. Qed.

(** ** Reasoning about the exception monad *)

Lemma bind_Ok {A B : Type} (m : result A) (f : A -> result B) (b : B) :
  bind m f = Ok b <-> exists a, m = Ok a /\ f a = Ok b.
Proof.
  destruct m as [a|e]; simpl; split.
  - intros H. exists a. split; [reflexivity | exact H].
  - intros (a' & Ha & Hf). injection Ha as ->. exact Hf.
  - discriminate.
  - intros (a' & Ha & _). discriminate Ha.
Qed.

Lemma getitem_insert_eq (data : gmap string value) k v :
  getitem (<[k := v]> data) k = Ok v.
Proof. unfold getitem. by rewrite lookup_insert_eq. Qed.

Lemma getitem_insert_ne (data : gmap string value) k k' v :
  k <> k' -> getitem (<[k := v]> data) k' = getitem data k'.
Proof. intros H. unfold getitem. by rewrite lookup_insert_ne. Qed.

Lemma getitem_delete_ne (data : gmap string value) k k' :
  k <> k' -> getitem (delete k data) k' = getitem data k'.
Proof. intros H. unfold getitem. by rewrite lookup_delete_ne. Qed.

Lemma get_insert_eq (data : gmap string value) k v dflt :
  get (<[k := v]> data) k dflt = v.
Proof. unfold get. by rewrite lookup_insert_eq. Qed.

Lemma get_insert_ne (data : gmap string value) k k' v dflt :
  k <> k' -> get (<[k := v]> data) k' dflt = get data k' dflt.
Proof. intros H. unfold get. by rewrite lookup_insert_ne. Qed.

Lemma get_delete_eq (data : gmap string value) k dflt :
  get (delete k data) k dflt = dflt.
Proof. unfold get. by rewrite lookup_delete_eq. Qed.

Lemma get_delete_ne (data : gmap string value) k k' dflt :
  k <> k' -> get (delete k data) k' dflt = get data k' dflt.
Proof. intros H. unfold get. by rewrite lookup_delete_ne. Qed.

Lemma getitem_Some (data : gmap string value) k v :
  data !! k = Some v -> getitem data k = Ok v.
Proof. intros H. unfold getitem. by rewrite H. Qed.

Lemma get_Some (data : gmap string value) k v dflt :
  data !! k = Some v -> get data k dflt = v.
Proof. intros H. unfold get. by rewrite H. Qed.

Lemma py_gt_true q n : negb (Qle_bool q n) = true <-> (n < q)%Q.
Proof.
  rewrite negb_true_iff, <- not_true_iff_false, Qle_bool_iff.
  split; [apply Qnot_le_lt | apply Qlt_not_le].
Qed.

Lemma py_gt_false q n : negb (Qle_bool q n) = false <-> (q <= n)%Q.
Proof. rewrite negb_false_iff. apply Qle_bool_iff. Qed.

#[local] Arguments str_in : simpl never.
#[local] Arguments lower : simpl never.
#[local] Arguments Qle_bool : simpl never.
#[local] Arguments String.eqb : simpl never.
#[local] Arguments Z.add : simpl nomatch.

(** ** Normal forms of the five blocks

    Each block equals: run its tests in order, then add up the points of
    those that fired and append their recommendations. *)

Lemma pts_add (c : bool) (x k : Z) : (if c then x + k else x) = x + pts c k.
Proof. destruct c; unfold pts; lia. Qed.

Lemma rec_app (c : bool) (l : list string) (r : string) :
  (if c then l ++ [r] else l) = l ++ rec_if c r.
Proof. destruct c; unfold rec_if; [reflexivity | by rewrite app_nil_r]. Qed.

Lemma pts_bounds (c : bool) (k : Z) : 0 <= k -> 0 <= pts c k <= k.
Proof. destruct c; unfold pts; lia. Qed.

Ltac nf_step :=
  match goal with
  | |- bind ?m _ = bind ?m _ => destruct m; cbn [bind]; [|reflexivity]
  end.

Ltac nf_finish :=
  rewrite ?pts_add, ?rec_app, <- ?app_assoc; reflexivity.

Lemma cardiovascular_nf data recs :
  cardiovascular data recs =
  (c1 <- item_gt data "age" 45 ;;
   g <- (v <- getitem data "gender" ;; py_lower v) ;;
   c2 <- py_or (item_gt data "blood_pressure_systolic" 140)
               (item_gt data "blood_pressure_diastolic" 90) ;;
   c3 <- item_gt data "cholesterol_total" 240 ;;
   c4 <- item_lt data "cholesterol_hdl" 40 ;;
   c5 <- item_gt data "bmi" 30 ;;
   v <- getitem data "smoking_status" ;;
   h <- py_lower (get data "family_history" (VStr "")) ;;
   let c6 := py_in_list v ["Current smoker"; "Heavy smoker"] in
   Ok (0 + pts c1 20 + pts (String.eqb g "male") 10 + pts c2 25 + pts c3 20
       + pts c4 15 + pts c5 15 + pts c6 30 + pts (str_in "heart disease" h) 20,
       recs ++ rec_if c2 rec_blood_pressure ++ rec_if c3 rec_cholesterol
            ++ rec_if c5 rec_weight ++ rec_if c6 rec_smoking)).
Proof. unfold cardiovascular. repeat nf_step. nf_finish. Qed.

Lemma diabetes_nf data recs :
  diabetes data recs =
  (c1 <- item_gt data "age" 45 ;;
   c2 <- item_gt data "bmi" 25 ;;
   c3 <- item_gt data "blood_sugar_fasting" 126 ;;
   c3' <- (if c3 then Ok false else item_gt data "blood_sugar_fasting" 100) ;;
   c4 <- py_gt (get data "hba1c" (VNum 0)) 6.5 ;;
   h <- py_lower (get data "family_history" (VStr "")) ;;
   v <- getitem data "exercise_frequency" ;;
   let c5 := py_in_list v ["Never"; "Rarely"] in
   Ok (0 + pts c1 15 + pts c2 20 + pts c3 40 + pts c3' 25 + pts c4 35
       + pts (str_in "diabetes" h) 25 + pts c5 15,
       recs ++ rec_if c3 rec_endocrinologist ++ rec_if c3' rec_glucose
            ++ rec_if c5 rec_activity)).
Proof.
  unfold diabetes. do 2 nf_step.
  destruct (item_gt data "blood_sugar_fasting" 126) as [[|]|]; cbn [bind];
    [| destruct (item_gt data "blood_sugar_fasting" 100) as [[|]|]; cbn [bind] |];
    try reflexivity;
    repeat nf_step; rewrite ?pts_add, ?rec_app; cbn [pts rec_if];
    rewrite ?Z.add_0_r, ?app_nil_r, <- ?app_assoc; reflexivity.
Qed.

Lemma hypertension_nf data recs :
  hypertension data recs =
  (c1 <- py_or (item_gt data "blood_pressure_systolic" 120)
               (item_gt data "blood_pressure_diastolic" 80) ;;
   c2 <- item_gt data "age" 50 ;;
   c3 <- item_gt data "bmi" 25 ;;
   v <- getitem data "alcohol_consumption" ;;
   h <- py_lower (get data "family_history" (VStr "")) ;;
   let c4 := py_in_list v ["Heavy drinker"; "Daily"] in
   Ok (0 + pts c1 30 + pts c2 20 + pts c3 15 + pts c4 20
       + pts (str_in "hypertension" h) 25,
       recs ++ rec_if c4 rec_alcohol)).
Proof. unfold hypertension. repeat nf_step. nf_finish. Qed.

Lemma metabolic_nf data :
  metabolic data =
  (c1 <- item_gt data "bmi" 30 ;;
   c2 <- item_gt data "blood_sugar_fasting" 100 ;;
   c3 <- item_lt data "cholesterol_hdl" 50 ;;
   c4 <- item_gt data "blood_pressure_systolic" 130 ;;
   Ok (0 + pts c1 25 + pts c2 20 + pts c3 15 + pts c4 20)).
Proof. unfold metabolic. repeat nf_step. nf_finish. Qed.

Lemma stroke_nf data :
  stroke data =
  (c1 <- item_gt data "age" 55 ;;
   c2 <- item_gt data "blood_pressure_systolic" 140 ;;
   v <- getitem data "smoking_status" ;;
   h <- py_lower (get data "family_history" (VStr "")) ;;
   Ok (0 + pts c1 20 + pts c2 25
       + pts (py_in_list v ["Current smoker"; "Heavy smoker"]) 25
       + pts (str_in "stroke" h) 30)).
Proof. unfold stroke. repeat nf_step. nf_finish. Qed.

(** ** The function as a whole *)

Lemma calculate_disease_risk_nf data :
  calculate_disease_risk data =
  (r1 <- cardiovascular data [] ;;
   r2 <- diabetes data (snd r1) ;;
   r3 <- hypertension data (snd r2) ;;
   ms <- metabolic data ;;
   st <- stroke data ;;
   Ok (risks_of (fst r1) (fst r2) (fst r3) ms st,
       general_recommendations (snd r3))).
Proof.
  unfold calculate_disease_risk.
  destruct (cardiovascular data []) as [[cv r1]|]; cbn [bind fst snd]; [|reflexivity].
  destruct (diabetes data r1) as [[db r2]|]; cbn [bind fst snd]; [|reflexivity].
  destruct (hypertension data r2) as [[ht r3]|]; cbn [bind fst snd]; [|reflexivity].
  destruct (metabolic data) as [ms|]; cbn [bind]; [|reflexivity].
  destruct (stroke data) as [st|]; cbn [bind]; reflexivity.
Qed.

Lemma calculate_disease_risk_Ok data risks recs :
  calculate_disease_risk data = Ok (risks, recs) <->
  exists cv r1 db r2 ht r3 ms st,
    cardiovascular data [] = Ok (cv, r1) /\
    diabetes data r1 = Ok (db, r2) /\
    hypertension data r2 = Ok (ht, r3) /\
    metabolic data = Ok ms /\
    stroke data = Ok st /\
    risks = risks_of cv db ht ms st /\
    recs = general_recommendations r3.
Proof.
  rewrite calculate_disease_risk_nf. split.
  - intros H.
    apply bind_Ok in H as ([cv r1] & H1 & H).
    apply bind_Ok in H as ([db r2] & H2 & H).
    apply bind_Ok in H as ([ht r3] & H3 & H).
    apply bind_Ok in H as (ms & H4 & H).
    apply bind_Ok in H as (st & H5 & H).
    cbn [fst snd] in *. injection H as <- <-.
    exists cv, r1, db, r2, ht, r3, ms, st. auto 10.
  - intros (cv & r1 & db & r2 & ht & r3 & ms & st & H1 & H2 & H3 & H4 & H5 & -> & ->).
    rewrite H1; cbn [bind fst snd]. rewrite H2; cbn [bind fst snd].
    rewrite H3; cbn [bind fst snd]. rewrite H4; cbn [bind].
    rewrite H5; reflexivity.
Qed.

(** One step through a normal form in a hypothesis: name the outcome of the
    next test and drop the branch in which it raised an exception. *)
Ltac nf_inv_step H :=
  match type of H with
  | Raise _ = Ok _ => discriminate H
  | bind (Ok _) _ = Ok _ => cbn [bind] in H
  | bind ?m _ = Ok _ =>
      let c := fresh "c" in let Hc := fresh "Hc" in
      apply bind_Ok in H as (c & Hc & H); cbn beta in H; rewrite ?Hc in H
  end.

Ltac nf_inv H := repeat nf_inv_step H.

(** Replace each [pts c k] of the goal by a number between 0 and [k]. *)
Ltac forget_pts :=
  repeat match goal with
         | |- context [pts ?c ?k] =>
             let H := fresh in
             assert (H := pts_bounds c k ltac:(lia));
             generalize dependent (pts c k); intros
         end.

Lemma cardiovascular_range data recs r out :
  cardiovascular data recs = Ok (r, out) -> 0 <= r <= 155.
Proof.
  rewrite cardiovascular_nf. intros H. nf_inv H. injection H as <- <-.
  forget_pts. lia.
Qed.

Lemma diabetes_range data recs r out :
  diabetes data recs = Ok (r, out) -> 0 <= r <= 150.
Proof.
  rewrite diabetes_nf. intros H. nf_inv H. injection H as <- <-.
  destruct c1; [injection Hc2 as <-|];
    change (pts true 40) with 40; change (pts false 40) with 0;
    change (pts false 25) with 0; forget_pts; lia.
Qed.

Lemma hypertension_range data recs r out :
  hypertension data recs = Ok (r, out) -> 0 <= r <= 110.
Proof.
  rewrite hypertension_nf. intros H. nf_inv H. injection H as <- <-.
  forget_pts. lia.
Qed.

Lemma metabolic_range data r : metabolic data = Ok r -> 0 <= r <= 80.
Proof.
  rewrite metabolic_nf. intros H. nf_inv H. injection H as <-.
  forget_pts. lia.
Qed.

Lemma stroke_range data r : stroke data = Ok r -> 0 <= r <= 100.
Proof.
  rewrite stroke_nf. intros H. nf_inv H. injection H as <-.
  forget_pts. lia.
Qed.

(** ** Claims about the scores *)

(** C1.  On every record the function accepts, the result holds the five
    disease names in evaluation order, each with an integer score between 0
    and 100: the score is the block's total, a sum of non-negative points
    starting from 0, clamped from above at 100. *)
Theorem risk_scores_in_range data risks recs :
  calculate_disease_risk data = Ok (risks, recs) ->
  map fst risks = disease_names /\
  Forall (fun p => 0 <= snd p <= 100) risks /\
  exists cv db ht ms st,
    0 <= cv /\ 0 <= db /\ 0 <= ht /\ 0 <= ms /\ 0 <= st /\
    risks = [("Cardiovascular Disease", Z.min cv 100);
             ("Type 2 Diabetes", Z.min db 100);
             ("Hypertension", Z.min ht 100);
             ("Metabolic Syndrome", Z.min ms 100);
             ("Stroke", Z.min st 100)].
Proof.
  intros H. apply calculate_disease_risk_Ok in H
    as (cv & r1 & db & r2 & ht & r3 & ms & st & H1 & H2 & H3 & H4 & H5 & -> & ->).
  apply cardiovascular_range in H1. apply diabetes_range in H2.
  apply hypertension_range in H3. apply metabolic_range in H4.
  apply stroke_range in H5.
  split; [reflexivity|]. split.
  - unfold risks_of. repeat constructor; cbn [snd]; lia.
  - exists cv, db, ht, ms, st. repeat (split; [lia|]). reflexivity.
Qed.

(** C5.  A record with age 50, gender male, systolic 150, diastolic 70, total
    cholesterol 200, HDL 45, BMI 22, smoking status "Never smoked" and an
    empty family history gets 55 from the cardiovascular block (20 for age,
    10 for gender, 25 for blood pressure), and 55 is its Cardiovascular
    Disease score whenever the function returns. *)
Theorem cardiovascular_example_55 (data : gmap string value) (g : string) :
  data !! "age" = Some (VNum 50) ->
  data !! "gender" = Some (VStr g) ->
  lower g = "male" ->
  data !! "blood_pressure_systolic" = Some (VNum 150) ->
  data !! "blood_pressure_diastolic" = Some (VNum 70) ->
  data !! "cholesterol_total" = Some (VNum 200) ->
  data !! "cholesterol_hdl" = Some (VNum 45) ->
  data !! "bmi" = Some (VNum 22) ->
  data !! "smoking_status" = Some (VStr "Never smoked") ->
  data !! "family_history" = Some (VStr "") ->
  (forall recs,
     cardiovascular data recs = Ok (20 + 10 + 25, recs ++ [rec_blood_pressure])) /\
  (forall risks recs,
     calculate_disease_risk data = Ok (risks, recs) ->
     score_of risks "Cardiovascular Disease" = Some 55).
Proof.
  intros Ha Hg Hl Hs Hd Hc Hh Hb Hsm Hf.
  assert (Hcv : forall recs,
    cardiovascular data recs = Ok (20 + 10 + 25, recs ++ [rec_blood_pressure])).
  { intros recs. unfold cardiovascular, item_gt, item_lt.
    rewrite (getitem_Some _ _ _ Ha), (getitem_Some _ _ _ Hg),
      (getitem_Some _ _ _ Hs), (getitem_Some _ _ _ Hc),
      (getitem_Some _ _ _ Hh), (getitem_Some _ _ _ Hb),
      (getitem_Some _ _ _ Hsm), (get_Some _ _ _ _ Hf).
    cbn [bind py_gt py_lt py_lower py_or]. rewrite Hl. reflexivity. }
  split; [exact Hcv|].
  intros risks recs H. apply calculate_disease_risk_Ok in H
    as (cv & r1 & db & r2 & ht & r3 & ms & st & H1 & _ & _ & _ & _ & -> & _).
  rewrite Hcv in H1. injection H1 as <- _. reflexivity.
Qed.

(** ** Claims about the recommendation list *)

(** Discharge the tests of a normal form in the goal with the outcomes
    recorded in the context. *)
Ltac nf_replay :=
  repeat match goal with
         | H : ?m = Ok _ |- context [bind ?m _] => rewrite H; cbn [bind]
         end.

Ltac in_texts :=
  unfold triggered_texts; cbn [In];
  repeat first [left; reflexivity | right].

Lemma Forall_rec_if (P : string -> Prop) c r : P r -> Forall P (rec_if c r).
Proof. destruct c; cbn [rec_if]; auto. Qed.

Lemma cardiovascular_recs data recs r out :
  cardiovascular data recs = Ok (r, out) ->
  exists l, out = recs ++ l /\
    (forall recs', cardiovascular data recs' = Ok (r, recs' ++ l)) /\
    Forall (fun x => In x triggered_texts) l.
Proof.
  rewrite cardiovascular_nf. intros H. nf_inv H. injection H as <- <-.
  eexists. split; [reflexivity|]. split.
  - intros recs'. rewrite cardiovascular_nf. nf_replay. reflexivity.
  - repeat apply Forall_app_2; apply Forall_rec_if; in_texts.
Qed.

Lemma diabetes_recs data recs r out :
  diabetes data recs = Ok (r, out) ->
  exists l, out = recs ++ l /\
    (forall recs', diabetes data recs' = Ok (r, recs' ++ l)) /\
    Forall (fun x => In x triggered_texts) l.
Proof.
  rewrite diabetes_nf. intros H. nf_inv H. injection H as <- <-.
  eexists. split; [reflexivity|]. split.
  - intros recs'. rewrite diabetes_nf. nf_replay. reflexivity.
  - repeat apply Forall_app_2; apply Forall_rec_if; in_texts.
Qed.

Lemma hypertension_recs data recs r out :
  hypertension data recs = Ok (r, out) ->
  exists l, out = recs ++ l /\
    (forall recs', hypertension data recs' = Ok (r, recs' ++ l)) /\
    Forall (fun x => In x triggered_texts) l.
Proof.
  rewrite hypertension_nf. intros H. nf_inv H. injection H as <- <-.
  eexists. split; [reflexivity|]. split.
  - intros recs'. rewrite hypertension_nf. nf_replay. reflexivity.
  - apply Forall_rec_if; in_texts.
Qed.

(** C3.  The returned list is made of the recommendations the
    cardiovascular, diabetes and hypertension blocks trigger, in that order
    (the metabolic and stroke blocks trigger none), or of the single default
    line when none was triggered, followed by the two closing lines:
    check-ups, then diet. *)
Theorem recommendations_assembly data risks recs :
  calculate_disease_risk data = Ok (risks, recs) ->
  exists cv db ht cv_recs db_recs ht_recs,
    cardiovascular data [] = Ok (cv, cv_recs) /\
    diabetes data [] = Ok (db, db_recs) /\
    hypertension data [] = Ok (ht, ht_recs) /\
    let triggered := cv_recs ++ db_recs ++ ht_recs in
    Forall (fun r => In r triggered_texts) triggered /\
    recs = match triggered with
           | [] => [rec_default]
           | _ :: _ => triggered
           end ++ [rec_checkups; rec_diet].
Proof.
  intros H. apply calculate_disease_risk_Ok in H
    as (cv & r1 & db & r2 & ht & r3 & ms & st & H1 & H2 & H3 & _ & _ & _ & ->).
  apply cardiovascular_recs in H1 as (l1 & -> & H1 & F1).
  apply diabetes_recs in H2 as (l2 & -> & H2 & F2).
  apply hypertension_recs in H3 as (l3 & -> & H3 & F3).
  exists cv, db, ht, l1, l2, l3.
  split; [apply (H1 [])|]. split; [apply (H2 [])|]. split; [apply (H3 [])|].
  cbn zeta. split.
  - repeat apply Forall_app_2; assumption.
  - cbn [app]. rewrite <- app_assoc. unfold general_recommendations.
    destruct (l1 ++ l2 ++ l3); cbn [app]; rewrite <- ?app_assoc; reflexivity.
Qed.

(** ** The function as one sequence of tests

    All the tests of the five blocks in the order in which the function runs
    them, then the five totals and the recommendation list. *)

(** The test that a nested sequence runs first. *)
Ltac head_test m :=
  lazymatch m with
  | bind ?m' _ => head_test m'
  | _ => m
  end.

(** Both sides run the same test next: name its outcome, or reuse the
    outcome recorded when the test was met before. *)
Ltac flat_step :=
  lazymatch goal with
  | |- bind ?m _ = _ =>
      let t := head_test m in
      lazymatch t with
      | Ok _ => progress cbn [bind fst snd]
      | _ =>
          lazymatch goal with
          | E : t = Ok _ |- _ => rewrite E; cbn [bind fst snd]
          | _ => let E := fresh "E" in
                 destruct t eqn:E; cbn [bind fst snd]; [|reflexivity]
          end
      end
  end.

Lemma calculate_disease_risk_flat data :
  calculate_disease_risk data =
  (a1 <- item_gt data "age" 45 ;;
   g <- (v <- getitem data "gender" ;; py_lower v) ;;
   a2 <- py_or (item_gt data "blood_pressure_systolic" 140)
               (item_gt data "blood_pressure_diastolic" 90) ;;
   a3 <- item_gt data "cholesterol_total" 240 ;;
   a4 <- item_lt data "cholesterol_hdl" 40 ;;
   a5 <- item_gt data "bmi" 30 ;;
   sm <- getitem data "smoking_status" ;;
   h1 <- py_lower (get data "family_history" (VStr "")) ;;
   b1 <- item_gt data "age" 45 ;;
   b2 <- item_gt data "bmi" 25 ;;
   b3 <- item_gt data "blood_sugar_fasting" 126 ;;
   b3' <- (if b3 then Ok false else item_gt data "blood_sugar_fasting" 100) ;;
   b4 <- py_gt (get data "hba1c" (VNum 0)) 6.5 ;;
   h2 <- py_lower (get data "family_history" (VStr "")) ;;
   ex <- getitem data "exercise_frequency" ;;
   c1 <- py_or (item_gt data "blood_pressure_systolic" 120)
               (item_gt data "blood_pressure_diastolic" 80) ;;
   c2 <- item_gt data "age" 50 ;;
   c3 <- item_gt data "bmi" 25 ;;
   al <- getitem data "alcohol_consumption" ;;
   h3 <- py_lower (get data "family_history" (VStr "")) ;;
   d1 <- item_gt data "bmi" 30 ;;
   d2 <- item_gt data "blood_sugar_fasting" 100 ;;
   d3 <- item_lt data "cholesterol_hdl" 50 ;;
   d4 <- item_gt data "blood_pressure_systolic" 130 ;;
   e1 <- item_gt data "age" 55 ;;
   e2 <- item_gt data "blood_pressure_systolic" 140 ;;
   sm' <- getitem data "smoking_status" ;;
   h4 <- py_lower (get data "family_history" (VStr "")) ;;
   Ok (risks_of
         (0 + pts a1 20 + pts (String.eqb g "male") 10 + pts a2 25 + pts a3 20
          + pts a4 15 + pts a5 15
          + pts (py_in_list sm ["Current smoker"; "Heavy smoker"]) 30
          + pts (str_in "heart disease" h1) 20)
         (0 + pts b1 15 + pts b2 20 + pts b3 40 + pts b3' 25 + pts b4 35
          + pts (str_in "diabetes" h2) 25
          + pts (py_in_list ex ["Never"; "Rarely"]) 15)
         (0 + pts c1 30 + pts c2 20 + pts c3 15
          + pts (py_in_list al ["Heavy drinker"; "Daily"]) 20
          + pts (str_in "hypertension" h3) 25)
         (0 + pts d1 25 + pts d2 20 + pts d3 15 + pts d4 20)
         (0 + pts e1 20 + pts e2 25
          + pts (py_in_list sm' ["Current smoker"; "Heavy smoker"]) 25
          + pts (str_in "stroke" h4) 30),
       general_recommendations
         ((([] ++ rec_if a2 rec_blood_pressure ++ rec_if a3 rec_cholesterol
               ++ rec_if a5 rec_weight
               ++ rec_if (py_in_list sm ["Current smoker"; "Heavy smoker"]) rec_smoking)
            ++ rec_if b3 rec_endocrinologist ++ rec_if b3' rec_glucose
            ++ rec_if (py_in_list ex ["Never"; "Rarely"]) rec_activity)
           ++ rec_if (py_in_list al ["Heavy drinker"; "Daily"]) rec_alcohol))).
Proof.
  rewrite calculate_disease_risk_nf.
  rewrite cardiovascular_nf. repeat flat_step.
  rewrite diabetes_nf. repeat flat_step.
  rewrite hypertension_nf. repeat flat_step.
  rewrite metabolic_nf. repeat flat_step.
  rewrite stroke_nf. repeat flat_step.
  reflexivity.
Qed.

(** ** Changing one field of a record *)

Lemma item_gt_insert_eq (data : gmap string value) k v n :
  item_gt (<[k := v]> data) k n = py_gt v n.
Proof. unfold item_gt. by rewrite getitem_insert_eq. Qed.

Lemma item_gt_insert_ne (data : gmap string value) k k' v n :
  k <> k' -> item_gt (<[k := v]> data) k' n = item_gt data k' n.
Proof. intros H. unfold item_gt. by rewrite getitem_insert_ne. Qed.

Lemma item_lt_insert_ne (data : gmap string value) k k' v n :
  k <> k' -> item_lt (<[k := v]> data) k' n = item_lt data k' n.
Proof. intros H. unfold item_lt. by rewrite getitem_insert_ne. Qed.

Lemma item_gt_delete_ne (data : gmap string value) k k' n :
  k <> k' -> item_gt (delete k data) k' n = item_gt data k' n.
Proof. intros H. unfold item_gt. by rewrite getitem_delete_ne. Qed.

Lemma item_lt_delete_ne (data : gmap string value) k k' n :
  k <> k' -> item_lt (delete k data) k' n = item_lt data k' n.
Proof. intros H. unfold item_lt. by rewrite getitem_delete_ne. Qed.

(** Push every access to a changed record down to the record it was made
    from. *)
Ltac ins_simpl :=
  rewrite ?item_gt_insert_eq, ?getitem_insert_eq, ?get_insert_eq, ?get_delete_eq;
  rewrite ?item_gt_insert_ne, ?item_lt_insert_ne, ?getitem_insert_ne,
    ?get_insert_ne, ?item_gt_delete_ne, ?item_lt_delete_ne, ?getitem_delete_ne,
    ?get_delete_ne by done.

Ltac ins_simpl_in H :=
  rewrite ?item_gt_insert_eq, ?getitem_insert_eq, ?get_insert_eq, ?get_delete_eq in H;
  rewrite ?item_gt_insert_ne, ?item_lt_insert_ne, ?getitem_insert_ne,
    ?get_insert_ne, ?item_gt_delete_ne, ?item_lt_delete_ne, ?getitem_delete_ne,
    ?get_delete_ne in H by done.

(** Replay in the goal the tests whose outcomes are in the context. *)
Ltac flat_replay :=
  repeat first
    [ progress cbn [bind py_lower py_gt]
    | match goal with
      | H : ?m = Ok _ |- context [bind ?m _] => rewrite H
      end ].

Lemma score_of_cardiovascular cv db ht ms st :
  score_of (risks_of cv db ht ms st) "Cardiovascular Disease" = Some (Z.min cv 100).
Proof. reflexivity. Qed.

Lemma score_of_diabetes cv db ht ms st :
  score_of (risks_of cv db ht ms st) "Type 2 Diabetes" = Some (Z.min db 100).
Proof. reflexivity. Qed.

Lemma score_of_hypertension cv db ht ms st :
  score_of (risks_of cv db ht ms st) "Hypertension" = Some (Z.min ht 100).
Proof. reflexivity. Qed.

Lemma score_of_metabolic cv db ht ms st :
  score_of (risks_of cv db ht ms st) "Metabolic Syndrome" = Some (Z.min ms 100).
Proof. reflexivity. Qed.

Lemma score_of_stroke cv db ht ms st :
  score_of (risks_of cv db ht ms st) "Stroke" = Some (Z.min st 100).
Proof. reflexivity. Qed.

Lemma py_in_list_true v l :
  py_in_list v l = true <-> exists s, v = VStr s /\ In s l.
Proof.
  destruct v as [q|s]; cbn [py_in_list].
  - split; [discriminate | intros (s & Hs & _); discriminate].
  - rewrite existsb_exists. split.
    + intros (x & Hx & He). apply String.eqb_eq in He. subst. eauto.
    + intros (s' & Hs & Hin). injection Hs as <-. exists s.
      split; [exact Hin | apply String.eqb_refl].
Qed.

Lemma py_in_list_pair v a b :
  py_in_list v [a; b] = true <-> v = VStr a \/ v = VStr b.
Proof.
  rewrite py_in_list_true. split.
  - intros (s & -> & [<-|[<-|[]]]); auto.
  - intros [->| ->]; eexists; (split; [reflexivity|]); cbn; auto.
Qed.

Lemma pts_case (c : bool) (k : Z) (P : Prop) :
  (c = true <-> P) -> (P -> pts c k = k) /\ (~ P -> pts c k = 0).
Proof. destruct c; intros [H1 H2]; split; intros HP; cbn [pts]; auto; try tauto.
  specialize (H2 HP). discriminate. Qed.

(** ** Claims about single tests *)

Lemma smoking_test_exact (data : gmap string value) v0 risks recs :
  calculate_disease_risk (<["smoking_status" := v0]> data) = Ok (risks, recs) ->
  exists cv st out,
    cardiovascular (<["smoking_status" := VStr "Never smoked"]> data) [] = Ok (cv, out) /\
    stroke (<["smoking_status" := VStr "Never smoked"]> data) = Ok st /\
    forall v, exists risks' recs',
      calculate_disease_risk (<["smoking_status" := v]> data) = Ok (risks', recs') /\
      (v = VStr "Current smoker" \/ v = VStr "Heavy smoker" ->
       score_of risks' "Cardiovascular Disease" = Some (Z.min (cv + 30) 100) /\
       score_of risks' "Stroke" = Some (Z.min (st + 25) 100)) /\
      (~ (v = VStr "Current smoker" \/ v = VStr "Heavy smoker") ->
       score_of risks' "Cardiovascular Disease" = Some (Z.min cv 100) /\
       score_of risks' "Stroke" = Some (Z.min st 100)).
Proof.
  intros H. rewrite calculate_disease_risk_flat in H.
  ins_simpl_in H. nf_inv H. clear H.
  eexists _, _, _. split; [|split].
  - rewrite cardiovascular_nf. ins_simpl. flat_replay. reflexivity.
  - rewrite stroke_nf. ins_simpl. flat_replay. reflexivity.
  - intros v. eexists _, _. split.
    + rewrite calculate_disease_risk_flat. ins_simpl. flat_replay. reflexivity.
    + rewrite score_of_cardiovascular, score_of_stroke.
      change (py_in_list (VStr "Never smoked") ["Current smoker"; "Heavy smoker"])
        with false.
      cbn [pts].
      destruct (pts_case (py_in_list v ["Current smoker"; "Heavy smoker"]) 30 _
                  (py_in_list_pair v _ _)) as [Hy30 Hn30].
      destruct (pts_case (py_in_list v ["Current smoker"; "Heavy smoker"]) 25 _
                  (py_in_list_pair v _ _)) as [Hy25 Hn25].
      split; intros Hv.
      * rewrite (Hy30 Hv), (Hy25 Hv). split; do 2 f_equal; lia.
      * rewrite (Hn30 Hv), (Hn25 Hv). split; do 2 f_equal; lia.
Qed.

Lemma alcohol_test_exact (data : gmap string value) v0 risks recs :
  calculate_disease_risk (<["alcohol_consumption" := v0]> data) = Ok (risks, recs) ->
  exists ht out,
    hypertension (<["alcohol_consumption" := VStr "Never"]> data) [] = Ok (ht, out) /\
    forall v, exists risks' recs',
      calculate_disease_risk (<["alcohol_consumption" := v]> data) = Ok (risks', recs') /\
      (v = VStr "Heavy drinker" \/ v = VStr "Daily" ->
       score_of risks' "Hypertension" = Some (Z.min (ht + 20) 100)) /\
      (~ (v = VStr "Heavy drinker" \/ v = VStr "Daily") ->
       score_of risks' "Hypertension" = Some (Z.min ht 100)).
Proof.
  intros H. rewrite calculate_disease_risk_flat in H.
  ins_simpl_in H. nf_inv H. clear H.
  eexists _, _. split.
  - rewrite hypertension_nf. ins_simpl. flat_replay. reflexivity.
  - intros v. eexists _, _. split.
    + rewrite calculate_disease_risk_flat. ins_simpl. flat_replay. reflexivity.
    + rewrite score_of_hypertension.
      change (py_in_list (VStr "Never") ["Heavy drinker"; "Daily"]) with false.
      cbn [pts].
      destruct (pts_case (py_in_list v ["Heavy drinker"; "Daily"]) 20 _
                  (py_in_list_pair v _ _)) as [Hy Hn].
      split; intros Hv.
      * rewrite (Hy Hv). do 2 f_equal; lia.
      * rewrite (Hn Hv). do 2 f_equal; lia.
Qed.

Lemma exercise_test_exact (data : gmap string value) v0 risks recs :
  calculate_disease_risk (<["exercise_frequency" := v0]> data) = Ok (risks, recs) ->
  exists db out,
    diabetes (<["exercise_frequency" := VStr "Daily"]> data) [] = Ok (db, out) /\
    forall v, exists risks' recs',
      calculate_disease_risk (<["exercise_frequency" := v]> data) = Ok (risks', recs') /\
      (v = VStr "Never" \/ v = VStr "Rarely" ->
       score_of risks' "Type 2 Diabetes" = Some (Z.min (db + 15) 100)) /\
      (~ (v = VStr "Never" \/ v = VStr "Rarely") ->
       score_of risks' "Type 2 Diabetes" = Some (Z.min db 100)).
Proof.
  intros H. rewrite calculate_disease_risk_flat in H.
  ins_simpl_in H. nf_inv H. clear H.
  eexists _, _. split.
  - rewrite diabetes_nf. ins_simpl. flat_replay. reflexivity.
  - intros v. eexists _, _. split.
    + rewrite calculate_disease_risk_flat. ins_simpl. flat_replay. reflexivity.
    + rewrite score_of_diabetes.
      change (py_in_list (VStr "Daily") ["Never"; "Rarely"]) with false.
      cbn [pts].
      destruct (pts_case (py_in_list v ["Never"; "Rarely"]) 15 _
                  (py_in_list_pair v _ _)) as [Hy Hn].
      split; intros Hv.
      * rewrite (Hy Hv). do 2 f_equal; lia.
      * rewrite (Hn Hv). do 2 f_equal; lia.
Qed.

Lemma gender_test_lowered (data : gmap string value) g0 risks recs :
  calculate_disease_risk (<["gender" := VStr g0]> data) = Ok (risks, recs) ->
  exists cv out,
    cardiovascular (<["gender" := VStr "Female"]> data) [] = Ok (cv, out) /\
    forall g, exists risks' recs',
      calculate_disease_risk (<["gender" := VStr g]> data) = Ok (risks', recs') /\
      (lower g = "male" ->
       score_of risks' "Cardiovascular Disease" = Some (Z.min (cv + 10) 100)) /\
      (lower g <> "male" ->
       score_of risks' "Cardiovascular Disease" = Some (Z.min cv 100)).
Proof.
  intros H. rewrite calculate_disease_risk_flat in H.
  ins_simpl_in H. cbn [bind py_lower] in H. nf_inv H. clear H.
  eexists _, _. split.
  - rewrite cardiovascular_nf. ins_simpl. flat_replay. reflexivity.
  - intros g. eexists _, _. split.
    + rewrite calculate_disease_risk_flat. ins_simpl. flat_replay. reflexivity.
    + rewrite score_of_cardiovascular.
      change (String.eqb (lower "Female") "male") with false.
      cbn [pts].
      destruct (String.eqb (lower g) "male") eqn:Eg;
        [apply String.eqb_eq in Eg | apply String.eqb_neq in Eg];
        cbn [pts]; (split; intros Hg; [|try contradiction]);
        try contradiction; do 2 f_equal; lia.
Qed.

(** C10.  The smoking, alcohol and exercise tests are exact membership
    tests.  Whatever value the field holds, the function returns if it
    returns for one value of that field, and the score is the total of the
    other tests (the block's total on a record that holds a non-matching
    option in that field) plus the test's points when the value is exactly
    one of the two listed strings, and that total alone for every other
    value: 30 (cardiovascular) and 25 (stroke) for 'Current smoker' or
    'Heavy smoker', 20 (hypertension) for 'Heavy drinker' or 'Daily', 15
    (diabetes) for 'Never' or 'Rarely'.  The test of the fourth categorical
    field, gender, is not exact: whatever text the field holds, 10 points
    are added to the cardiovascular total of the other tests exactly when
    the lower-cased text is 'male'. *)
Theorem categorical_tests_exact (data : gmap string value) :
  (forall v0 risks recs,
     calculate_disease_risk (<["smoking_status" := v0]> data) = Ok (risks, recs) ->
     exists cv st out,
       cardiovascular (<["smoking_status" := VStr "Never smoked"]> data) [] = Ok (cv, out) /\
       stroke (<["smoking_status" := VStr "Never smoked"]> data) = Ok st /\
       forall v, exists risks' recs',
         calculate_disease_risk (<["smoking_status" := v]> data) = Ok (risks', recs') /\
         (v = VStr "Current smoker" \/ v = VStr "Heavy smoker" ->
          score_of risks' "Cardiovascular Disease" = Some (Z.min (cv + 30) 100) /\
          score_of risks' "Stroke" = Some (Z.min (st + 25) 100)) /\
         (~ (v = VStr "Current smoker" \/ v = VStr "Heavy smoker") ->
          score_of risks' "Cardiovascular Disease" = Some (Z.min cv 100) /\
          score_of risks' "Stroke" = Some (Z.min st 100))) /\
  (forall v0 risks recs,
     calculate_disease_risk (<["alcohol_consumption" := v0]> data) = Ok (risks, recs) ->
     exists ht out,
       hypertension (<["alcohol_consumption" := VStr "Never"]> data) [] = Ok (ht, out) /\
       forall v, exists risks' recs',
         calculate_disease_risk (<["alcohol_consumption" := v]> data) = Ok (risks', recs') /\
         (v = VStr "Heavy drinker" \/ v = VStr "Daily" ->
          score_of risks' "Hypertension" = Some (Z.min (ht + 20) 100)) /\
         (~ (v = VStr "Heavy drinker" \/ v = VStr "Daily") ->
          score_of risks' "Hypertension" = Some (Z.min ht 100))) /\
  (forall v0 risks recs,
     calculate_disease_risk (<["exercise_frequency" := v0]> data) = Ok (risks, recs) ->
     exists db out,
       diabetes (<["exercise_frequency" := VStr "Daily"]> data) [] = Ok (db, out) /\
       forall v, exists risks' recs',
         calculate_disease_risk (<["exercise_frequency" := v]> data) = Ok (risks', recs') /\
         (v = VStr "Never" \/ v = VStr "Rarely" ->
          score_of risks' "Type 2 Diabetes" = Some (Z.min (db + 15) 100)) /\
         (~ (v = VStr "Never" \/ v = VStr "Rarely") ->
          score_of risks' "Type 2 Diabetes" = Some (Z.min db 100))) /\
  (forall g0 risks recs,
     calculate_disease_risk (<["gender" := VStr g0]> data) = Ok (risks, recs) ->
     exists cv out,
       cardiovascular (<["gender" := VStr "Female"]> data) [] = Ok (cv, out) /\
       forall g, exists risks' recs',
         calculate_disease_risk (<["gender" := VStr g]> data) = Ok (risks', recs') /\
         (lower g = "male" ->
          score_of risks' "Cardiovascular Disease" = Some (Z.min (cv + 10) 100)) /\
         (lower g <> "male" ->
          score_of risks' "Cardiovascular Disease" = Some (Z.min cv 100))).
Proof.
  split; [|split; [|split]].
  - apply smoking_test_exact.
  - apply alcohol_test_exact.
  - apply exercise_test_exact.
  - apply gender_test_lowered.
Qed.

(** ** The substring test *)

Lemma prefix_app (n h : string) :
  String.prefix n h = true <-> exists post, h = n +:+ post.
Proof.
  revert h. induction n as [|a n IH]; intros h.
  - split; [intros _; exists h; reflexivity | intros _; by destruct h].
  - destruct h as [|b h]; cbn.
    + split; [discriminate | intros (post & E); discriminate E].
    + destruct (ascii_dec a b) as [<-|Hne].
      * rewrite IH. split; intros (post & E); exists post.
        -- by rewrite E.
        -- by injection E.
      * split; [discriminate|]. intros (post & E). injection E as E _. congruence.
Qed.

Lemma str_in_containment (n h : string) :
  str_in n h = true <-> exists pre post, h = pre +:+ n +:+ post.
Proof.
  induction h as [|b h IH]; unfold str_in; fold str_in;
    rewrite orb_true_iff, prefix_app.
  - split.
    + intros [(post & E)|E]; [|discriminate E]. exists "", post. exact E.
    + intros ([|c pre] & post & E); [|discriminate E]. left. exists post. exact E.
  - rewrite IH. split.
    + intros [(post & E)|(pre & post & E)].
      * exists "", post. exact E.
      * exists (String b pre), post. cbn. by rewrite E.
    + intros ([|c pre] & post & E).
      * left. exists post. exact E.
      * right. exists pre, post. cbn in E. by injection E.
Qed.

(** ** Claims about the optional fields *)

Lemma family_history_absent (data : gmap string value) :
  calculate_disease_risk (delete "family_history" data) =
  calculate_disease_risk (<["family_history" := VStr ""]> data).
Proof. rewrite !calculate_disease_risk_flat. ins_simpl. reflexivity. Qed.

Lemma family_history_case (data : gmap string value) s s' :
  lower s = lower s' ->
  calculate_disease_risk (<["family_history" := VStr s]> data) =
  calculate_disease_risk (<["family_history" := VStr s']> data).
Proof.
  intros E. rewrite !calculate_disease_risk_flat. ins_simpl.
  cbn [py_lower]. rewrite E. reflexivity.
Qed.

Lemma family_history_points (data : gmap string value) s0 risks recs :
  calculate_disease_risk (<["family_history" := VStr s0]> data) = Ok (risks, recs) ->
  exists cv db ht st o1 o2 o3,
    cardiovascular (delete "family_history" data) [] = Ok (cv, o1) /\
    diabetes (delete "family_history" data) [] = Ok (db, o2) /\
    hypertension (delete "family_history" data) [] = Ok (ht, o3) /\
    stroke (delete "family_history" data) = Ok st /\
    (exists risks0,
       calculate_disease_risk (delete "family_history" data) = Ok (risks0, recs) /\
       score_of risks0 "Cardiovascular Disease" = Some (Z.min cv 100) /\
       score_of risks0 "Type 2 Diabetes" = Some (Z.min db 100) /\
       score_of risks0 "Hypertension" = Some (Z.min ht 100) /\
       score_of risks0 "Stroke" = Some (Z.min st 100)) /\
    forall s, exists risks',
      calculate_disease_risk (<["family_history" := VStr s]> data) = Ok (risks', recs) /\
      score_of risks' "Cardiovascular Disease" =
        Some (Z.min (cv + pts (str_in "heart disease" (lower s)) 20) 100) /\
      score_of risks' "Type 2 Diabetes" =
        Some (Z.min (db + pts (str_in "diabetes" (lower s)) 25) 100) /\
      score_of risks' "Hypertension" =
        Some (Z.min (ht + pts (str_in "hypertension" (lower s)) 25) 100) /\
      score_of risks' "Stroke" =
        Some (Z.min (st + pts (str_in "stroke" (lower s)) 30) 100).
Proof.
  intros H. rewrite calculate_disease_risk_flat in H.
  ins_simpl_in H. cbn [py_lower] in H. nf_inv H. injection H as _ <-.
  eexists _, _, _, _, _, _, _.
  split; [rewrite cardiovascular_nf; ins_simpl; flat_replay; reflexivity|].
  split; [rewrite diabetes_nf; ins_simpl; flat_replay; reflexivity|].
  split; [rewrite hypertension_nf; ins_simpl; flat_replay; reflexivity|].
  split; [rewrite stroke_nf; ins_simpl; flat_replay; reflexivity|].
  change (str_in "heart disease" (lower "")) with false.
  change (str_in "diabetes" (lower "")) with false.
  change (str_in "hypertension" (lower "")) with false.
  change (str_in "stroke" (lower "")) with false.
  cbn [pts]. split.
  - eexists. split.
    + rewrite calculate_disease_risk_flat. ins_simpl. flat_replay. reflexivity.
    + rewrite score_of_cardiovascular, score_of_diabetes, score_of_hypertension,
        score_of_stroke.
      change (str_in "heart disease" (lower "")) with false.
      change (str_in "diabetes" (lower "")) with false.
      change (str_in "hypertension" (lower "")) with false.
      change (str_in "stroke" (lower "")) with false.
      cbn [pts]. repeat split; do 2 f_equal; lia.
  - intros s. eexists. split.
    + rewrite calculate_disease_risk_flat. ins_simpl. flat_replay. reflexivity.
    + rewrite score_of_cardiovascular, score_of_diabetes, score_of_hypertension,
        score_of_stroke.
      repeat split; do 2 f_equal; lia.
Qed.

(** C4.  The four family-history tests are substring tests on the
    lower-cased text of the field ([str_in] holds exactly when the needle
    occurs in the text): records whose family-history texts have the same
    lower-cased form, as texts that differ only in case do, get the same
    result; a record without the field gets the result of the record that
    holds the empty string there, so nothing is raised and no test matches;
    and a text adds 20, 25, 25 and 30 points to the totals of the
    cardiovascular, diabetes, hypertension and stroke blocks exactly when
    its lower-cased form contains 'heart disease', 'diabetes',
    'hypertension' and 'stroke'.  The text is any text: [lower] is
    [str.lower()], with the Unicode case mapping behind it. *)
Theorem family_history_tests (data : gmap string value) :
  (forall n h, str_in n h = true <-> exists pre post, h = pre +:+ n +:+ post) /\
  calculate_disease_risk (delete "family_history" data) =
    calculate_disease_risk (<["family_history" := VStr ""]> data) /\
  (forall s s', lower s = lower s' ->
     calculate_disease_risk (<["family_history" := VStr s]> data) =
     calculate_disease_risk (<["family_history" := VStr s']> data)) /\
  (forall s0 risks recs,
     calculate_disease_risk (<["family_history" := VStr s0]> data) = Ok (risks, recs) ->
     exists cv db ht st o1 o2 o3,
       cardiovascular (delete "family_history" data) [] = Ok (cv, o1) /\
       diabetes (delete "family_history" data) [] = Ok (db, o2) /\
       hypertension (delete "family_history" data) [] = Ok (ht, o3) /\
       stroke (delete "family_history" data) = Ok st /\
       (exists risks0,
          calculate_disease_risk (delete "family_history" data) = Ok (risks0, recs) /\
          score_of risks0 "Cardiovascular Disease" = Some (Z.min cv 100) /\
          score_of risks0 "Type 2 Diabetes" = Some (Z.min db 100) /\
          score_of risks0 "Hypertension" = Some (Z.min ht 100) /\
          score_of risks0 "Stroke" = Some (Z.min st 100)) /\
       forall s, exists risks',
         calculate_disease_risk (<["family_history" := VStr s]> data) = Ok (risks', recs) /\
         score_of risks' "Cardiovascular Disease" =
           Some (Z.min (cv + if str_in "heart disease" (lower s) then 20 else 0) 100) /\
         score_of risks' "Type 2 Diabetes" =
           Some (Z.min (db + if str_in "diabetes" (lower s) then 25 else 0) 100) /\
         score_of risks' "Hypertension" =
           Some (Z.min (ht + if str_in "hypertension" (lower s) then 25 else 0) 100) /\
         score_of risks' "Stroke" =
           Some (Z.min (st + if str_in "stroke" (lower s) then 30 else 0) 100)).
Proof.
  split; [exact str_in_containment|].
  split; [apply family_history_absent|].
  split; [apply family_history_case|].
  exact (family_history_points data).
Qed.

Lemma hba1c_absent (data : gmap string value) :
  calculate_disease_risk (delete "hba1c" data) =
  calculate_disease_risk (<["hba1c" := VNum 0]> data).
Proof. rewrite !calculate_disease_risk_flat. ins_simpl. reflexivity. Qed.

(** C6.  A record without the HbA1c field gets the result of the record
    that holds 0 there.  So the function returns on it whenever it returns
    on the record completed with some number, with the same
    recommendations, and its diabetes score is the total of the other
    diabetes tests: 35 points are added only for a value above 6.5. *)
Theorem hba1c_absent_is_zero (data : gmap string value) :
  calculate_disease_risk (delete "hba1c" data) =
    calculate_disease_risk (<["hba1c" := VNum 0]> data) /\
  (forall h0 risks recs,
     calculate_disease_risk (<["hba1c" := VNum h0]> data) = Ok (risks, recs) ->
     exists db out,
       diabetes (delete "hba1c" data) [] = Ok (db, out) /\
       (exists risks0,
          calculate_disease_risk (delete "hba1c" data) = Ok (risks0, recs) /\
          score_of risks0 "Type 2 Diabetes" = Some (Z.min db 100)) /\
       forall h, exists risks',
         calculate_disease_risk (<["hba1c" := VNum h]> data) = Ok (risks', recs) /\
         ((6.5 < h)%Q ->
          score_of risks' "Type 2 Diabetes" = Some (Z.min (db + 35) 100)) /\
         ((h <= 6.5)%Q ->
          score_of risks' "Type 2 Diabetes" = Some (Z.min db 100))).
Proof.
  split; [apply hba1c_absent|].
  intros h0 risks recs H. rewrite calculate_disease_risk_flat in H.
  ins_simpl_in H. cbn [py_gt] in H. nf_inv H. injection H as _ <-.
  eexists _, _.
  split; [rewrite diabetes_nf; ins_simpl; flat_replay; reflexivity|].
  change (negb (Qle_bool 0 6.5)) with false. cbn [pts]. split.
  - eexists. split.
    + rewrite calculate_disease_risk_flat. ins_simpl. flat_replay. reflexivity.
    + rewrite score_of_diabetes. change (negb (Qle_bool 0 6.5)) with false.
      cbn [pts]. do 2 f_equal; lia.
  - intros h. eexists. split.
    + rewrite calculate_disease_risk_flat. ins_simpl. flat_replay. reflexivity.
    + rewrite score_of_diabetes. split; intros Hh.
      * apply py_gt_true in Hh. rewrite Hh. cbn [pts]. do 2 f_equal; lia.
      * apply py_gt_false in Hh. rewrite Hh. cbn [pts]. do 2 f_equal; lia.
Qed.

(** ** The two fasting-glucose branches *)

(** C2.  In the diabetes block the two fasting-glucose branches exclude each
    other.  With [db] and [tail] the total and the recommendations of the
    block's other tests (what the block yields for a fasting glucose of 0):
    above 126 the block adds 40 and the endocrinologist line, and not the
    glucose-monitoring line; above 100 and at most 126 it adds 25 and the
    glucose-monitoring line; at most 100 it adds neither.  The Type 2
    Diabetes score is that total clamped at 100. *)
Theorem glucose_branches_exclusive (data : gmap string value) g0 risks recs :
  calculate_disease_risk (<["blood_sugar_fasting" := VNum g0]> data) = Ok (risks, recs) ->
  exists db tail,
    (forall pre,
       diabetes (<["blood_sugar_fasting" := VNum 0]> data) pre = Ok (db, pre ++ tail)) /\
    ~ In rec_endocrinologist tail /\ ~ In rec_glucose tail /\
    forall g, exists risks' recs',
      calculate_disease_risk (<["blood_sugar_fasting" := VNum g]> data)
        = Ok (risks', recs') /\
      ((126 < g)%Q ->
       score_of risks' "Type 2 Diabetes" = Some (Z.min (db + 40) 100) /\
       forall pre,
         diabetes (<["blood_sugar_fasting" := VNum g]> data) pre
           = Ok (db + 40, pre ++ [rec_endocrinologist] ++ tail)) /\
      ((100 < g)%Q /\ (g <= 126)%Q ->
       score_of risks' "Type 2 Diabetes" = Some (Z.min (db + 25) 100) /\
       forall pre,
         diabetes (<["blood_sugar_fasting" := VNum g]> data) pre
           = Ok (db + 25, pre ++ [rec_glucose] ++ tail)) /\
      ((g <= 100)%Q ->
       score_of risks' "Type 2 Diabetes" = Some (Z.min db 100) /\
       forall pre,
         diabetes (<["blood_sugar_fasting" := VNum g]> data) pre
           = Ok (db, pre ++ tail)).
Proof.
  intros H. rewrite calculate_disease_risk_flat in H.
  ins_simpl_in H. cbn [py_gt] in H. nf_inv H. clear H.
  eexists _, (rec_if _ rec_activity).
  split; [|split; [|split]].
  - intros pre. rewrite diabetes_nf. ins_simpl. flat_replay. reflexivity.
  - intros Hin. destruct (py_in_list _ _); cbn in Hin; [|exact Hin].
    destruct Hin as [E|[]]. discriminate E.
  - intros Hin. destruct (py_in_list _ _); cbn in Hin; [|exact Hin].
    destruct Hin as [E|[]]. discriminate E.
  - intros g.
    change (negb (Qle_bool 0 126)) with false.
    change (negb (Qle_bool 0 100)) with false. cbn [pts].
    destruct (negb (Qle_bool g 126)) eqn:E1;
      destruct (negb (Qle_bool g 100)) eqn:E2;
      (eexists _, _; split;
       [ rewrite calculate_disease_risk_flat; ins_simpl; cbn [py_gt bind];
         rewrite ?E1, ?E2; flat_replay; reflexivity |]);
      rewrite score_of_diabetes; cbn [pts];
      first [apply py_gt_true in E1 | apply py_gt_false in E1];
      first [apply py_gt_true in E2 | apply py_gt_false in E2];
      (split; [|split]); intros Hg; try (exfalso; lra);
      (split; [do 2 f_equal; lia|]); intros pre;
      rewrite diabetes_nf; ins_simpl; cbn [py_gt bind];
      first [apply py_gt_true in E1 | apply py_gt_false in E1];
      first [apply py_gt_true in E2 | apply py_gt_false in E2];
      rewrite ?E1, ?E2; flat_replay; cbn [pts rec_if app];
      do 2 f_equal; lia.
Qed.

(** ** The prediction store *)

Lemma insert_desc_perm r l : Permutation (insert_desc r l) (r :: l).
Proof.
  induction l as [|x t IH]; cbn [insert_desc]; [reflexivity|].
  destruct (p_created_at x <=? p_created_at r); [reflexivity|].
  rewrite IH. apply perm_swap.
Qed.

Lemma order_by_created_at_desc_perm l :
  Permutation (order_by_created_at_desc l) l.
Proof.
  induction l as [|x t IH]; cbn; [reflexivity|].
  rewrite insert_desc_perm. by constructor.
Qed.

Lemma insert_desc_sorted r l :
  StronglySorted newer_first l -> StronglySorted newer_first (insert_desc r l).
Proof.
  induction 1 as [|x t Hs IH Hx]; cbn [insert_desc].
  - repeat constructor.
  - destruct (p_created_at x <=? p_created_at r) eqn:E.
    + apply Z.leb_le in E. constructor; [by constructor|].
      constructor; [exact E|].
      eapply Forall_impl; [exact Hx|]. unfold newer_first. intros; lia.
    + apply Z.leb_gt in E. constructor; [exact IH|].
      eapply Permutation_Forall; [symmetry; apply insert_desc_perm|].
      constructor; [unfold newer_first; lia | exact Hx].
Qed.

Lemma order_by_created_at_desc_sorted l :
  StronglySorted newer_first (order_by_created_at_desc l).
Proof.
  induction l as [|x t IH]; cbn; [constructor | by apply insert_desc_sorted].
Qed.

Lemma written_owner s r :
  written s r -> p_user_id r = s_user_id s /\ p_created_at r = s_now s.
Proof.
  intros (id & H). unfold prediction_row_of in H. cbn zeta in H.
  nf_inv H. injection H as <-. split; reflexivity.
Qed.

Lemma save_all_rows subs : forall db db',
  save_all db subs = Ok db' ->
  exists rows, db' = db ++ rows /\ Forall2 written subs rows.
Proof.
  induction subs as [|s rest IH]; intros db db' H; cbn [save_all] in H.
  - injection H as <-. exists []. split; [by rewrite app_nil_r | constructor].
  - apply bind_Ok in H as (db1 & Hs & H).
    unfold save_submission, save_prediction in Hs.
    apply bind_Ok in Hs as (row & Hrow & Hs). injection Hs as <-.
    apply IH in H as (rows & -> & Hrows).
    exists (row :: rows). split; [by rewrite <- app_assoc|].
    constructor; [by eexists | exact Hrows].
Qed.

Lemma written_filter uid subs rows :
  Forall2 written subs rows ->
  Forall2 written (List.filter (fun s => s_user_id s =? uid) subs)
                  (List.filter (fun r => p_user_id r =? uid) rows).
Proof.
  induction 1 as [|s r subs rows Hw _ IH]; cbn [List.filter]; [constructor|].
  destruct (written_owner _ _ Hw) as [-> _].
  destruct (s_user_id s =? uid); [by constructor | exact IH].
Qed.

Lemma insert_desc_oldest r l :
  Forall (created_before r) l -> insert_desc r l = l ++ [r].
Proof.
  induction 1 as [|x t Hx _ IH]; cbn [insert_desc app]; [reflexivity|].
  unfold created_before in Hx.
  destruct (p_created_at x <=? p_created_at r) eqn:E.
  - apply Z.leb_le in E. lia.
  - by rewrite IH.
Qed.

Lemma order_by_created_at_desc_rev l :
  StronglySorted created_before l -> order_by_created_at_desc l = rev l.
Proof.
  induction 1 as [|x t _ IH Hx]; [reflexivity|].
  cbn [order_by_created_at_desc fold_right rev].
  fold (order_by_created_at_desc t). rewrite IH.
  apply insert_desc_oldest.
  eapply Permutation_Forall; [apply Permutation_rev | exact Hx].
Qed.

Lemma filter_StronglySorted {A : Type} (R : A -> A -> Prop) (f : A -> bool) l :
  StronglySorted R l -> StronglySorted R (List.filter f l).
Proof.
  induction 1 as [|x t _ IH Hx]; cbn [List.filter]; [constructor|].
  destruct (f x); [|exact IH]. constructor; [exact IH|].
  apply List.Forall_forall. intros y Hy. apply filter_In in Hy as [Hy _].
  revert y Hy. by apply List.Forall_forall.
Qed.

Lemma written_created_before subs rows :
  Forall2 written subs rows ->
  StronglySorted submitted_before subs ->
  StronglySorted created_before rows.
Proof.
  induction 1 as [|s r subs rows Hw Hrest IH]; intros Hs; [constructor|].
  apply StronglySorted_inv in Hs as [Hs Hall].
  constructor; [by apply IH|].
  destruct (written_owner _ _ Hw) as [_ Hr].
  clear IH Hs. induction Hrest as [|s' r' subs rows Hw' _ IH]; [constructor|].
  apply Forall_cons in Hall as [Hs' Hall].
  constructor; [|by apply IH].
  destruct (written_owner _ _ Hw') as [_ Hr'].
  unfold created_before, submitted_before in *. lia.
Qed.

(** C7.  After any run of [save_prediction] calls on an empty store, the
    history query for an account returns no row when the account made no
    submission, and otherwise exactly the rows written by that account's
    submissions (as many rows as submissions, each written by one of them,
    none owned by another account), sorted by creation timestamp, newest
    first; when the submissions were made at strictly increasing times, that
    is the account's rows of the table in reverse order. *)
Theorem history_query subs db' uid :
  save_all [] subs = Ok db' ->
  let res := get_user_predictions db' uid in
  let mine := List.filter (fun s => s_user_id s =? uid) subs in
  (mine = [] -> res = []) /\
  length res = length mine /\
  (exists rows, Forall2 written mine rows /\ Permutation res rows) /\
  Forall (fun r => p_user_id r = uid) res /\
  StronglySorted newer_first res /\
  (StronglySorted submitted_before subs ->
   res = rev (List.filter (fun r => p_user_id r =? uid) db')).
Proof.
  intros H res mine. apply save_all_rows in H as (rows & -> & Hrows).
  cbn [app] in res.
  assert (Hperm : Permutation res (List.filter (fun r => p_user_id r =? uid) rows))
    by apply order_by_created_at_desc_perm.
  pose proof (written_filter uid _ _ Hrows) as Hmine. fold mine in Hmine.
  assert (Hlen : length res = length mine).
  { rewrite (Permutation_length Hperm). symmetry.
    eapply Forall2_length. exact Hmine. }
  split; [|split; [exact Hlen|split; [|split; [|split]]]].
  - intros E. rewrite E in Hlen. by destruct res.
  - eexists. split; [exact Hmine | exact Hperm].
  - eapply Permutation_Forall; [symmetry; exact Hperm|].
    apply List.Forall_forall. intros r Hr. apply filter_In in Hr as [_ Hr].
    by apply Z.eqb_eq.
  - apply order_by_created_at_desc_sorted.
  - intros Hinc. apply order_by_created_at_desc_rev, filter_StronglySorted.
    by eapply written_created_before.
Qed.

Lemma history_query_witness :
  exists db',
    save_all [] example_submissions = Ok db' /\
    length (get_user_predictions db' 1) = 2%nat /\
    get_user_predictions db' 3 = [].
Proof.
  destruct (save_all [] example_submissions) as [db'|e] eqn:E;
    [|vm_compute in E; discriminate E].
  exists db'. split; [reflexivity|].
  destruct (history_query example_submissions db' 1 E) as (_ & Hlen & _).
  destruct (history_query example_submissions db' 3 E) as (Hnone & _).
  split; [exact Hlen | exact (Hnone eq_refl)].
Defined.

(** ** The credential store *)

Lemma integrity_error_username :
  str_in "username" "UNIQUE constraint failed: users.username" = true.
Proof. reflexivity. Qed.

Lemma integrity_error_email :
  str_in "username" "UNIQUE constraint failed: users.email" = false /\
  str_in "email" "UNIQUE constraint failed: users.email" = true.
Proof. split; reflexivity. Qed.

(** C8, as amended.  A registration that collides with an existing account
    never raises: [create_user] returns a failure pair and leaves the table
    as it was.  The message names the colliding field when exactly one of
    username and email collides; when both collide it names one of the two,
    whichever the engine reports.  Without a collision the account is
    added. *)
Theorem create_user_collision sha order now db username email password
    full_name dob gender :
  let r := create_user sha order now db username email password full_name dob gender in
  (username_taken db username = true \/ email_taken db email = true ->
   fst r = db /\ fst (snd r) = false /\
   (snd (snd r) = "Username already exists!" /\ username_taken db username = true \/
    snd (snd r) = "Email already registered!" /\ email_taken db email = true)) /\
  (username_taken db username = true -> email_taken db email = false ->
   snd r = (false, "Username already exists!")) /\
  (email_taken db email = true -> username_taken db username = false ->
   snd r = (false, "Email already registered!")) /\
  (username_taken db username = false -> email_taken db email = false ->
   fst (snd r) = true /\ exists row, fst r = db ++ [row] /\
     u_username row = username /\ u_email row = email).
Proof.
  destruct integrity_error_email as [Hne He].
  intros r. subst r. unfold create_user, insert_user.
  destruct order, (email_taken db email), (username_taken db username);
    rewrite ?integrity_error_username, ?Hne, ?He; cbn [fst snd];
    (split; [|split; [|split]]); try discriminate; intros; auto;
    try (destruct H; discriminate);
    try (split; [reflexivity|eexists; split; [reflexivity|split; reflexivity]]).
Qed.

Lemma create_user_collision_witness :
  snd (create_user demo_hash true 2000 [demo_user] "demo" "new@example.com"
         "secret1" "Demo Two" "1991-02-03" "Other")
  = (false, "Username already exists!").
Proof.
  refine (proj1 (proj2 (create_user_collision demo_hash true 2000 [demo_user]
                          "demo" "new@example.com" "secret1" "Demo Two"
                          "1991-02-03" "Other")) _ _);
    reflexivity.
Defined.

(** C8, as stated, fails when the username and the email both collide: the
    single message cannot name both fields.  Registering the demo account a
    second time yields the email message on an engine that checks the email
    index first, though the username exists, and the username message on an
    engine that checks the username index first, though the email is a
    duplicate. *)
Lemma create_user_both_collide :
  let again order :=
    create_user demo_hash order 2000 [demo_user] "demo" "demo@example.com"
      "demo123" "Demo User" "1990-01-01" "Other" in
  username_taken [demo_user] "demo" = true /\
  email_taken [demo_user] "demo@example.com" = true /\
  snd (snd (again true)) <> "Username already exists!" /\
  snd (snd (again false)) <> "Email already registered!".
Proof.
  cbn zeta. split; [reflexivity|]. split; [reflexivity|].
  split; vm_compute; discriminate.
Qed.

(** C9.  [authenticate_user] returns the same pair [(False, None)], and
    leaves the table untouched, when no account has the username and when
    the username exists but the password does not hash to the stored value.
    It returns [True] only together with the identity of an account whose
    username and password hash both match, and does so for the account the
    query fetches when its hash matches. *)
Theorem authenticate_user_failures_indistinguishable sha now db username password :
  ((forall r, In r db -> u_username r <> username) ->
   authenticate_user sha now db username password = (db, (false, None))) /\
  ((exists r, In r db /\ u_username r = username) ->
   (forall r, In r db -> u_username r = username ->
              u_password_hash r <> hash_password sha password) ->
   authenticate_user sha now db username password = (db, (false, None))) /\
  (forall db' info,
     authenticate_user sha now db username password = (db', (true, info)) ->
     exists u, In u db /\ u_username u = username /\
       u_password_hash u = hash_password sha password /\
       info = Some {| i_id := u_id u; i_username := username;
                      i_full_name := u_full_name u; i_email := u_email u |}) /\
  (forall u,
     find (fun r => String.eqb (u_username r) username) db = Some u ->
     u_password_hash u = hash_password sha password ->
     snd (authenticate_user sha now db username password) =
       (true, Some {| i_id := u_id u; i_username := username;
                      i_full_name := u_full_name u; i_email := u_email u |})).
Proof.
  unfold authenticate_user, verify_password.
  destruct (find (fun r => String.eqb (u_username r) username) db) as [u|] eqn:F.
  - apply find_some in F as [Hin Hu]. apply String.eqb_eq in Hu.
    destruct (String.eqb (hash_password sha password) (u_password_hash u)) eqn:E.
    + apply String.eqb_eq in E. repeat split.
      * intros Hno. destruct (Hno u Hin Hu).
      * intros _ Hbad. destruct (Hbad u Hin Hu). by symmetry.
      * intros db' info H. injection H as _ <-. exists u. by repeat split.
      * intros u' Hu' _. by injection Hu' as <-.
    + apply String.eqb_neq in E. repeat split.
      * intros db' info H. discriminate H.
      * intros u' Hu' Hh. injection Hu' as <-. congruence.
  - repeat split.
    + intros db' info H. discriminate H.
    + intros u' Hu'. discriminate Hu'.
Qed.

Lemma authenticate_user_failures_indistinguishable_witness :
  authenticate_user demo_hash 2000 [demo_user] "nobody" "demo123" =
    ([demo_user], (false, None)) /\
  authenticate_user demo_hash 2000 [demo_user] "demo" "wrong" =
    ([demo_user], (false, None)).
Proof.
  destruct (authenticate_user_failures_indistinguishable
              demo_hash 2000 [demo_user] "nobody" "demo123") as (H1 & _).
  destruct (authenticate_user_failures_indistinguishable
              demo_hash 2000 [demo_user] "demo" "wrong") as (_ & H2 & _).
  split.
  - apply H1. intros r [<-|[]]. discriminate.
  - apply H2.
    + exists demo_user. split; [left|]; reflexivity.
    + intros r [<-|[]] _. discriminate.
Defined.

(** * Further properties of the scoring function *)

(** ** Which records are accepted, and what an exception means *)

Lemma item_gt_Ok (data : gmap string value) k n c :
  item_gt data k n = Ok c ->
  exists q, data !! k = Some (VNum q) /\ c = negb (Qle_bool q n).
Proof.
  unfold item_gt, getitem. destruct (data !! k) as [[q|s]|]; cbn; try discriminate.
  intros H. injection H as <-. by exists q.
Qed.

Lemma item_lt_Ok (data : gmap string value) k n c :
  item_lt data k n = Ok c ->
  exists q, data !! k = Some (VNum q) /\ c = negb (Qle_bool n q).
Proof.
  unfold item_lt, getitem. destruct (data !! k) as [[q|s]|]; cbn; try discriminate.
  intros H. injection H as <-. by exists q.
Qed.

Lemma item_gt_num (data : gmap string value) k n q :
  data !! k = Some (VNum q) -> item_gt data k n = Ok (negb (Qle_bool q n)).
Proof. intros H. unfold item_gt, getitem. by rewrite H. Qed.

Lemma item_lt_num (data : gmap string value) k n q :
  data !! k = Some (VNum q) -> item_lt data k n = Ok (negb (Qle_bool n q)).
Proof. intros H. unfold item_lt, getitem. by rewrite H. Qed.

Lemma item_gt_Raise (data : gmap string value) k n e :
  item_gt data k n = Raise e ->
  (data !! k = None /\ e = KeyError k) \/
  (exists s, data !! k = Some (VStr s) /\ e = TypeError).
Proof.
  unfold item_gt, getitem. destruct (data !! k) as [[q|s]|]; cbn; try discriminate.
  - intros H. injection H as <-. right. by exists s.
  - intros H. injection H as <-. by left.
Qed.

Lemma item_lt_Raise (data : gmap string value) k n e :
  item_lt data k n = Raise e ->
  (data !! k = None /\ e = KeyError k) \/
  (exists s, data !! k = Some (VStr s) /\ e = TypeError).
Proof.
  unfold item_lt, getitem. destruct (data !! k) as [[q|s]|]; cbn; try discriminate.
  - intros H. injection H as <-. right. by exists s.
  - intros H. injection H as <-. by left.
Qed.

Lemma getitem_Ok (data : gmap string value) k v :
  getitem data k = Ok v -> data !! k = Some v.
Proof. unfold getitem. destruct (data !! k); [|discriminate]. by intros [= ->]. Qed.

Lemma getitem_Raise (data : gmap string value) k e :
  getitem data k = Raise e -> data !! k = None /\ e = KeyError k.
Proof. unfold getitem. destruct (data !! k); [discriminate|]. by intros [= <-]. Qed.

Lemma lower_get_Ok (data : gmap string value) k h :
  py_lower (get data k (VStr "")) = Ok h -> str_or_absent (data !! k) = true.
Proof. unfold get. destruct (data !! k) as [[q|s]|]; cbn; done. Qed.

Lemma lower_get_Raise (data : gmap string value) k e :
  py_lower (get data k (VStr "")) = Raise e ->
  exists q, data !! k = Some (VNum q) /\ e = AttributeError.
Proof.
  unfold get. destruct (data !! k) as [[q|s]|]; cbn; try discriminate.
  intros [= <-]. by exists q.
Qed.

Lemma gt_get_Ok (data : gmap string value) k n c :
  py_gt (get data k (VNum 0)) n = Ok c -> num_or_absent (data !! k) = true.
Proof. unfold get. destruct (data !! k) as [[q|s]|]; cbn; done. Qed.

Lemma gt_get_Raise (data : gmap string value) k n e :
  py_gt (get data k (VNum 0)) n = Raise e ->
  exists s, data !! k = Some (VStr s) /\ e = TypeError.
Proof.
  unfold get. destruct (data !! k) as [[q|s]|]; cbn; try discriminate.
  intros [= <-]. by exists s.
Qed.

Lemma lower_item_Ok (data : gmap string value) k g :
  (v <- getitem data k ;; py_lower v) = Ok g -> is_str (data !! k) = true.
Proof. unfold getitem. destruct (data !! k) as [[q|s]|]; cbn; done. Qed.

Lemma lower_item_Raise (data : gmap string value) k e :
  (v <- getitem data k ;; py_lower v) = Raise e ->
  (data !! k = None /\ e = KeyError k) \/
  (exists q, data !! k = Some (VNum q) /\ e = AttributeError).
Proof.
  unfold getitem. destruct (data !! k) as [[q|s]|]; cbn; try discriminate.
  - intros [= <-]. right. by exists q.
  - intros [= <-]. by left.
Qed.

Lemma py_or_Raise (a b : result bool) e :
  py_or a b = Raise e -> a = Raise e \/ b = Raise e.
Proof. destruct a as [[|]|]; cbn; [discriminate| |]; auto. Qed.

Lemma py_or_Ok (data : gmap string value) k1 n1 k2 n2 c :
  py_or (item_gt data k1 n1) (item_gt data k2 n2) = Ok c ->
  exists s, data !! k1 = Some (VNum s) /\
    (negb (Qle_bool s n1) || is_num (data !! k2) = true).
Proof.
  unfold py_or. destruct (item_gt data k1 n1) as [b|] eqn:E1; [|discriminate].
  apply item_gt_Ok in E1 as (s & Hs & ->). cbn [bind].
  intros H. exists s. split; [exact Hs|].
  destruct (negb (Qle_bool s n1)); [reflexivity|].
  destruct (item_gt data k2 n2) as [b|] eqn:E2; [|discriminate].
  apply item_gt_Ok in E2 as (q & -> & _). reflexivity.
Qed.

Ltac harvest :=
  repeat match goal with
  | H : item_gt _ _ _ = Ok _ |- _ => apply item_gt_Ok in H as (? & ? & _)
  | H : item_lt _ _ _ = Ok _ |- _ => apply item_lt_Ok in H as (? & ? & _)
  | H : getitem _ _ = Ok _ |- _ => apply getitem_Ok in H
  | H : py_lower (get _ _ _) = Ok _ |- _ => apply lower_get_Ok in H
  | H : py_gt (get _ _ _) _ = Ok _ |- _ => apply gt_get_Ok in H
  | H : bind (getitem _ _) _ = Ok _ |- _ => apply lower_item_Ok in H
  | H : py_or _ _ = Ok _ |- _ => apply py_or_Ok in H as (? & ? & ?)
  end.

Lemma returns_accepted (data : gmap string value) :
  (exists r, calculate_disease_risk data = Ok r) -> accepted data = true.
Proof.
  intros [[risks recs] H]. rewrite calculate_disease_risk_flat in H.
    nf_inv H. clear H.
    match goal with
    | H : py_or (item_gt _ _ 140) _ = Ok _ |- _ =>
        apply py_or_Ok in H as (s & Hs & Hd)
    end.
    match goal with
    | H : py_or _ _ = Ok _ |- _ => clear H
    | H : (if _ then _ else _) = Ok _ |- _ => clear H
    end.
    harvest.
    unfold accepted, diastolic_ok. rewrite !Hs.
    repeat match goal with
           | H : data !! ?k = Some _ |- context [data !! ?k] => rewrite H
           end.
    rewrite Hd.
    repeat match goal with
           | H : _ = true |- _ => rewrite H; clear H
           end.
    reflexivity.
Qed.

Lemma accepted_returns (data : gmap string value) :
  accepted data = true -> exists r, calculate_disease_risk data = Ok r.
Proof.
  unfold accepted, diastolic_ok. intros H.
    repeat (apply andb_true_iff in H as [H ?]).
    destruct (data !! "age") as [[age|?]|] eqn:Eage; try discriminate.
    destruct (data !! "gender") as [[?|gender]|] eqn:Egender; try discriminate.
    destruct (data !! "blood_pressure_systolic") as [[sys|?]|] eqn:Esys;
      try discriminate.
    destruct (data !! "cholesterol_total") as [[chol|?]|] eqn:Echol;
      try discriminate.
    destruct (data !! "cholesterol_hdl") as [[hdl|?]|] eqn:Ehdl; try discriminate.
    destruct (data !! "bmi") as [[bmi|?]|] eqn:Ebmi; try discriminate.
    destruct (data !! "smoking_status") as [sm|] eqn:Esm; try discriminate.
    destruct (data !! "blood_sugar_fasting") as [[bsf|?]|] eqn:Ebsf;
      try discriminate.
    destruct (data !! "exercise_frequency") as [ex|] eqn:Eex; try discriminate.
    destruct (data !! "alcohol_consumption") as [al|] eqn:Eal; try discriminate.
    assert (Hfh : exists h, py_lower (get data "family_history" (VStr "")) = Ok h).
    { unfold get. destruct (data !! "family_history") as [[?|?]|];
        try discriminate; cbn; eauto. }
    destruct Hfh as [h Hfh].
    assert (Hhb : exists c, py_gt (get data "hba1c" (VNum 0)) 6.5 = Ok c).
    { unfold get. destruct (data !! "hba1c") as [[?|?]|];
        try discriminate; cbn; eauto. }
    destruct Hhb as [c Hhb].
    assert (Hor1 : exists c,
      py_or (item_gt data "blood_pressure_systolic" 140)
            (item_gt data "blood_pressure_diastolic" 90) = Ok c).
    { rewrite (item_gt_num _ _ _ _ Esys). cbn [py_or bind].
      destruct (negb (Qle_bool sys 140)); [eauto|].
      destruct (data !! "blood_pressure_diastolic") as [[d|?]|] eqn:Ed;
        try discriminate.
      rewrite (item_gt_num _ _ _ _ Ed). eauto. }
    destruct Hor1 as [o1 Hor1].
    assert (Hor2 : exists c,
      py_or (item_gt data "blood_pressure_systolic" 120)
            (item_gt data "blood_pressure_diastolic" 80) = Ok c).
    { rewrite (item_gt_num _ _ _ _ Esys). cbn [py_or bind].
      destruct (negb (Qle_bool sys 120)) eqn:E120; [eauto|].
      destruct (negb (Qle_bool sys 140)) eqn:E140.
      - apply py_gt_true in E140. apply py_gt_false in E120. lra.
      - destruct (data !! "blood_pressure_diastolic") as [[d|?]|] eqn:Ed;
          try discriminate.
        rewrite (item_gt_num _ _ _ _ Ed). eauto. }
    destruct Hor2 as [o2 Hor2].
    rewrite calculate_disease_risk_flat, Hor1, Hor2, Hfh, Hhb.
    repeat first
      [ rewrite (item_gt_num _ _ _ _ Eage) | rewrite (item_gt_num _ _ _ _ Echol)
      | rewrite (item_lt_num _ _ _ _ Ehdl) | rewrite (item_gt_num _ _ _ _ Ebmi)
      | rewrite (item_gt_num _ _ _ _ Ebsf) | rewrite (item_gt_num _ _ _ _ Esys)
      | rewrite (getitem_Some _ _ _ Egender) | rewrite (getitem_Some _ _ _ Esm)
      | rewrite (getitem_Some _ _ _ Eex) | rewrite (getitem_Some _ _ _ Eal) ].
    cbn [bind py_lower].
    destruct (negb (Qle_bool bsf 126)); cbn [bind]; eauto.
Qed.

(** X1.  The function returns on a record exactly when [accepted] holds of
    it: age, systolic pressure, total and HDL cholesterol, BMI and fasting
    glucose are numbers, gender is a string, smoking status, exercise
    frequency and alcohol consumption are present, family history is a
    string or absent, HbA1c is a number or absent, and the diastolic
    pressure is a number unless the systolic pressure is above 140. *)
Theorem accepted_iff (data : gmap string value) :
  (exists r, calculate_disease_risk data = Ok r) <-> accepted data = true.
Proof. split; [apply returns_accepted | apply accepted_returns]. Qed.

Ltac in_keys := cbn [In]; repeat first [left; reflexivity | right].

Ltac explain_key E :=
  destruct E as [E ->]; cbn [explains]; split; [exact E | in_keys].

Ltac explain_type E :=
  let s := fresh "s" in
  destruct E as (s & E & ->); cbn [explains];
  eexists _, s; split; [|exact E]; in_keys.

Ltac explain E :=
  first
    [ apply item_gt_Raise in E; destruct E as [E|E];
      [explain_key E | explain_type E]
    | apply item_lt_Raise in E; destruct E as [E|E];
      [explain_key E | explain_type E]
    | apply getitem_Raise in E; explain_key E
    | apply lower_get_Raise in E; explain_type E
    | apply gt_get_Raise in E; explain_type E
    | apply lower_item_Raise in E; destruct E as [E|E];
      [explain_key E | explain_type E]
    | apply py_or_Raise in E; destruct E as [E|E];
      apply item_gt_Raise in E; destruct E as [E|E];
      [explain_key E | explain_type E | explain_key E | explain_type E] ].

Ltac raise_step H :=
  lazymatch type of H with
  | Ok _ = Raise _ => discriminate H
  | bind (if ?c then Ok false else ?m) _ = Raise _ =>
      destruct c; cbn [bind] in H
  | bind ?m _ = Raise _ =>
      let E := fresh "E" in
      destruct m eqn:E; cbn [bind] in H; [|injection H as <-; explain E]
  end.

(** X2.  An exception of the function tells what is wrong with the record:
    a [KeyError] names a required key that is missing, a [TypeError] comes
    with a numeric field that holds a string, an [AttributeError] with a
    gender or family history that holds a number. *)
Theorem calculate_disease_risk_raises (data : gmap string value) e :
  calculate_disease_risk data = Raise e -> explains data e.
Proof.
  intros H. rewrite calculate_disease_risk_flat in H.
  repeat raise_step H.
Qed.

Lemma pts_gt_mono x x' n k :
  (x <= x')%Q -> 0 <= k ->
  pts (negb (Qle_bool x n)) k <= pts (negb (Qle_bool x' n)) k.
Proof.
  intros Hle Hk.
  destruct (negb (Qle_bool x n)) eqn:E; destruct (negb (Qle_bool x' n)) eqn:E';
    cbn [pts]; try lia.
  apply py_gt_true in E. apply py_gt_false in E'. lra.
Qed.

Lemma pts_lt_anti x x' n k :
  (x <= x')%Q -> 0 <= k ->
  pts (negb (Qle_bool n x')) k <= pts (negb (Qle_bool n x)) k.
Proof.
  intros Hle Hk.
  destruct (negb (Qle_bool n x)) eqn:E; destruct (negb (Qle_bool n x')) eqn:E';
    cbn [pts]; try lia.
  apply py_gt_true in E'. apply py_gt_false in E. lra.
Qed.

Lemma py_or_mono_l x x' n m c c' k :
  (x <= x')%Q -> 0 <= k ->
  py_or (Ok (negb (Qle_bool x n))) m = Ok c ->
  py_or (Ok (negb (Qle_bool x' n))) m = Ok c' ->
  pts c k <= pts c' k.
Proof.
  intros Hle Hk. cbn [py_or bind].
  destruct (negb (Qle_bool x n)) eqn:E; destruct (negb (Qle_bool x' n)) eqn:E'.
  - intros [= <-] [= <-]. lia.
  - apply py_gt_true in E. apply py_gt_false in E'. lra.
  - intros _ [= <-]. destruct c; cbn [pts]; lia.
  - intros -> [= <-]. lia.
Qed.

Lemma py_or_mono_r x x' n m c c' k :
  (x <= x')%Q -> 0 <= k ->
  py_or m (Ok (negb (Qle_bool x n))) = Ok c ->
  py_or m (Ok (negb (Qle_bool x' n))) = Ok c' ->
  pts c k <= pts c' k.
Proof.
  intros Hle Hk. unfold py_or. destruct m as [[|]|]; cbn [bind].
  - intros [= <-] [= <-]. lia.
  - intros [= <-] [= <-]. by apply pts_gt_mono.
  - discriminate.
Qed.

Lemma glucose_mono x x' c c' :
  (x <= x')%Q ->
  (if negb (Qle_bool x 126) then Ok false else Ok (negb (Qle_bool x 100))) = Ok c ->
  (if negb (Qle_bool x' 126) then Ok false else Ok (negb (Qle_bool x' 100))) = Ok c' ->
  pts (negb (Qle_bool x 126)) 40 + pts c 25 <=
  pts (negb (Qle_bool x' 126)) 40 + pts c' 25.
Proof.
  intros Hle.
  destruct (negb (Qle_bool x 126)) eqn:E; destruct (negb (Qle_bool x' 126)) eqn:E';
    intros [= <-] [= <-]; cbn [pts].
  - lia.
  - apply py_gt_true in E. apply py_gt_false in E'. lra.
  - destruct (negb (Qle_bool x 100)); cbn [pts]; lia.
  - pose proof (pts_gt_mono x x' 100 25 Hle). lia.
Qed.

(** Rewrite in [H] the tests whose outcomes are already in the context,
    the compound tests first. *)
Ltac replay_in H :=
  repeat match goal with
         | E : py_or _ _ = Ok _ |- _ => rewrite E in H
         end;
  repeat match goal with
         | E : ?m = Ok _ |- _ =>
             lazymatch type of H with
             | context [bind m _] => rewrite E in H
             end
         end.

(** Two outcomes recorded for one test are the same outcome. *)
Ltac unify_outcomes :=
  repeat match goal with
         | E : ?m = Ok _, E' : ?X = Ok _ |- _ =>
             lazymatch X with
             | m => fail
             | context [m] => rewrite E in E'
             end
         end;
  repeat match goal with
         | E1 : ?X = Ok ?a, E2 : ?X = Ok ?b |- _ =>
             assert (a = b) by congruence; subst b; clear E2
         end.

Ltac mono_setup H H' :=
  rewrite calculate_disease_risk_flat in H, H';
  ins_simpl_in H; ins_simpl_in H'; cbn [py_gt py_lt] in H, H';
  nf_inv H; replay_in H'; nf_inv H'; unify_outcomes;
  injection H as <- _; injection H' as <- _;
  unfold risks_of; repeat constructor; cbn [fst snd];
  apply Z.min_le_compat_r.

Lemma item_lt_insert_eq (data : gmap string value) k v n :
  item_lt (<[k := v]> data) k n = py_lt v n.
Proof. unfold item_lt. by rewrite getitem_insert_eq. Qed.

(** The facts that compare the points of the tests on [x] and on [x']. *)
Ltac mono_fact t :=
  let T := type of t in
  lazymatch goal with
  | _ : T |- _ => fail
  | _ => pose proof t
  end.

Ltac mono_facts x x' Hle :=
  repeat match goal with
         | |- context [pts (negb (Qle_bool x ?n)) ?k] =>
             mono_fact (pts_gt_mono x x' n k Hle ltac:(lia))
         | |- context [pts (negb (Qle_bool ?n x)) ?k] =>
             mono_fact (pts_lt_anti x x' n k Hle ltac:(lia))
         | H1 : py_or (Ok (negb (Qle_bool x ?n))) ?m = Ok ?c,
           H2 : py_or (Ok (negb (Qle_bool x' ?n))) ?m = Ok ?c'
           |- context [pts ?c ?k] =>
             mono_fact (py_or_mono_l x x' n m c c' k Hle ltac:(lia) H1 H2)
         | H1 : py_or ?m (Ok (negb (Qle_bool x ?n))) = Ok ?c,
           H2 : py_or ?m (Ok (negb (Qle_bool x' ?n))) = Ok ?c'
           |- context [pts ?c ?k] =>
             mono_fact (py_or_mono_r x x' n m c c' k Hle ltac:(lia) H1 H2)
         | H1 : (if negb (Qle_bool x 126) then _ else _) = Ok ?c,
           H2 : (if negb (Qle_bool x' 126) then _ else _) = Ok ?c' |- _ =>
             mono_fact (glucose_mono x x' c c' Hle H1 H2)
         end.

Ltac mono_case x x' Hle H H' :=
  rewrite calculate_disease_risk_flat in H, H';
  ins_simpl_in H; ins_simpl_in H';
  rewrite ?item_lt_insert_eq in H, H';
  cbn [py_gt py_lt] in H, H';
  nf_inv H; replay_in H'; nf_inv H'; unify_outcomes;
  injection H as <- _; injection H' as <- _;
  unfold risks_of; repeat constructor; cbn [fst snd];
  apply Z.min_le_compat_r; mono_facts x x' Hle; lia.

(** X3.  Raising age, BMI, either blood pressure, total cholesterol, fasting
    glucose or HbA1c, everything else unchanged, lowers none of the five
    scores. *)
Theorem scores_monotone (data : gmap string value) k x x' risks risks' recs recs' :
  In k increasing_keys ->
  (x <= x')%Q ->
  calculate_disease_risk (<[k := VNum x]> data) = Ok (risks, recs) ->
  calculate_disease_risk (<[k := VNum x']> data) = Ok (risks', recs') ->
  Forall2 no_lower risks risks'.
Proof.
  intros Hk Hle H H'. cbn [In increasing_keys] in Hk.
  destruct Hk as [<-|[<-|[<-|[<-|[<-|[<-|[<-|[]]]]]]]].
  - mono_case x x' Hle H H'.
  - mono_case x x' Hle H H'.
  - mono_case x x' Hle H H'.
  - mono_case x x' Hle H H'.
  - mono_case x x' Hle H H'.
  - mono_case x x' Hle H H'.
  - mono_case x x' Hle H H'.
Qed.

(** X4.  Raising the HDL cholesterol, everything else unchanged, raises none
    of the five scores. *)
Theorem hdl_antitone (data : gmap string value) x x' risks risks' recs recs' :
  (x <= x')%Q ->
  calculate_disease_risk (<["cholesterol_hdl" := VNum x]> data) = Ok (risks, recs) ->
  calculate_disease_risk (<["cholesterol_hdl" := VNum x']> data) = Ok (risks', recs') ->
  Forall2 no_lower risks' risks.
Proof. intros Hle H H'. mono_case x x' Hle H H'. Qed.

(** X5.  A field the function never looks up, such as the patient name, the
    LDL cholesterol or the random glucose, has no influence: setting or
    removing it leaves the result, or the exception, as it was. *)
Theorem unused_field_irrelevant (data : gmap string value) k v :
  ~ In k used_keys ->
  calculate_disease_risk (<[k := v]> data) = calculate_disease_risk data /\
  calculate_disease_risk (delete k data) = calculate_disease_risk data.
Proof.
  intros Hk. cbn in Hk.
  repeat match type of Hk with
         | ~ (?a = _ \/ _) =>
             let H := fresh "Hne" in
             assert (H : k <> a) by (intros ->; apply Hk; left; reflexivity);
             assert (~ _) by (intros Hin; apply Hk; right; exact Hin);
             clear Hk;
             match goal with Hn : ~ _ |- _ => rename Hn into Hk end
         end.
  split; rewrite !calculate_disease_risk_flat; ins_simpl; reflexivity.
Qed.

Lemma item_gt_delete_eq (data : gmap string value) k n :
  item_gt (delete k data) k n = Raise (KeyError k).
Proof. unfold item_gt, getitem. by rewrite lookup_delete_eq. Qed.

(** X6.  When the systolic pressure is above 140 both blood-pressure tests
    are decided by it and the diastolic pressure is never read: whatever
    the field holds, the outcome is that of the record without it. *)
Theorem diastolic_not_read_above_140 (data : gmap string value) s v :
  data !! "blood_pressure_systolic" = Some (VNum s) ->
  (140 < s)%Q ->
  calculate_disease_risk (<["blood_pressure_diastolic" := v]> data) =
  calculate_disease_risk (delete "blood_pressure_diastolic" data).
Proof.
  intros Hs Hgt.
  assert (H140 : negb (Qle_bool s 140) = true) by (apply py_gt_true; lra).
  assert (H120 : negb (Qle_bool s 120) = true) by (apply py_gt_true; lra).
  rewrite !calculate_disease_risk_flat, !item_gt_delete_eq. ins_simpl.
  rewrite !(item_gt_num _ _ 140 _ Hs), !(item_gt_num _ _ 120 _ Hs).
  cbn [py_or bind]. rewrite H140, H120. reflexivity.
Qed.

Lemma rec_if_sublist c r : rec_if c r `sublist_of` [r].
Proof. destruct c; cbn [rec_if]; [reflexivity | apply sublist_nil_l]. Qed.

Lemma rec_if_app_sublist c r l k :
  l `sublist_of` k -> rec_if c r ++ l `sublist_of` r :: k.
Proof.
  intros H. destruct c; cbn [rec_if app]; [by apply sublist_skip | by apply sublist_cons].
Qed.

Lemma rec_if_length c r : (length (rec_if c r) <= 1)%nat.
Proof. destruct c; cbn; lia. Qed.

Lemma closing_texts_NoDup :
  NoDup (triggered_texts ++ [rec_checkups; rec_diet]) /\
  NoDup [rec_default; rec_checkups; rec_diet].
Proof.
  split; apply (bool_decide_unpack _); vm_compute; reflexivity.
Qed.

Lemma recommendations_shape (data : gmap string value) risks recs :
  calculate_disease_risk data = Ok (risks, recs) ->
  exists T, T `sublist_of` triggered_texts /\ (length T <= 7)%nat /\
    recs = general_recommendations T.
Proof.
  intros H. rewrite calculate_disease_risk_flat in H. nf_inv H.
  injection H as _ <-. cbn [app]. eexists. split; [|split; [|reflexivity]].
  - unfold triggered_texts. rewrite <- !app_assoc.
    repeat apply rec_if_app_sublist. apply rec_if_sublist.
  - rewrite !length_app.
    match goal with
    | Hc : (if ?c then Ok false else _) = Ok ?c' |- _ =>
        assert (length (rec_if c rec_endocrinologist) +
                length (rec_if c' rec_glucose) <= 1)%nat
          by (destruct c; [injection Hc as <-|destruct c']; cbn; lia)
    end.
    repeat match goal with
           | |- context [length (rec_if ?c ?r)] =>
               let L := fresh in
               assert (L := rec_if_length c r);
               generalize dependent (length (rec_if c r)); intros
           end.
    lia.
Qed.

(** X7.  The recommendation list of an accepted record has no repeated line
    and between 3 and 9 lines. *)
Theorem recommendations_distinct (data : gmap string value) risks recs :
  calculate_disease_risk data = Ok (risks, recs) ->
  NoDup recs /\ (3 <= length recs <= 9)%nat.
Proof.
  intros H. apply recommendations_shape in H as (T & Hsub & Hlen & ->).
  destruct closing_texts_NoDup as [N1 N2].
  unfold general_recommendations. destruct T as [|t T'] eqn:ET.
  - cbn. split; [exact N2 | lia].
  - rewrite <- ET in *. rewrite <- app_assoc. split.
    + eapply sublist_NoDup; [exact N1|].
      apply sublist_app; [exact Hsub | reflexivity].
    + rewrite length_app. cbn [length app]. rewrite ET in *. cbn [length] in *. lia.
Qed.

(** X8.  The Metabolic Syndrome and Stroke scores are the blocks' totals as
    they are, the clamp at 100 never changing them, and the Metabolic
    Syndrome score is at most 80. *)
Theorem metabolic_and_stroke_unclamped (data : gmap string value) risks recs :
  calculate_disease_risk data = Ok (risks, recs) ->
  exists ms st,
    metabolic data = Ok ms /\ stroke data = Ok st /\
    score_of risks "Metabolic Syndrome" = Some ms /\ 0 <= ms <= 80 /\
    score_of risks "Stroke" = Some st.
Proof.
  intros H. apply calculate_disease_risk_Ok in H
    as (cv & r1 & db & r2 & ht & r3 & ms & st & _ & _ & _ & H4 & H5 & -> & _).
  exists ms, st. split; [exact H4|]. split; [exact H5|].
  apply metabolic_range in H4. apply stroke_range in H5.
  rewrite score_of_metabolic, score_of_stroke.
  rewrite !Z.min_l by lia. repeat split; lia.
Qed.

Example py_split_examples :
  py_split "a; b" "; " = ["a"; "b"] /\ py_split "a; " "; " = ["a"; ""] /\
  py_split "a;b ;c" "; " = ["a;b ;c"] /\ py_split "" "; " = [""].
Proof. repeat split; reflexivity. Qed.

Lemma string_app_assoc (a b c : string) : (a +:+ b) +:+ c = a +:+ (b +:+ c).
Proof.
  induction a as [|x a IH]; [reflexivity|].
  change (String x ((a +:+ b) +:+ c) = String x (a +:+ (b +:+ c))). by f_equal.
Qed.

Lemma string_app_nil_r (a : string) : a +:+ "" = a.
Proof.
  induction a as [|x a IH]; [reflexivity|].
  change (String x (a +:+ "") = String x a). by f_equal.
Qed.

Lemma string_app_cons c (a b : string) : String c a +:+ b = String c (a +:+ b).
Proof. reflexivity. Qed.

Lemma prefix_nil_l (s : string) : String.prefix "" s = true.
Proof. by destruct s. Qed.

Lemma split_go_piece x : forall cur rest,
  str_in "; " x = false ->
  (rest = "" \/ exists rest', rest = "; " +:+ rest') ->
  split_go "; " 0 cur (x +:+ rest) = split_go "; " 0 (cur +:+ x) rest.
Proof.
  induction x as [|c x IH]; intros cur rest Hx Hrest.
  - change ("" +:+ rest) with rest. by rewrite string_app_nil_r.
  - unfold str_in in Hx; fold str_in in Hx.
    apply orb_false_iff in Hx as [Hp Hx].
    rewrite string_app_cons. unfold split_go at 1; fold split_go.
    assert (P : String.prefix "; " (String c (x +:+ rest)) = false).
    { cbn [String.prefix] in Hp |- *.
      destruct (ascii_dec ";" c) as [_|_]; [|reflexivity].
      destruct x as [|d x].
      - change ("" +:+ rest) with rest.
        destruct Hrest as [->|(rest' & ->)]; [reflexivity|].
        change ("; " +:+ rest') with (String ";" (String " " rest')).
        cbn [String.prefix]. by destruct (ascii_dec " " ";").
      - rewrite string_app_cons. cbn [String.prefix] in Hp |- *.
        destruct (ascii_dec " " d) as [_|_]; [|reflexivity].
        by rewrite prefix_nil_l in Hp. }
    rewrite P, (IH _ _ Hx Hrest). by rewrite string_app_assoc.
Qed.

Lemma split_go_sep cur rest :
  split_go "; " 0 cur ("; " +:+ rest) = cur :: split_go "; " 0 "" rest.
Proof.
  change ("; " +:+ rest) with (String ";" (String " " rest)).
  assert (P : String.prefix "; " (String ";" (String " " rest)) = true)
    by (apply prefix_app; by exists rest).
  unfold split_go at 1; fold split_go. rewrite P. reflexivity.
Qed.

Lemma split_join_go l : forall cur,
  l <> [] -> Forall (fun x => str_in "; " x = false) l ->
  split_go "; " 0 cur (String.concat "; " l) =
  (cur +:+ hd "" l) :: tl l.
Proof.
  induction l as [|x l IH]; intros cur Hne Hall; [done|].
  apply Forall_cons in Hall as [Hx Hall].
  destruct l as [|y l].
  - cbn [String.concat hd tl].
    rewrite <- (string_app_nil_r x) at 1.
    rewrite (split_go_piece x cur "" Hx) by auto. reflexivity.
  - change (String.concat "; " (x :: y :: l))
      with (x +:+ "; " +:+ String.concat "; " (y :: l)).
    rewrite (split_go_piece x cur _ Hx) by eauto.
    rewrite split_go_sep. cbn [hd tl]. f_equal.
    rewrite (IH "" ltac:(discriminate) Hall). reflexivity.
Qed.

(** X9.  Splitting at ["; "] undoes joining with ["; "] for a non-empty list
    whose elements do not contain ["; "]; the join of the empty list splits
    into one empty string. *)
Theorem split_join_round_trip (l : list string) :
  Forall (fun x => str_in "; " x = false) l ->
  (l <> [] -> py_split (String.concat "; " l) "; " = l) /\
  (l = [] -> py_split (String.concat "; " l) "; " = [""]).
Proof.
  intros Hall. split.
  - intros Hne. unfold py_split. rewrite (split_join_go l "" Hne Hall).
    destruct l; [done | reflexivity].
  - intros ->. reflexivity.
Qed.

Lemma texts_without_separator :
  Forall (fun x => str_in "; " x = false)
    (rec_default :: triggered_texts ++ [rec_checkups; rec_diet]).
Proof. repeat constructor. Qed.

Lemma recommendations_without_separator (data : gmap string value) risks recs :
  calculate_disease_risk data = Ok (risks, recs) ->
  recs <> [] /\ Forall (fun x => str_in "; " x = false) recs.
Proof.
  intros H. apply recommendations_shape in H as (T & Hsub & _ & ->).
  pose proof texts_without_separator as Hall.
  apply Forall_cons in Hall as [Hd Hall].
  apply Forall_app in Hall as [Ht Hc].
  assert (HT : Forall (fun x => str_in "; " x = false) T).
  { apply List.Forall_forall. intros x Hx. apply list_elem_of_In in Hx.
    apply (sublist_subseteq _ _ Hsub) in Hx.
    rewrite List.Forall_forall in Ht. apply Ht. by apply list_elem_of_In. }
  unfold general_recommendations. split.
  - destruct T; discriminate.
  - destruct T as [|t T'].
    + cbn [app]. by constructor.
    + rewrite <- app_assoc. apply Forall_app. split; [exact HT | exact Hc].
Qed.

Lemma save_prediction_shown (data : gmap string value) risks recs
    now db user_id db' :
  calculate_disease_risk data = Ok (risks, recs) ->
  save_prediction now db user_id data risks recs = Ok db' ->
  exists row, db' = db ++ [row] /\ p_user_id row = user_id /\
    p_created_at row = now /\ shown_recommendations row = recs.
Proof.
  intros Hc Hs. apply recommendations_without_separator in Hc as [Hne Hall].
  unfold save_prediction in Hs. apply bind_Ok in Hs as (row & Hrow & Hs).
  injection Hs as <-. exists row. split; [reflexivity|].
  unfold prediction_row_of in Hrow. cbn zeta in Hrow. nf_inv Hrow.
  injection Hrow as <-. cbn. split; [reflexivity|]. split; [reflexivity|].
  by apply split_join_round_trip.
Qed.

(** X10.  When the result of the scoring function is saved, the new row is
    appended for that account with that timestamp, and the history page
    shows for it exactly the recommendations that were computed, in order. *)
Theorem saved_recommendations_shown (data : gmap string value) risks recs
    now db user_id db' :
  calculate_disease_risk data = Ok (risks, recs) ->
  save_prediction now db user_id data risks recs = Ok db' ->
  exists row, db' = db ++ [row] /\ p_user_id row = user_id /\
    p_created_at row = now /\ shown_recommendations row = recs.
Proof. apply save_prediction_shown. Qed.

Lemma next_id_fresh {A : Type} (id : A -> Z) (table : list A) :
  0 < next_id id table /\ Forall (fun r => id r < next_id id table) table.
Proof.
  unfold next_id. induction table as [|x t [IH0 IH]]; cbn [fold_right].
  - split; [lia | constructor].
  - split; [lia|]. constructor; [lia|].
    eapply Forall_impl; [exact IH|]. cbn. intros; lia.
Qed.

Ltac save_raise_step H :=
  lazymatch type of H with
  | Ok _ = Raise _ => discriminate H
  | bind (getitem ?d ?k) _ = Raise _ =>
      let E := fresh "E" in
      destruct (getitem d k) eqn:E; cbn [bind] in H;
      [| injection H as <-; apply getitem_Raise in E as [E ->];
         eexists; split; [|split; [exact E | reflexivity]];
         cbn [In]; repeat first [left; reflexivity | right] ]
  end.

Lemma save_prediction_present now db user_id (data : gmap string value)
    risks recs :
  Forall (fun k => is_present (data !! k) = true) save_keys ->
  exists row,
    save_prediction now db user_id data risks recs = Ok (db ++ [row]) /\
    p_user_id row = user_id /\ p_created_at row = now /\
    p_hba1c row = get data "hba1c" (VNum 0) /\
    Forall (fun r => p_id r < p_id row) db.
Proof.
  intros Hall. unfold save_keys in Hall.
  repeat match type of Hall with
         | Forall _ (?k :: _) =>
             let Hk := fresh "Hk" in
             apply Forall_cons in Hall as [Hk Hall];
             destruct (data !! k) eqn:?; [clear Hk | discriminate Hk]
         end.
  unfold save_prediction, prediction_row_of. cbn zeta.
  repeat match goal with
         | E : data !! ?k = Some _ |- _ =>
             rewrite (getitem_Some _ _ _ E); clear E
         end.
  cbn [bind]. eexists. split; [reflexivity|]. cbn.
  repeat split. apply next_id_fresh.
Qed.

Lemma save_prediction_raise now db user_id (data : gmap string value)
    risks recs e :
  save_prediction now db user_id data risks recs = Raise e ->
  exists k, In k save_keys /\ data !! k = None /\ e = KeyError k.
Proof.
  intros H. unfold save_prediction, prediction_row_of in H. cbn zeta in H.
  match type of H with
  | bind ?m _ = _ => destruct m as [row|e'] eqn:Hrow; cbn [bind] in H
  end; [discriminate H|].
  injection H as <-. repeat save_raise_step Hrow.
Qed.

Lemma save_prediction_Ok_present now db user_id (data : gmap string value)
    risks recs db' k :
  save_prediction now db user_id data risks recs = Ok db' ->
  In k save_keys -> data !! k <> None.
Proof.
  intros H Hin. unfold save_prediction, prediction_row_of in H. cbn zeta in H.
  apply bind_Ok in H as (row & H & _). nf_inv H.
  unfold save_keys in Hin. cbn [In] in Hin.
  repeat (destruct Hin as [<-|Hin];
          [match goal with
           | E : getitem data _ = Ok _ |- _ => apply getitem_Ok in E; congruence
           end|]).
  destruct Hin.
Qed.

(** X11.  If the record lacks one of the fifteen keys [save_prediction]
    reads, a [KeyError] is raised; a [KeyError] it raises names one of
    those keys, missing from the record.  If the record has the fifteen
    keys, and its numbers, the account id and the next row id are within
    the range of SQLite's 64-bit integers, one row is appended: it has the
    account id and the timestamp, an id larger than every id of the table,
    and HbA1c 0 when the record has none. *)
Theorem save_prediction_outcome now db user_id (data : gmap string value)
    risks recs :
  (forall k, In k save_keys -> data !! k = None ->
     exists k', save_prediction now db user_id data risks recs = Raise (KeyError k')) /\
  (forall k,
     save_prediction now db user_id data risks recs = Raise (KeyError k) ->
     In k save_keys /\ data !! k = None) /\
  (Forall (fun k => is_present (data !! k) = true) save_keys ->
   Forall (fun k => fits_int64 (data !! k) = true) ("hba1c" :: save_keys) ->
   - 2 ^ 63 <= user_id < 2 ^ 63 ->
   next_id p_id db < 2 ^ 63 ->
   exists row,
     save_prediction now db user_id data risks recs = Ok (db ++ [row]) /\
     p_user_id row = user_id /\ p_created_at row = now /\
     (data !! "hba1c" = None -> p_hba1c row = VNum 0) /\
     Forall (fun r => p_id r < p_id row) db).
Proof.
  split; [|split].
  - intros k Hin Hk.
    destruct (save_prediction now db user_id data risks recs) as [db'|e] eqn:H.
    + by destruct (save_prediction_Ok_present _ _ _ _ _ _ _ _ H Hin).
    + apply save_prediction_raise in H as (k' & _ & _ & ->). by exists k'.
  - intros k H. apply save_prediction_raise in H as (k' & Hin & Hk & E).
    injection E as ->. by split.
  - intros Hall _ _ _.
    destruct (save_prediction_present now db user_id data risks recs Hall)
      as (row & Hs & Hu & Ht & Hh & Hid).
    exists row. repeat split; try assumption.
    intros Hn. rewrite Hh. unfold get. by rewrite Hn.
Qed.

(** X12.  A record without a family history, which the scoring function
    accepts, is never saved: [save_prediction] raises a [KeyError]. *)
Theorem unsaved_without_family_history now db user_id (data : gmap string value)
    risks recs :
  data !! "family_history" = None ->
  exists k, save_prediction now db user_id data risks recs = Raise (KeyError k).
Proof.
  intros Hf.
  destruct (save_prediction now db user_id data risks recs) as [db'|e] eqn:H.
  - exfalso. unfold save_prediction, prediction_row_of in H. cbn zeta in H.
    apply bind_Ok in H as (row & H & _). nf_inv H.
    match goal with
    | E : getitem data "family_history" = Ok _ |- _ =>
        apply getitem_Ok in E; congruence
    end.
  - apply save_prediction_raise in H as (k & _ & _ & ->). by exists k.
Qed.

(** X13.  After any run of saves on an empty table the rows have pairwise
    distinct ids and there is one row per save. *)
Theorem save_all_ids_distinct subs db' :
  save_all [] subs = Ok db' ->
  NoDup (map p_id db') /\ length db' = length subs.
Proof.
  assert (G : forall subs db db',
    NoDup (map p_id db) -> save_all db subs = Ok db' ->
    NoDup (map p_id db') /\ length db' = (length db + length subs)%nat).
  { clear. induction subs as [|s rest IH]; intros db db' Hnd H; cbn [save_all] in H.
    - injection H as <-. split; [exact Hnd | cbn; lia].
    - apply bind_Ok in H as (db1 & Hs & H).
      unfold save_submission, save_prediction in Hs.
      apply bind_Ok in Hs as (row & Hrow & Hs). injection Hs as <-.
      assert (Hid : p_id row = next_id p_id db).
      { unfold prediction_row_of in Hrow. cbn zeta in Hrow. nf_inv Hrow.
        by injection Hrow as <-. }
      apply IH in H as [H1 H2].
      + split; [exact H1|]. rewrite H2, length_app. cbn. lia.
      + rewrite map_app. cbn [map]. apply NoDup_app. split; [exact Hnd|].
        split; [|apply NoDup_singleton].
        intros x Hx Hx'. apply list_elem_of_In in Hx'.
        destruct Hx' as [<-|[]]. apply list_elem_of_In, in_map_iff in Hx
          as (r & Hr & Hin).
        destruct (next_id_fresh p_id db) as [_ Hf].
        rewrite List.Forall_forall in Hf. specialize (Hf r Hin). lia. }
  intros H. apply (G subs [] db') in H; [exact H | constructor].
Qed.

Lemma username_taken_false db username :
  username_taken db username = false <-> ~ In username (map u_username db).
Proof.
  unfold username_taken. rewrite <- not_true_iff_false, existsb_exists, in_map_iff.
  split; intros H (r & H1 & H2); apply H; exists r.
  - split; [exact H2 | by apply String.eqb_eq].
  - apply String.eqb_eq in H2. by split.
Qed.

Lemma email_taken_false db email :
  email_taken db email = false <-> ~ In email (map u_email db).
Proof.
  unfold email_taken. rewrite <- not_true_iff_false, existsb_exists, in_map_iff.
  split; intros H (r & H1 & H2); apply H; exists r.
  - split; [exact H2 | by apply String.eqb_eq].
  - apply String.eqb_eq in H2. by split.
Qed.

Lemma create_user_cases sha order now db username email password full_name dob gender :
  let r := create_user sha order now db username email password full_name dob gender in
  (fst (snd r) = false /\ fst r = db /\
   (username_taken db username = true \/ email_taken db email = true)) \/
  (fst (snd r) = true /\ username_taken db username = false /\
   email_taken db email = false /\
   fst r = db ++ [{| u_id := next_id u_id db; u_username := username;
                     u_email := email; u_password_hash := sha password;
                     u_full_name := full_name; u_date_of_birth := dob;
                     u_gender := gender; u_created_at := now;
                     u_last_login := None |}]).
Proof.
  destruct integrity_error_email as [Hne He].
  cbn zeta. unfold create_user, insert_user, hash_password.
  destruct order, (email_taken db email), (username_taken db username);
    rewrite ?integrity_error_username, ?Hne, ?He; cbn [fst snd]; auto 10.
Qed.

Lemma NoDup_snoc {A : Type} (l : list A) (x : A) :
  NoDup l -> ~ In x l -> NoDup (l ++ [x]).
Proof.
  intros Hl Hx. apply NoDup_app. split; [exact Hl|].
  split; [|apply NoDup_singleton].
  intros y Hy Hy'. apply list_elem_of_In in Hy, Hy'.
  destruct Hy' as [<-|[]]. contradiction.
Qed.

(** X15.  [create_user] keeps usernames, e-mail addresses and ids pairwise
    distinct. *)
Theorem create_user_keeps_unique sha order now db username email password
    full_name dob gender :
  users_ok db ->
  users_ok (fst (create_user sha order now db username email password
                   full_name dob gender)).
Proof.
  intros (Hu & He & Hi).
  destruct (create_user_cases sha order now db username email password
              full_name dob gender) as [(_ & -> & _)|(_ & Tu & Te & ->)].
  - by repeat split.
  - unfold users_ok. rewrite !map_app. cbn [map u_username u_email u_id].
    repeat split; apply NoDup_snoc; try assumption.
    + by apply username_taken_false.
    + by apply email_taken_false.
    + intros Hin. apply in_map_iff in Hin as (r & Hr & Hin).
      destruct (next_id_fresh u_id db) as [_ Hf].
      rewrite List.Forall_forall in Hf. specialize (Hf r Hin). lia.
Qed.

Lemma find_snoc_fresh db username row :
  username_taken db username = false ->
  find (fun r => String.eqb (u_username r) username) (db ++ [row]) =
  find (fun r => String.eqb (u_username r) username) [row].
Proof.
  unfold username_taken. induction db as [|x db IH]; [reflexivity|].
  cbn [existsb app find]. intros H. apply orb_false_iff in H as [Hx H].
  rewrite Hx. by apply IH.
Qed.

(** X16.  After a successful registration, logging in with the same username
    and password succeeds and returns the new account's id, username, full
    name and e-mail; a password with another digest is refused and leaves
    the table as it is. *)
Theorem register_then_login sha order now db username email password
    full_name dob gender now' :
  let r := create_user sha order now db username email password full_name dob gender in
  fst (snd r) = true ->
  snd (authenticate_user sha now' (fst r) username password) =
    (true, Some {| i_id := next_id u_id db; i_username := username;
                   i_full_name := full_name; i_email := email |}) /\
  (forall password',
     sha password' <> sha password ->
     authenticate_user sha now' (fst r) username password' = (fst r, (false, None))).
Proof.
  intros r Hok. subst r.
  destruct (create_user_cases sha order now db username email password
              full_name dob gender) as [(Hf & _)|(_ & Tu & _ & E)];
    [congruence|].
  rewrite E. unfold authenticate_user, verify_password, hash_password.
  rewrite (find_snoc_fresh _ _ _ Tu). cbn [find u_username].
  rewrite String.eqb_refl. cbn [u_password_hash u_id u_full_name u_email].
  split.
  - by rewrite String.eqb_refl.
  - intros p' Hp'. apply String.eqb_neq in Hp'. by rewrite Hp'.
Qed.

(** X17.  [authenticate_user] changes nothing of an account but its last
    login, and that only, to the time of the call, for an account with the
    id it returns on success. *)
Theorem authenticate_user_keeps_accounts sha now db username password :
  let r := authenticate_user sha now db username password in
  map account_of (fst r) = map account_of db /\
  Forall2 (fun old new =>
             u_last_login new = u_last_login old \/
             (u_last_login new = Some now /\
              exists info, snd r = (true, Some info) /\ i_id info = u_id old))
          db (fst r).
Proof.
  cbn zeta. unfold authenticate_user.
  destruct (find _ db) as [u|]; [destruct (verify_password _ _ _)|];
    cbn [fst snd].
  - unfold set_last_login. split.
    + rewrite map_map. apply map_ext. intros a.
      by destruct (u_id a =? u_id u).
    + induction db as [|a db IH]; cbn [map]; constructor; [|exact IH].
      destruct (u_id a =? u_id u) eqn:E; [|by left].
      apply Z.eqb_eq in E. right. split; [reflexivity|].
      eexists. split; [reflexivity|]. by rewrite E.
  - split; [reflexivity|]. induction db; constructor; auto.
  - split; [reflexivity|]. induction db; constructor; auto.
Qed.

(** X14.  The history of an account is empty exactly when the table has no
    row of the account; otherwise its first row, the one the history page
    reports as the latest prediction, is a row of the account whose
    timestamp no other row of the account exceeds. *)
Theorem latest_prediction_first db uid :
  (get_user_predictions db uid = [] <->
   forall r, In r db -> p_user_id r <> uid) /\
  (forall r rest,
     get_user_predictions db uid = r :: rest ->
     In r db /\ p_user_id r = uid /\
     forall r', In r' db -> p_user_id r' = uid ->
                p_created_at r' <= p_created_at r).
Proof.
  unfold get_user_predictions.
  set (mine := List.filter (fun r => p_user_id r =? uid) db).
  pose proof (order_by_created_at_desc_perm mine) as Hp.
  pose proof (order_by_created_at_desc_sorted mine) as Hs.
  assert (Hmine : forall r, In r mine <-> In r db /\ p_user_id r = uid).
  { intros r. unfold mine. rewrite filter_In, Z.eqb_eq. tauto. }
  split.
  - split.
    + intros E r Hin Hu. rewrite E in Hp. apply Permutation_nil in Hp.
      assert (Hr : In r mine) by (apply Hmine; tauto). rewrite Hp in Hr. destruct Hr.
    + intros Hno. destruct (order_by_created_at_desc mine) as [|r rest] eqn:E;
        [reflexivity|].
      assert (Hr : In r mine) by (eapply Permutation_in; [exact Hp | by left]).
      apply Hmine in Hr as [Hin Hu]. destruct (Hno r Hin Hu).
  - intros r rest E. rewrite E in Hp, Hs.
    assert (Hr : In r mine) by (eapply Permutation_in; [exact Hp | by left]).
    apply Hmine in Hr as [Hin Hu]. split; [exact Hin|]. split; [exact Hu|].
    intros r' Hin' Hu'.
    assert (Hr' : In r' (r :: rest)).
    { eapply Permutation_in; [symmetry; exact Hp | apply Hmine; tauto]. }
    destruct Hr' as [<-|Hr']; [lia|].
    apply StronglySorted_inv in Hs as [_ Hall].
    rewrite List.Forall_forall in Hall. apply (Hall r' Hr').
Qed.

(** ** Regular expressions, for the e-mail check of the registration form *)

Lemma string_app_cons' c (a b : string) : String c a +:+ b = String c (a +:+ b).
Proof. reflexivity. Qed.

Lemma string_app_nil_l (a : string) : "" +:+ a = a.
Proof. reflexivity. Qed.

Lemma string_app_eq_nil (a b : string) : a +:+ b = "" -> a = "" /\ b = "".
Proof. destruct a; [auto | discriminate]. Qed.

Lemma string_app_eq_cons (a b : string) c w :
  a +:+ b = String c w ->
  (a = "" /\ b = String c w) \/ (exists a', a = String c a' /\ w = a' +:+ b).
Proof.
  destruct a as [|d a]; [auto|]. rewrite string_app_cons'.
  intros [= -> <-]. right. by exists a.
Qed.

Lemma cat_inv r s w :
  Matches (Cat r s) w ->
  exists w1 w2, w = w1 +:+ w2 /\ Matches r w1 /\ Matches s w2.
Proof. inversion 1; subst; eauto. Qed.

Lemma nullable_spec r : nullable r = true <-> Matches r "".
Proof.
  induction r; cbn [nullable].
  - split; [discriminate | inversion 1].
  - split; [constructor | reflexivity].
  - split; [discriminate | inversion 1].
  - split; [discriminate | inversion 1].
  - rewrite orb_true_iff, IHr1, IHr2. split.
    + intros [H|H]; [by apply MAltL | by apply MAltR].
    + inversion 1; auto.
  - rewrite andb_true_iff, IHr1, IHr2. split.
    + intros [H1 H2]. by apply (MCat _ _ "" "").
    + intros H. apply cat_inv in H as (w1 & w2 & E & H1 & H2).
      symmetry in E. apply string_app_eq_nil in E as [-> ->]. auto.
  - split; [constructor | reflexivity].
Qed.

Lemma star_cons_inv r c w :
  Matches (Star r) (String c w) ->
  exists w1 w2, w = w1 +:+ w2 /\ Matches r (String c w1) /\ Matches (Star r) w2.
Proof.
  intros H. remember (Star r) as R eqn:ER. remember (String c w) as W eqn:EW.
  revert w EW.
  induction H as [| | | | | | |r' w1 w2 H1 _ H2 IH2]; intros w0 EW;
    try discriminate.
  injection ER as ->.
  apply string_app_eq_cons in EW as [[-> ->]|(a' & -> & ->)].
  - by apply IH2.
  - by exists a', w2.
Qed.

Lemma deriv_spec a r : forall w, Matches (deriv a r) w <-> Matches r (String a w).
Proof.
  induction r as [| |c|c|r1 IH1 r2 IH2|r1 IH1 r2 IH2|r IH]; intros w; cbn [deriv].
  - split; inversion 1.
  - split; inversion 1.
  - destruct (Ascii.eqb a c) eqn:E.
    + apply Ascii.eqb_eq in E as ->. split; inversion 1; constructor.
    + apply Ascii.eqb_neq in E. split; inversion 1; congruence.
  - destruct (Ascii.eqb a c) eqn:E.
    + apply Ascii.eqb_eq in E as ->. split; inversion 1; congruence.
    + apply Ascii.eqb_neq in E. split; inversion 1; subst; by constructor.
  - split.
    + inversion 1; subst; [apply MAltL, IH1 | apply MAltR, IH2]; assumption.
    + inversion 1; subst; [apply MAltL, IH1 | apply MAltR, IH2]; assumption.
  - assert (Hcat : forall w,
      Matches (Cat (deriv a r1) r2) w ->
      Matches (Cat r1 r2) (String a w)).
    { intros w0 H. apply cat_inv in H as (w1 & w2 & -> & H1 & H2).
      apply IH1 in H1. apply (MCat _ _ (String a w1) w2 H1 H2). }
    assert (Hinv : forall w,
      Matches (Cat r1 r2) (String a w) ->
      Matches (Cat (deriv a r1) r2) w \/
      (Matches r1 "" /\ Matches r2 (String a w))).
    { intros w0 H. apply cat_inv in H as (w1 & w2 & E & H1 & H2).
      symmetry in E.
      apply string_app_eq_cons in E as [[-> ->]|(a' & -> & ->)].
      - right. by split.
      - left. apply MCat; [by apply IH1 | assumption]. }
    destruct (nullable r1) eqn:N.
    + split.
      * inversion 1; subst; [by apply Hcat|].
        apply nullable_spec in N. apply (MCat _ _ "" _ N). by apply IH2.
      * intros H. apply Hinv in H as [H|[_ H]];
          [by apply MAltL | apply MAltR; by apply IH2].
    + split; [apply Hcat|].
      intros H. apply Hinv in H as [H|[H _]]; [exact H|].
      apply nullable_spec in H. congruence.
  - split.
    + intros H. apply cat_inv in H as (w1 & w2 & -> & H1 & H2).
      apply IH in H1. apply (MStarApp _ (String a w1) w2 H1 H2).
    + intros H. apply star_cons_inv in H as (w1 & w2 & -> & H1 & H2).
      apply MCat; [by apply IH | assumption].
Qed.

Lemma re_match_spec s : forall r, re_match r s = true <-> Matches r s.
Proof.
  induction s as [|a s IH]; intros r; cbn [re_match].
  - apply nullable_spec.
  - rewrite IH. apply deriv_spec.
Qed.

Lemma str_in_char_cons c d (w : string) :
  str_in (String c "") (String d w) = Ascii.eqb c d || str_in (String c "") w.
Proof.
  unfold str_in at 1; fold str_in. f_equal. cbn [String.prefix].
  destruct (ascii_dec c d) as [->|N].
  - rewrite Ascii.eqb_refl. by destruct w.
  - apply Ascii.eqb_neq in N. by rewrite N.
Qed.

Lemma star_notchr c w :
  Matches (Star (NotChr c)) w <-> str_in (String c "") w = false.
Proof.
  split.
  - intros H. remember (Star (NotChr c)) as R eqn:ER.
    induction H as [| | | | | | |r w1 w2 H1 _ H2 IH2]; try discriminate.
    + reflexivity.
    + injection ER as ->. inversion H1 as [| |c' d Hd| | | | |]; subst.
      rewrite string_app_cons', string_app_nil_l, str_in_char_cons.
      rewrite IH2 by reflexivity.
      assert (Ascii.eqb c d = false) by (apply Ascii.eqb_neq; congruence).
      by rewrite H.
  - induction w as [|d w IH]; [constructor|].
    rewrite str_in_char_cons. intros H. apply orb_false_iff in H as [Hd Hw].
    apply Ascii.eqb_neq in Hd.
    apply (MStarApp _ (String d "") w); [constructor; congruence | by apply IH].
Qed.

Lemma plus_notchr c w :
  Matches (Plus (NotChr c)) w <-> w <> "" /\ str_in (String c "") w = false.
Proof.
  unfold Plus. split.
  - intros H. apply cat_inv in H as (w1 & w2 & -> & H1 & H2).
    inversion H1 as [| |c' d Hd| | | | |]; subst.
    rewrite string_app_cons', string_app_nil_l. split; [discriminate|].
    apply star_notchr. apply (MStarApp _ (String d "") w2); [exact H1 | exact H2].
  - intros [Hne H]. destruct w as [|d w]; [done|].
    apply star_notchr in H. apply star_cons_inv in H as (w1 & w2 & -> & H1 & H2).
    inversion H1 as [| |c' d' Hd| | | | |]; subst.
    rewrite string_app_nil_l. apply (MCat _ _ (String d "") w2); assumption.
Qed.

(** X18.  The e-mail check of the registration form accepts exactly the
    strings of the form a@b.c with a, b and c non-empty and free of '@'. *)
Theorem email_check_language (s : string) :
  re_match email_re s = true <->
  exists a b c,
    s = a +:+ "@" +:+ b +:+ "." +:+ c /\
    a <> "" /\ b <> "" /\ c <> "" /\
    str_in "@" a = false /\ str_in "@" b = false /\ str_in "@" c = false.
Proof.
  rewrite re_match_spec. unfold email_re. split.
  - intros H.
    apply cat_inv in H as (a & w & -> & Ha & H).
    apply cat_inv in H as (x & w' & -> & Hx & H).
    apply cat_inv in H as (b & w'' & -> & Hb & H).
    apply cat_inv in H as (y & c & -> & Hy & Hc).
    inversion Hx; subst. inversion Hy; subst.
    apply plus_notchr in Ha as [? ?], Hb as [? ?], Hc as [? ?].
    exists a, b, c. by repeat split.
  - intros (a & b & c & -> & Ha & Hb & Hc & Na & Nb & Nc).
    apply MCat; [by apply plus_notchr|].
    apply (MCat _ _ "@"); [constructor|].
    apply MCat; [by apply plus_notchr|].
    apply (MCat _ _ "."); [constructor|]. by apply plus_notchr.
Qed.

(** ** The pages' handlers *)

Lemma authenticate_user_result sha now db username password :
  let r := authenticate_user sha now db username password in
  (r = (db, (false, None))) \/
  (exists u, In u db /\ u_username u = username /\
     u_password_hash u = sha password /\
     r = (set_last_login now (u_id u) db,
          (true, Some {| i_id := u_id u; i_username := username;
                         i_full_name := u_full_name u; i_email := u_email u |}))).
Proof.
  cbn zeta. unfold authenticate_user, verify_password, hash_password.
  destruct (find _ db) as [u|] eqn:F; [|by left].
  apply find_some in F as [Hin Hu]. apply String.eqb_eq in Hu.
  destruct (String.eqb (sha password) (u_password_hash u)) eqn:E; [|by left].
  apply String.eqb_eq in E. right. exists u. by repeat split.
Qed.

Lemma set_last_login_accounts now id db :
  map account_of (set_last_login now id db) = map account_of db.
Proof.
  unfold set_last_login. rewrite map_map. apply map_ext. intros a.
  by destruct (u_id a =? id).
Qed.

Lemma known_user_accounts db db' info :
  map account_of db' = map account_of db ->
  known_user db info -> known_user db' info.
Proof.
  intros E (r & Hin & H1 & H2 & H3 & H4).
  assert (Hr : In (account_of r) (map account_of db')).
  { rewrite E. by apply in_map. }
  apply in_map_iff in Hr as (r' & Hr' & Hin'). exists r'. split; [exact Hin'|].
  unfold account_of in Hr'. injection Hr' as -> -> -> _ -> _ _ _. auto.
Qed.

Lemma known_user_snoc db row info :
  known_user db info -> known_user (db ++ [row]) info.
Proof.
  intros (r & Hin & H). exists r. split; [|exact H]. apply in_or_app. by left.
Qed.

Lemma session_ok_accounts db db' st :
  map account_of db' = map account_of db -> session_ok db st -> session_ok db' st.
Proof.
  intros E H Hl. destruct (H Hl) as (info & Hi & Hk). exists info.
  split; [exact Hi | by eapply known_user_accounts].
Qed.

Lemma login_session_ok sha now db st username password :
  session_ok db st ->
  let r := authenticate_user sha now db username password in
  session_ok (fst r)
    (if fst (snd r) then {| logged_in := true; session_user_info := snd (snd r) |}
     else st).
Proof.
  intros Hok r. subst r.
  destruct (authenticate_user_result sha now db username password)
    as [->|(u & Hin & Hu & _ & ->)]; cbn [fst snd]; [exact Hok|].
  intros _. eexists. split; [reflexivity|].
  apply (known_user_accounts db); [apply set_last_login_accounts|].
  exists u. by repeat split.
Qed.

(** X20.  If a logged-in session holds the identity of an account of the
    table, it still does after the Login, Demo Login, Create Account and
    Logout buttons. *)
Theorem session_stays_known sha order db st :
  session_ok db st ->
  (forall now username password,
     let r := login_clicked sha now db st username password in
     session_ok (fst (fst r)) (snd (fst r))) /\
  (forall now now',
     let r := demo_login_clicked sha order now now' db st in
     session_ok (fst (fst r)) (snd (fst r))) /\
  (forall now u e p c f d g,
     session_ok (fst (register_submitted sha order now db u e p c f d g)) st) /\
  session_ok db (logout_clicked st).
Proof.
  intros Hok. split; [|split; [|split]].
  - intros now username password. cbn zeta. unfold login_clicked.
    destruct (truthy username && truthy password); [|exact Hok].
    pose proof (login_session_ok sha now db st username password Hok) as H.
    cbn zeta in H.
    destruct (authenticate_user sha now db username password) as [db' [[|] info]];
      exact H.
  - intros now now'. cbn zeta. unfold demo_login_clicked.
    pose proof (create_user_cases sha order now db "demo" "demo@example.com"
                  "demo123" "Demo User" "1990-01-01" "Other") as Hc.
    cbn zeta in Hc.
    destruct (create_user sha order now db "demo" "demo@example.com" "demo123"
                "Demo User" "1990-01-01" "Other") as [db1 m].
    cbn [fst snd] in Hc.
    assert (Hok1 : session_ok db1 st).
    { destruct Hc as [(_ & -> & _)|(_ & _ & _ & ->)]; [exact Hok|].
      intros Hl. destruct (Hok Hl) as (info & Hi & Hk). exists info.
      split; [exact Hi | by apply known_user_snoc]. }
    pose proof (login_session_ok sha now' db1 st "demo" "demo123" Hok1) as H.
    cbn zeta in H.
    destruct (authenticate_user sha now' db1 "demo" "demo123") as [db' [[|] info]];
      exact H.
  - intros now u e p c f d g. unfold register_submitted.
    repeat match goal with
           | |- context [if ?b then (db, _) else _] => destruct b; [exact Hok|]
           end.
    destruct (create_user_cases sha order now db u e p f d g)
      as [(_ & -> & _)|(_ & _ & _ & ->)]; [exact Hok|].
    intros Hl. destruct (Hok Hl) as (info & Hi & Hk). exists info.
    split; [exact Hi | by apply known_user_snoc].
  - intros Hl. discriminate Hl.
Qed.

(** X19.  A registration that is refused leaves the table as it was; one
    that succeeds had a non-empty username, e-mail, password and full name,
    equal password and confirmation, a password of at least six characters
    ([py_len] counts characters, not bytes), an e-mail that passes the
    check, and a username and e-mail not yet in the table, and appended the
    account with the digest of the password.  A password of fewer than six
    characters, given the four fields and a matching confirmation, is
    refused with the message about its length. *)
Theorem register_submitted_validates sha order now db u e p c f d g :
  let r := register_submitted sha order now db u e p c f d g in
  (fst (snd r) = false -> fst r = db) /\
  (fst (snd r) = true ->
   u <> "" /\ e <> "" /\ p <> "" /\ f <> "" /\ p = c /\
   (6 <= py_len p)%nat /\ re_match email_re e = true /\
   username_taken db u = false /\ email_taken db e = false /\
   fst r = db ++ [{| u_id := next_id u_id db; u_username := u; u_email := e;
                     u_password_hash := sha p; u_full_name := f;
                     u_date_of_birth := d; u_gender := g; u_created_at := now;
                     u_last_login := None |}]) /\
  (u <> "" -> e <> "" -> p <> "" -> f <> "" -> p = c -> (py_len p < 6)%nat ->
   r = (db, (false, "Password must be at least 6 characters long!"))).
Proof.
  cbn zeta. unfold register_submitted.
  destruct (forallb truthy [u; e; p; f]) eqn:Hall; cbn [negb].
  2: { split; [reflexivity|]. split; [discriminate|].
       intros Hu He Hp Hf _ _. exfalso.
       cbn [forallb] in Hall. unfold truthy in Hall.
       apply String.eqb_neq in Hu, He, Hp, Hf.
       rewrite Hu, He, Hp, Hf in Hall. cbn in Hall. discriminate Hall. }
  destruct (String.eqb p c) eqn:Hpc; cbn [negb].
  2: { split; [reflexivity|]. split; [discriminate|].
       intros _ _ _ _ E _. apply String.eqb_neq in Hpc. contradiction. }
  destruct (py_len p <? 6)%nat eqn:Hlen;
    [split; [reflexivity|]; split; [discriminate | intros; reflexivity]|].
  apply Nat.ltb_ge in Hlen.
  destruct (re_match email_re e) eqn:He; cbn [negb];
    [|split; [reflexivity|]; split; [discriminate | intros; lia]].
  cbn [forallb] in Hall. unfold truthy in Hall.
  repeat (apply andb_true_iff in Hall as [? Hall]).
  repeat match goal with
         | H : negb (String.eqb _ "") = true |- _ =>
             apply negb_true_iff, String.eqb_neq in H
         end.
  apply String.eqb_eq in Hpc.
  destruct (create_user_cases sha order now db u e p f d g)
    as [(Hf & -> & _)|(Ht & Tu & Te & ->)].
  - split; [reflexivity|]. split; [congruence | intros; lia].
  - split; [congruence|]. split; [intros _; by repeat split | intros; lia].
Qed.

Lemma find_map_same {A : Type} (p : A -> bool) (f : A -> A) (l : list A) :
  (forall a, p (f a) = p a) ->
  find p (map f l) = option_map f (find p l).
Proof.
  intros Hp. induction l as [|a l IH]; [reflexivity|].
  cbn [map find]. rewrite Hp. destruct (p a); [reflexivity | exact IH].
Qed.

Lemma authenticate_after_login sha now now' id db username password :
  snd (authenticate_user sha now' (set_last_login now id db) username password) =
  snd (authenticate_user sha now' db username password).
Proof.
  unfold authenticate_user, set_last_login. rewrite find_map_same.
  - destruct (find _ db) as [u|]; [|reflexivity]. cbn [option_map].
    destruct (u_id u =? id); cbn [u_password_hash u_id u_full_name u_email];
      by destruct (verify_password sha password (u_password_hash u)).
  - intros a. by destruct (u_id a =? id).
Qed.

Lemma username_taken_accounts db' : forall db username,
  map account_of db' = map account_of db ->
  username_taken db' username = username_taken db username.
Proof.
  unfold username_taken.
  induction db' as [|a' db' IH]; intros [|a db] username E; try discriminate E;
    [reflexivity|].
  cbn [map] in E. unfold account_of at 1 3 in E.
  injection E as _ Hu _ _ _ _ _ _ Ht. cbn [existsb].
  by rewrite (IH _ _ Ht), Hu.
Qed.

Lemma authenticate_fresh_row sha now db row password :
  username_taken db (u_username row) = false ->
  u_password_hash row = sha password ->
  authenticate_user sha now (db ++ [row]) (u_username row) password =
    (set_last_login now (u_id row) (db ++ [row]),
     (true, Some {| i_id := u_id row; i_username := u_username row;
                    i_full_name := u_full_name row; i_email := u_email row |})).
Proof.
  intros Tu Hh. unfold authenticate_user, verify_password, hash_password.
  rewrite (find_snoc_fresh _ _ _ Tu). cbn [find].
  by rewrite String.eqb_refl, Hh, String.eqb_refl.
Qed.

(** X21.  On a table without the demo username and e-mail, Demo Login creates
    the demo account and logs in as it; a second Demo Login logs in as the
    same account and changes no account of the table. *)
Theorem demo_login_repeatable sha order db st t1 t1' t2 t2' :
  username_taken db "demo" = false ->
  email_taken db "demo@example.com" = false ->
  let r1 := demo_login_clicked sha order t1 t1' db st in
  let r2 := demo_login_clicked sha order t2 t2' (fst (fst r1)) (snd (fst r1)) in
  snd (fst r1) = {| logged_in := true; session_user_info := Some (demo_info db) |} /\
  snd (fst r2) = {| logged_in := true; session_user_info := Some (demo_info db) |} /\
  length (fst (fst r1)) = S (length db) /\
  map account_of (fst (fst r2)) = map account_of (fst (fst r1)).
Proof.
  intros Tu Te. cbn zeta.
  assert (E1 : demo_login_clicked sha order t1 t1' db st =
    (set_last_login t1' (next_id u_id db)
       (db ++ [{| u_id := next_id u_id db; u_username := "demo";
                  u_email := "demo@example.com"; u_password_hash := sha "demo123";
                  u_full_name := "Demo User"; u_date_of_birth := "1990-01-01";
                  u_gender := "Other"; u_created_at := t1;
                  u_last_login := None |}]),
     {| logged_in := true; session_user_info := Some (demo_info db) |},
     "Demo login successful!")).
  { unfold demo_login_clicked.
    pose proof (create_user_cases sha order t1 db "demo" "demo@example.com"
                  "demo123" "Demo User" "1990-01-01" "Other") as Hc.
    cbn zeta in Hc.
    destruct (create_user sha order t1 db "demo" "demo@example.com" "demo123"
                "Demo User" "1990-01-01" "Other") as [db1 m].
    cbn [fst snd] in Hc.
    destruct Hc as [(_ & _ & [H|H])|(_ & _ & _ & ->)]; [congruence..|].
    match goal with
    | |- context [authenticate_user sha t1' (db ++ [?row]) _ _] =>
        pose proof (authenticate_fresh_row sha t1' db row "demo123" Tu eq_refl) as HA
    end.
    cbn [u_username u_id u_full_name u_email] in HA. rewrite HA.
    reflexivity. }
  rewrite E1. cbn [fst snd].
  set (db1 := set_last_login t1' _ _).
  assert (A1 : map account_of db1 = map account_of (db ++ [_]))
    by apply set_last_login_accounts.
  assert (T1 : username_taken db1 "demo" = true).
  { rewrite (username_taken_accounts _ _ _ A1). unfold username_taken.
    rewrite existsb_app. cbn. by rewrite orb_true_r. }
  split; [reflexivity|]. split; [|split].
  - unfold demo_login_clicked.
    pose proof (create_user_cases sha order t2 db1 "demo" "demo@example.com"
                  "demo123" "Demo User" "1990-01-01" "Other") as Hc.
    cbn zeta in Hc.
    destruct (create_user sha order t2 db1 "demo" "demo@example.com" "demo123"
                "Demo User" "1990-01-01" "Other") as [db2 m].
    cbn [fst snd] in Hc.
    destruct Hc as [(_ & -> & _)|(_ & H & _)]; [|congruence].
    pose proof (authenticate_after_login sha t1' t2' (next_id u_id db)
                  (db ++ [{| u_id := next_id u_id db; u_username := "demo";
                             u_email := "demo@example.com";
                             u_password_hash := sha "demo123";
                             u_full_name := "Demo User";
                             u_date_of_birth := "1990-01-01";
                             u_gender := "Other"; u_created_at := t1;
                             u_last_login := None |}]) "demo" "demo123") as Hs.
    fold db1 in Hs.
    match type of Hs with
    | _ = snd (authenticate_user sha t2' (db ++ [?row]) _ _) =>
        pose proof (authenticate_fresh_row sha t2' db row "demo123" Tu eq_refl) as HA
    end.
    cbn [u_username u_id u_full_name u_email] in HA. rewrite HA in Hs.
    cbn [snd] in Hs.
    destruct (authenticate_user sha t2' db1 "demo" "demo123") as [db' [ok info]].
    cbn [snd] in Hs. injection Hs as -> ->. reflexivity.
  - subst db1. unfold set_last_login. rewrite length_map, length_app. cbn. lia.
  - unfold demo_login_clicked.
    pose proof (create_user_cases sha order t2 db1 "demo" "demo@example.com"
                  "demo123" "Demo User" "1990-01-01" "Other") as Hc.
    cbn zeta in Hc.
    destruct (create_user sha order t2 db1 "demo" "demo@example.com" "demo123"
                "Demo User" "1990-01-01" "Other") as [db2 m].
    cbn [fst snd] in Hc.
    destruct Hc as [(_ & -> & _)|(_ & H & _)]; [|congruence].
    destruct (authenticate_user_result sha t2' db1 "demo" "demo123")
      as [->|(u & _ & _ & _ & ->)]; cbn [fst snd]; [reflexivity|].
    apply set_last_login_accounts.
Qed.

Ltac eval_lookups :=
  repeat match goal with
         | |- context [@lookup _ _ (gmap string value) _ ?k ?m] =>
             let v := eval vm_compute in (m !! k) in
             change (m !! k) with v
         end.

(** X22.  Submitting the prediction form with an empty patient name saves
    nothing.  With a name, whatever the other widgets hold, nothing is
    raised: the record is scored, one row is appended for the logged-in
    account with that name and timestamp, and the history page shows the
    computed recommendations for it. *)
Theorem predict_submitted_saves now db user_id (f : form_inputs) :
  (f_patient_name f = "" -> predict_submitted now db user_id f = Ok (db, None)) /\
  (f_patient_name f <> "" ->
   exists risks recs row,
     predict_submitted now db user_id f = Ok (db ++ [row], Some (risks, recs)) /\
     calculate_disease_risk (patient_data_of f) = Ok (risks, recs) /\
     p_user_id row = user_id /\ p_created_at row = now /\
     p_patient_name row = VStr (f_patient_name f) /\
     shown_recommendations row = recs).
Proof.
  unfold predict_submitted, truthy. split.
  - intros ->. reflexivity.
  - intros Hn. apply String.eqb_neq in Hn. rewrite Hn. cbn [negb]. cbn zeta.
    assert (Hacc : accepted (patient_data_of f) = true).
    { destruct f. unfold accepted, diastolic_ok, patient_data_of.
      cbn [f_patient_name f_age f_gender f_bmi f_smoking_status
           f_alcohol_consumption f_bp_systolic f_bp_diastolic f_cholesterol_total
           f_cholesterol_hdl f_cholesterol_ldl f_blood_sugar_fasting
           f_blood_sugar_random f_hba1c f_exercise_frequency f_family_history].
      eval_lookups. cbn [is_num is_str is_present num_or_absent str_or_absent].
      by rewrite orb_true_r. }
    apply accepted_returns in Hacc as [[risks recs] Hc].
    assert (Hkeys : Forall (fun k => is_present (patient_data_of f !! k) = true)
                      save_keys).
    { destruct f. unfold patient_data_of.
      cbn [f_patient_name f_age f_gender f_bmi f_smoking_status
           f_alcohol_consumption f_bp_systolic f_bp_diastolic f_cholesterol_total
           f_cholesterol_hdl f_cholesterol_ldl f_blood_sugar_fasting
           f_blood_sugar_random f_hba1c f_exercise_frequency f_family_history].
      unfold save_keys. repeat constructor; eval_lookups; reflexivity. }
    destruct (save_prediction_present now db user_id _ risks recs Hkeys)
      as (row & Hs & _).
    destruct (save_prediction_shown _ _ _ _ _ _ _ Hc Hs)
      as (row' & E & Hu & Ht & Hr).
    apply app_inj_tail in E as [_ <-].
    exists risks, recs, row. rewrite Hc. cbn [bind]. rewrite Hs. cbn [bind].
    repeat split; try assumption.
    unfold save_prediction, prediction_row_of in Hs. cbn zeta in Hs.
    apply bind_Ok in Hs as (r0 & Hrow & Hs). injection Hs as Hs.
    apply app_inj_tail in Hs as [_ ->]. nf_inv Hrow. injection Hrow as <-.
    cbn [p_patient_name].
    match goal with
    | E : getitem _ "patient_name" = Ok _ |- _ =>
        apply getitem_Ok in E; destruct f; vm_compute in E; by injection E as <-
    end.
Qed.

(** X23.  The bar of a score is red exactly when its level is HIGH RISK,
    orange when MODERATE RISK and green when LOW RISK; the level is HIGH
    RISK from 70 and LOW RISK below 40. *)
Theorem color_matches_level (v : Z) :
  (marker_color v = "red" <-> risk_level v = "HIGH RISK") /\
  (marker_color v = "orange" <-> risk_level v = "MODERATE RISK") /\
  (marker_color v = "green" <-> risk_level v = "LOW RISK") /\
  (risk_level v = "HIGH RISK" <-> 70 <= v) /\
  (risk_level v = "LOW RISK" <-> v < 40).
Proof.
  unfold marker_color, risk_level.
  destruct (70 <=? v) eqn:E1; [apply Z.leb_le in E1 | apply Z.leb_gt in E1];
    (destruct (40 <=? v) eqn:E2; [apply Z.leb_le in E2 | apply Z.leb_gt in E2]);
    repeat split; intros; try reflexivity; try discriminate; try lia.
Qed.

End Scoring.

(** * The properties at concrete records

    The records below hold ASCII text only, so the Unicode case mapping is
    not consulted and [ascii_lower] stands for it; the one text with a
    character outside ASCII, [kelvin_stroke], is lower-cased by
    [kelvin_lower]. *)

Lemma risk_scores_in_range_witness :
  exists risks recs,
    calculate_disease_risk ascii_lower example_record = Ok (risks, recs) /\
    map fst risks = disease_names /\
    Forall (fun p => 0 <= snd p <= 100) risks.
Proof.
  eexists _, _. split; [exact (example_record_result ascii_lower)|].
  destruct (risk_scores_in_range ascii_lower example_record _ _ (example_record_result ascii_lower))
    as (Hn & Hr & _).
  split; [exact Hn | exact Hr].
Defined.

Lemma cardiovascular_example_55_witness :
  score_of [("Cardiovascular Disease", 55); ("Type 2 Diabetes", 15);
            ("Hypertension", 30); ("Metabolic Syndrome", 35); ("Stroke", 25)]
           "Cardiovascular Disease" = Some 55.
Proof.
  refine (proj2 (cardiovascular_example_55 ascii_lower example_record "Male" _ _ _ _ _ _ _ _ _ _)
            _ _ (example_record_result ascii_lower));
    vm_compute; reflexivity.
Defined.

Lemma recommendations_assembly_witness :
  exists cv db ht cv_recs db_recs ht_recs,
    cardiovascular ascii_lower example_record [] = Ok (cv, cv_recs) /\
    diabetes ascii_lower example_record [] = Ok (db, db_recs) /\
    hypertension ascii_lower example_record [] = Ok (ht, ht_recs) /\
    let triggered := cv_recs ++ db_recs ++ ht_recs in
    Forall (fun r => In r triggered_texts) triggered /\
    [rec_blood_pressure; rec_checkups; rec_diet] =
      match triggered with
      | [] => [rec_default]
      | _ :: _ => triggered
      end ++ [rec_checkups; rec_diet].
Proof.
  exact (recommendations_assembly ascii_lower example_record _ _ (example_record_result ascii_lower)).
Defined.

(** C10, counterexample to the claim as worded: gender is a categorical
    field and its test is not case-sensitive.  'MALE' scores as 'male'
    does, 10 cardiovascular points above 'Female'. *)
Lemma gender_test_ignores_case :
  calculate_disease_risk ascii_lower (<["gender" := VStr "MALE"]> example_record) =
    Ok ([("Cardiovascular Disease", 55); ("Type 2 Diabetes", 15);
         ("Hypertension", 30); ("Metabolic Syndrome", 35); ("Stroke", 25)],
        [rec_blood_pressure; rec_checkups; rec_diet]) /\
  calculate_disease_risk ascii_lower (<["gender" := VStr "male"]> example_record) =
    Ok ([("Cardiovascular Disease", 55); ("Type 2 Diabetes", 15);
         ("Hypertension", 30); ("Metabolic Syndrome", 35); ("Stroke", 25)],
        [rec_blood_pressure; rec_checkups; rec_diet]) /\
  calculate_disease_risk ascii_lower (<["gender" := VStr "Female"]> example_record) =
    Ok ([("Cardiovascular Disease", 45); ("Type 2 Diabetes", 15);
         ("Hypertension", 30); ("Metabolic Syndrome", 35); ("Stroke", 25)],
        [rec_blood_pressure; rec_checkups; rec_diet]).
Proof. repeat split; vm_compute; reflexivity. Qed.

Lemma categorical_tests_exact_witness :
  (exists risks' recs',
     calculate_disease_risk ascii_lower
       (<["smoking_status" := VStr "current smoker"]> example_record)
       = Ok (risks', recs') /\
     score_of risks' "Cardiovascular Disease" = Some 55 /\
     score_of risks' "Stroke" = Some 25) /\
  (exists risks' recs',
     calculate_disease_risk ascii_lower (<["gender" := VStr "MALE"]> example_record)
       = Ok (risks', recs') /\
     score_of risks' "Cardiovascular Disease" = Some 55).
Proof.
  assert (G0 : calculate_disease_risk ascii_lower
                 (<["gender" := VStr "Female"]> example_record) =
               Ok ([("Cardiovascular Disease", 45); ("Type 2 Diabetes", 15);
                    ("Hypertension", 30); ("Metabolic Syndrome", 35); ("Stroke", 25)],
                   [rec_blood_pressure; rec_checkups; rec_diet]))
    by (vm_compute; reflexivity).
  split;
    [|destruct (proj2 (proj2 (proj2 (categorical_tests_exact ascii_lower example_record)))
                  _ _ _ G0) as (cv & out & Hcv & Hall);
      vm_compute in Hcv; injection Hcv as <- <-;
      destruct (Hall "MALE") as (risks' & recs' & Hc & Hy & _);
      exists risks', recs'; split; [exact Hc | exact (Hy eq_refl)]].
  assert (H0 : calculate_disease_risk ascii_lower
                 (<["smoking_status" := VStr "Never smoked"]> example_record) =
               Ok ([("Cardiovascular Disease", 55); ("Type 2 Diabetes", 15);
                    ("Hypertension", 30); ("Metabolic Syndrome", 35); ("Stroke", 25)],
                   [rec_blood_pressure; rec_checkups; rec_diet]))
    by (vm_compute; reflexivity).
  destruct (proj1 (categorical_tests_exact ascii_lower example_record) _ _ _ H0)
    as (cv & st & out & Hcv & Hst & Hall).
  vm_compute in Hcv. injection Hcv as <- <-.
  vm_compute in Hst. injection Hst as <-.
  destruct (Hall (VStr "current smoker")) as (risks' & recs' & Hc & _ & Hn).
  exists risks', recs'. split; [exact Hc|].
  apply Hn. intros [E|E]; discriminate E.
Defined.

Lemma family_history_tests_witness :
  exists risks1 risks2 risks3 recs,
    calculate_disease_risk kelvin_lower
      (<["family_history" := VStr "Heart Disease"]> example_record)
      = Ok (risks1, recs) /\
    calculate_disease_risk kelvin_lower
      (<["family_history" := VStr "heart disease"]> example_record)
      = Ok (risks2, recs) /\
    calculate_disease_risk kelvin_lower
      (<["family_history" := VStr kelvin_stroke]> example_record)
      = Ok (risks3, recs) /\
    score_of risks1 "Cardiovascular Disease" = Some 75 /\
    score_of risks2 "Cardiovascular Disease" = Some 75 /\
    score_of risks3 "Cardiovascular Disease" = Some 55 /\
    score_of risks3 "Stroke" = Some 55.
Proof.
  assert (H0 : calculate_disease_risk kelvin_lower
                 (<["family_history" := VStr ""]> example_record) =
               Ok ([("Cardiovascular Disease", 55); ("Type 2 Diabetes", 15);
                    ("Hypertension", 30); ("Metabolic Syndrome", 35); ("Stroke", 25)],
                   [rec_blood_pressure; rec_checkups; rec_diet]))
    by (vm_compute; reflexivity).
  destruct (family_history_tests kelvin_lower example_record) as (_ & _ & _ & Hp).
  destruct (Hp _ _ _ H0)
    as (cv & db & ht & st & o1 & o2 & o3 & Hcv & _ & _ & Hst & _ & Hall).
  vm_compute in Hcv. injection Hcv as <- _.
  vm_compute in Hst. injection Hst as <-.
  destruct (Hall "Heart Disease") as (risks1 & E1 & S1 & _).
  destruct (Hall "heart disease") as (risks2 & E2 & S2 & _).
  destruct (Hall kelvin_stroke) as (risks3 & E3 & S3 & _ & _ & T3).
  exists risks1, risks2, risks3, [rec_blood_pressure; rec_checkups; rec_diet].
  split; [exact E1|]. split; [exact E2|]. split; [exact E3|].
  split; [exact S1|]. split; [exact S2|]. split; [exact S3 | exact T3].
Defined.

Lemma hba1c_absent_is_zero_witness :
  exists risks0 recs,
    calculate_disease_risk ascii_lower (delete "hba1c" example_record) = Ok (risks0, recs) /\
    score_of risks0 "Type 2 Diabetes" = Some 15.
Proof.
  assert (H0 : calculate_disease_risk ascii_lower (<["hba1c" := VNum 5.5]> example_record) =
               Ok ([("Cardiovascular Disease", 55); ("Type 2 Diabetes", 15);
                    ("Hypertension", 30); ("Metabolic Syndrome", 35); ("Stroke", 25)],
                   [rec_blood_pressure; rec_checkups; rec_diet]))
    by (vm_compute; reflexivity).
  destruct (proj2 (hba1c_absent_is_zero ascii_lower example_record) _ _ _ H0)
    as (db & out & Hdb & (risks0 & E0 & S0) & _).
  vm_compute in Hdb. injection Hdb as <- _.
  exists risks0, [rec_blood_pressure; rec_checkups; rec_diet].
  split; [exact E0 | exact S0].
Defined.

Lemma glucose_branches_exclusive_witness :
  exists risks' recs',
    calculate_disease_risk ascii_lower (<["blood_sugar_fasting" := VNum 130]> example_record)
      = Ok (risks', recs') /\
    score_of risks' "Type 2 Diabetes" = Some 55 /\
    diabetes ascii_lower (<["blood_sugar_fasting" := VNum 130]> example_record) []
      = Ok (55, [rec_endocrinologist]).
Proof.
  assert (H0 : calculate_disease_risk ascii_lower
                 (<["blood_sugar_fasting" := VNum 90]> example_record) =
               Ok ([("Cardiovascular Disease", 55); ("Type 2 Diabetes", 15);
                    ("Hypertension", 30); ("Metabolic Syndrome", 35); ("Stroke", 25)],
                   [rec_blood_pressure; rec_checkups; rec_diet]))
    by (vm_compute; reflexivity).
  destruct (glucose_branches_exclusive ascii_lower example_record _ _ _ H0)
    as (db & tail & Hbase & _ & _ & Hall).
  specialize (Hbase []). vm_compute in Hbase. injection Hbase as <- <-.
  destruct (Hall 130%Q) as (risks' & recs' & E & Hhigh & _ & _).
  assert (Hg : (126 < 130)%Q) by reflexivity.
  destruct (Hhigh Hg) as (S & D).
  exists risks', recs'. split; [exact E|]. split; [exact S | exact (D [])].
Defined.

Lemma calculate_disease_risk_raises_witness :
  explains (delete "bmi" example_record) (KeyError "bmi").
Proof.
  apply (calculate_disease_risk_raises ascii_lower). vm_compute. reflexivity.
Defined.

Lemma scores_monotone_witness :
  exists risks risks' recs recs',
    calculate_disease_risk ascii_lower (<["age" := VNum 40]> example_record) = Ok (risks, recs) /\
    calculate_disease_risk ascii_lower (<["age" := VNum 60]> example_record) = Ok (risks', recs') /\
    Forall2 no_lower risks risks'.
Proof.
  destruct (calculate_disease_risk ascii_lower (<["age" := VNum 40]> example_record))
    as [[risks recs]|] eqn:E1; [|vm_compute in E1; discriminate E1].
  destruct (calculate_disease_risk ascii_lower (<["age" := VNum 60]> example_record))
    as [[risks' recs']|] eqn:E2; [|vm_compute in E2; discriminate E2].
  exists risks, risks', recs, recs'. split; [reflexivity|]. split; [reflexivity|].
  refine (scores_monotone ascii_lower example_record "age" 40 60 _ _ _ _ _ _ E1 E2).
  - left. reflexivity.
  - apply Qle_bool_imp_le. reflexivity.
Defined.

Lemma hdl_antitone_witness :
  exists risks risks' recs recs',
    calculate_disease_risk ascii_lower (<["cholesterol_hdl" := VNum 35]> example_record)
      = Ok (risks, recs) /\
    calculate_disease_risk ascii_lower (<["cholesterol_hdl" := VNum 60]> example_record)
      = Ok (risks', recs') /\
    Forall2 no_lower risks' risks.
Proof.
  destruct (calculate_disease_risk ascii_lower (<["cholesterol_hdl" := VNum 35]> example_record))
    as [[risks recs]|] eqn:E1; [|vm_compute in E1; discriminate E1].
  destruct (calculate_disease_risk ascii_lower (<["cholesterol_hdl" := VNum 60]> example_record))
    as [[risks' recs']|] eqn:E2; [|vm_compute in E2; discriminate E2].
  exists risks, risks', recs, recs'. split; [reflexivity|]. split; [reflexivity|].
  refine (hdl_antitone ascii_lower example_record 35 60 _ _ _ _ _ E1 E2).
  apply Qle_bool_imp_le. reflexivity.
Defined.

Lemma unused_field_irrelevant_witness :
  calculate_disease_risk ascii_lower (<["cholesterol_ldl" := VNum 190]> example_record) =
  calculate_disease_risk ascii_lower example_record.
Proof.
  refine (proj1 (unused_field_irrelevant ascii_lower example_record "cholesterol_ldl"
                   (VNum 190) _)).
  cbn. intros H.
  repeat match type of H with
         | _ \/ _ => destruct H as [H|H]; [discriminate H|]
         end.
  exact H.
Defined.

Lemma diastolic_not_read_above_140_witness :
  calculate_disease_risk ascii_lower (<["blood_pressure_diastolic" := VStr "n/a"]> example_record) =
  calculate_disease_risk ascii_lower (delete "blood_pressure_diastolic" example_record).
Proof.
  refine (diastolic_not_read_above_140 ascii_lower example_record 150 (VStr "n/a") _ _);
    reflexivity.
Defined.

Lemma recommendations_distinct_witness :
  NoDup [rec_blood_pressure; rec_checkups; rec_diet] /\
  (3 <= length [rec_blood_pressure; rec_checkups; rec_diet] <= 9)%nat.
Proof.
  exact (recommendations_distinct ascii_lower example_record _ _ (example_record_result ascii_lower)).
Defined.

Lemma metabolic_and_stroke_unclamped_witness :
  exists ms st,
    metabolic example_record = Ok ms /\ stroke ascii_lower example_record = Ok st /\
    score_of [("Cardiovascular Disease", 55); ("Type 2 Diabetes", 15);
              ("Hypertension", 30); ("Metabolic Syndrome", 35); ("Stroke", 25)]
      "Metabolic Syndrome" = Some ms /\ 0 <= ms <= 80 /\
    score_of [("Cardiovascular Disease", 55); ("Type 2 Diabetes", 15);
              ("Hypertension", 30); ("Metabolic Syndrome", 35); ("Stroke", 25)]
      "Stroke" = Some st.
Proof.
  exact (metabolic_and_stroke_unclamped ascii_lower example_record _ _ (example_record_result ascii_lower)).
Defined.

Lemma split_join_round_trip_witness :
  py_split (String.concat "; " ["a;"; " b"; "c"]) "; " = ["a;"; " b"; "c"].
Proof.
  refine (proj1 (split_join_round_trip ["a;"; " b"; "c"] _) _).
  - repeat constructor.
  - discriminate.
Defined.

Lemma saved_recommendations_shown_witness :
  exists row,
    save_prediction 1000 [] 1
      (<["patient_name" := VStr "Ann"]>
         (<["cholesterol_ldl" := VNum 100]>
            (<["blood_sugar_random" := VNum 120]> example_record)))
      [("Cardiovascular Disease", 55); ("Type 2 Diabetes", 15);
       ("Hypertension", 30); ("Metabolic Syndrome", 35); ("Stroke", 25)]
      [rec_blood_pressure; rec_checkups; rec_diet] = Ok [row] /\
    shown_recommendations row = [rec_blood_pressure; rec_checkups; rec_diet].
Proof.
  set (data := <["patient_name" := VStr "Ann"]> _).
  assert (Hc : calculate_disease_risk ascii_lower data =
               Ok ([("Cardiovascular Disease", 55); ("Type 2 Diabetes", 15);
                    ("Hypertension", 30); ("Metabolic Syndrome", 35); ("Stroke", 25)],
                   [rec_blood_pressure; rec_checkups; rec_diet]))
    by (vm_compute; reflexivity).
  destruct (save_prediction 1000 [] 1 data _ _) as [db'|e] eqn:Hs;
    [|vm_compute in Hs; discriminate Hs].
  destruct (saved_recommendations_shown ascii_lower data _ _ 1000 [] 1 db' Hc Hs)
    as (row & -> & _ & _ & Hr).
  exists row. split; [reflexivity | exact Hr].
Defined.

Lemma save_prediction_outcome_witness :
  (exists row,
     save_prediction 1000 [] 1 (delete "hba1c" example_patient) [] [] = Ok [row] /\
     p_hba1c row = VNum 0) /\
  (exists k,
     save_prediction 1000 [] 1 (delete "bmi" example_patient) [] [] =
     Raise (KeyError k)).
Proof.
  split.
  - destruct (proj2 (proj2 (save_prediction_outcome 1000 [] 1
                              (delete "hba1c" example_patient) [] [])))
      as (row & Hs & _ & _ & Hh & _).
    + repeat constructor.
    + repeat constructor.
    + lia.
    + reflexivity.
    + exists row. split; [exact Hs | exact (Hh eq_refl)].
  - refine (proj1 (save_prediction_outcome 1000 [] 1 (delete "bmi" example_patient)
                     [] []) "bmi" _ _).
    + unfold save_keys. cbn [In]. do 10 right. left. reflexivity.
    + reflexivity.
Defined.

Lemma unsaved_without_family_history_witness :
  exists k,
    save_prediction 1000 [] 1 (delete "family_history" example_patient) [] [] =
    Raise (KeyError k).
Proof.
  apply unsaved_without_family_history. reflexivity.
Defined.

Lemma save_all_ids_distinct_witness :
  exists db',
    save_all [] example_submissions = Ok db' /\
    NoDup (map p_id db') /\ length db' = 3%nat.
Proof.
  destruct (save_all [] example_submissions) as [db'|e] eqn:E;
    [|vm_compute in E; discriminate E].
  exists db'. split; [reflexivity|].
  exact (save_all_ids_distinct example_submissions db' E).
Defined.

Lemma latest_prediction_first_witness :
  exists db r rest,
    save_all [] example_submissions = Ok db /\
    get_user_predictions db 1 = r :: rest /\
    p_user_id r = 1 /\ p_created_at r = 1010 /\
    forall r', In r' db -> p_user_id r' = 1 -> p_created_at r' <= p_created_at r.
Proof.
  destruct (save_all [] example_submissions) as [db|e] eqn:E;
    [|vm_compute in E; discriminate E].
  destruct (get_user_predictions db 1) as [|r rest] eqn:G.
  - vm_compute in E. injection E as <-. vm_compute in G. discriminate G.
  - exists db, r, rest. split; [reflexivity|]. split; [exact G|].
    destruct (proj2 (latest_prediction_first db 1) r rest G) as (_ & Hu & Hmax).
    split; [exact Hu|]. split; [|exact Hmax].
    vm_compute in E. injection E as <-. vm_compute in G. by injection G as <- _.
Defined.

Lemma create_user_keeps_unique_witness :
  users_ok (fst (create_user demo_hash true 2000 [demo_user] "ann"
                   "ann@example.com" "secret1" "Ann" "1991-02-03" "Female")).
Proof.
  apply create_user_keeps_unique.
  repeat split; apply NoDup_singleton.
Defined.

Lemma register_then_login_witness :
  snd (authenticate_user demo_hash 3000
         (fst (create_user demo_hash true 2000 [demo_user] "ann"
                 "ann@example.com" "secret1" "Ann" "1991-02-03" "Female"))
         "ann" "secret1") =
  (true, Some {| i_id := 2; i_username := "ann"; i_full_name := "Ann";
                 i_email := "ann@example.com" |}).
Proof.
  refine (proj1 (register_then_login demo_hash true 2000 [demo_user] "ann"
                   "ann@example.com" "secret1" "Ann" "1991-02-03" "Female" 3000 _)).
  reflexivity.
Defined.

Lemma register_submitted_validates_witness :
  fst (register_submitted demo_hash true 2000 [demo_user] "ann" "ann@example.com"
         "secret1" "secret1" "Ann" "1991-02-03" "Female") =
  [demo_user;
   {| u_id := 2; u_username := "ann"; u_email := "ann@example.com";
      u_password_hash := demo_hash "secret1"; u_full_name := "Ann";
      u_date_of_birth := "1991-02-03"; u_gender := "Female";
      u_created_at := 2000; u_last_login := None |}] /\
  register_submitted demo_hash true 2000 [demo_user] "ann" "ann@example.com"
    three_e_acute three_e_acute "Ann" "1991-02-03" "Female" =
  ([demo_user], (false, "Password must be at least 6 characters long!")) /\
  fst (register_submitted demo_hash true 2000 [demo_user] "ann" "ann.example.com"
         "secret1" "secret1" "Ann" "1991-02-03" "Female") = [demo_user].
Proof.
  split; [|split].
  - refine (proj2 (proj2 (proj2 (proj2 (proj2 (proj2 (proj2 (proj2 (proj2
              (proj1 (proj2 (register_submitted_validates demo_hash true 2000
                               [demo_user] "ann" "ann@example.com" "secret1"
                               "secret1" "Ann" "1991-02-03" "Female")) _)))))))))).
    reflexivity.
  - refine (proj2 (proj2 (register_submitted_validates demo_hash true 2000
                            [demo_user] "ann" "ann@example.com" three_e_acute
                            three_e_acute "Ann" "1991-02-03" "Female"))
              _ _ _ _ _ _);
      first [discriminate | reflexivity | (vm_compute; lia)].
  - refine (proj1 (register_submitted_validates demo_hash true 2000 [demo_user]
                     "ann" "ann.example.com" "secret1" "secret1" "Ann"
                     "1991-02-03" "Female") _).
    reflexivity.
Defined.

Lemma session_stays_known_witness :
  session_ok [demo_user] demo_session /\
  session_ok
    (fst (register_submitted demo_hash true 2000 [demo_user] "ann" "ann@example.com"
            "secret1" "secret1" "Ann" "1991-02-03" "Female"))
    demo_session /\
  (let r := login_clicked demo_hash 3000 [demo_user] demo_session "ann" "secret1" in
   session_ok (fst (fst r)) (snd (fst r))) /\
  (let r := demo_login_clicked demo_hash true 3000 3001 [demo_user] demo_session in
   session_ok (fst (fst r)) (snd (fst r))).
Proof.
  assert (Hok : session_ok [demo_user] demo_session).
  { intros _. exists (demo_info []). split; [reflexivity|].
    exists demo_user. split; [left; reflexivity|]. repeat split. }
  destruct (session_stays_known demo_hash true [demo_user] demo_session Hok)
    as (Hlogin & Hdemo & Hreg & _).
  split; [exact Hok|]. split; [apply Hreg|]. split; [apply Hlogin | apply Hdemo].
Defined.

Lemma demo_login_repeatable_witness :
  snd (fst (demo_login_clicked demo_hash true 1000 1001 [] initial_session)) =
  {| logged_in := true; session_user_info := Some (demo_info []) |}.
Proof.
  refine (proj1 (demo_login_repeatable demo_hash true [] initial_session
                   1000 1001 2000 2001 _ _));
    reflexivity.
Defined.

Lemma predict_submitted_saves_witness :
  exists risks recs row,
    predict_submitted ascii_lower 1000 [] 1 example_form = Ok ([row], Some (risks, recs)) /\
    shown_recommendations row = recs.
Proof.
  destruct (proj2 (predict_submitted_saves ascii_lower 1000 [] 1 example_form))
    as (risks & recs & row & H & _ & _ & _ & _ & Hr).
  - discriminate.
  - exists risks, recs, row. split; [exact H | exact Hr].
Defined.
